(** * gin-pprof: the profiling coordinator, embedded and verified

    A shallow embedding of the Go packages [core] (tasks, sessions, the
    Manager), [storage] (file and memory backends), [http] (the Gin path
    matcher), [config] (the file provider), of the handler of the
    middleware and the status and tasks views, and of the parts of the Go
    runtime they rest on, followed by the properties of the coordinator.

    Conventions of the embedding:
    - a Go [string] is a Rocq [string] (a sequence of bytes); [range] over
      a string and [string([]rune)] go through the UTF-8 codec of [Utf8];
    - [int64] and [int] are [Z], with the wrap-around of the 64-bit
      arithmetic written out by [wrap64];
    - [[]byte] is [option (list byte)], [None] being the nil slice;
    - [error] is [option string], [None] being nil;
    - a Go [map] is a [gmap]; the order in which [range] visits a map is
      an explicit argument wherever the result depends on it;
    - [time.Time] is the number of nanoseconds since the Unix epoch, and
      every reading of the clock is an argument;
    - calls to the collaborators (logger, storage) are recorded in a trace
      carried by the manager. *)

From Stdlib Require Import ZArith Lia List Ascii String Bool.
From Stdlib.Strings Require Import Byte.
From stdpp Require Import gmap strings list fin_maps pretty.

Local Open Scope Z_scope.

(** ** Go primitives *)

Module Go.

Definition wrap64 (z : Z) : Z := (z + 2 ^ 63) mod 2 ^ 64 - 2 ^ 63.

Definition int64_range (z : Z) : Prop := - 2 ^ 63 <= z < 2 ^ 63.

(** [[]byte]: [None] is the nil slice. *)
Definition bytes : Type := option (list byte).

Definition len (b : bytes) : Z :=
  match b with
  | None => 0
  | Some l => Z.of_nat (List.length l)
  end.

(** [bytes.Buffer]: its contents; [None] until bytes are written.  A write
    of no bytes leaves the buffer as it is. *)
Definition Buffer : Type := bytes.

Definition Buffer_Write (b : Buffer) (p : list byte) : Buffer :=
  match p, b with
  | [], _ => b
  | _, None => Some p
  | _, Some l => Some (l ++ p)
  end.

Definition Buffer_Bytes (b : Buffer) : bytes := b.

(** [error]: [None] is nil, [Some msg] carries [err.Error()]. *)
Definition error : Type := option string.

(** [time.Time], in nanoseconds since the Unix epoch. *)
Definition Time : Type := Z.

(** [t.After(u)] *)
Definition After (t u : Time) : bool := u <? t.

(** [t.Before(u)] *)
Definition Before (t u : Time) : bool := t <? u.

(** [t.Sub(u)]: a [Duration], saturating at the ends of [int64]. *)
Definition Sub (t u : Time) : Z := Z.max (- 2 ^ 63) (Z.min (2 ^ 63 - 1) (t - u)).

(** [t.UnixNano()] *)
Definition UnixNano (t : Time) : Z := wrap64 t.

(** The fields of a time as [Format] reads them in the time's location. *)
Record Civil := {
  year : Z;
  month : Z;
  day : Z;
  hour : Z;
  minute : Z;
  second : Z
}.

Definition byte_of (a : ascii) : Z := Z.of_N (N_of_ascii a).

Definition ascii_of (z : Z) : ascii := ascii_of_N (Z.to_N z).

Fixpoint bytes_of_string (s : string) : list Z :=
  match s with
  | EmptyString => []
  | String a s' => byte_of a :: bytes_of_string s'
  end.

Fixpoint string_of_bytes (l : list Z) : string :=
  match l with
  | [] => EmptyString
  | b :: l' => String (ascii_of b) (string_of_bytes l')
  end.

End Go.

(** ** Package [unicode/utf8] and the conversions between strings and runes *)

Module Utf8.

Import Go.

Definition RuneError : Z := 0xFFFD.
Definition RuneSelf : Z := 0x80.
Definition MaxRune : Z := 0x10FFFF.
Definition surrogateMin : Z := 0xD800.
Definition surrogateMax : Z := 0xDFFF.

(** The table [first]: information about the first byte of an encoding. *)
Definition first (b : Z) : Z :=
  if b <? 0x80 then 0xF0
  else if b <? 0xC2 then 0xF1
  else if b <? 0xE0 then 0x02
  else if b =? 0xE0 then 0x13
  else if b <? 0xED then 0x03
  else if b =? 0xED then 0x23
  else if b <? 0xF0 then 0x03
  else if b =? 0xF0 then 0x34
  else if b <? 0xF4 then 0x04
  else if b =? 0xF4 then 0x44
  else 0xF1.

(** The table [acceptRanges]: the accepted range of the second byte. *)
Definition acceptRanges (i : Z) : Z * Z :=
  if i =? 0 then (0x80, 0xBF)
  else if i =? 1 then (0xA0, 0xBF)
  else if i =? 2 then (0x80, 0x9F)
  else if i =? 3 then (0x90, 0xBF)
  else if i =? 4 then (0x80, 0x8F)
  else (0, 0).

Definition outside (lo hi b : Z) : bool := (b <? lo) || (hi <? b).

(** [utf8.DecodeRuneInString]: the rune at the head of [s] and its width
    in bytes; [(RuneError, 1)] on an invalid or truncated encoding. *)
Definition DecodeRune (s : list Z) : Z * nat :=
  match s with
  | [] => (RuneError, 0%nat)
  | s0 :: t1 =>
      let x := first s0 in
      if 0xF0 <=? x then
        ((if Z.testbit x 0 then RuneError else s0), 1%nat)
      else
        let sz := Z.land x 7 in
        let '(lo, hi) := acceptRanges (Z.shiftr x 4) in
        match t1 with
        | [] => (RuneError, 1%nat)
        | s1 :: t2 =>
            if outside lo hi s1 then (RuneError, 1%nat)
            else if sz <=? 2 then
              (Z.lor (Z.shiftl (Z.land s0 0x1F) 6) (Z.land s1 0x3F), 2%nat)
            else
              match t2 with
              | [] => (RuneError, 1%nat)
              | s2 :: t3 =>
                  if outside 0x80 0xBF s2 then (RuneError, 1%nat)
                  else if sz <=? 3 then
                    (Z.lor (Z.lor (Z.shiftl (Z.land s0 0x0F) 12)
                                  (Z.shiftl (Z.land s1 0x3F) 6))
                           (Z.land s2 0x3F), 3%nat)
                  else
                    match t3 with
                    | [] => (RuneError, 1%nat)
                    | s3 :: _ =>
                        if outside 0x80 0xBF s3 then (RuneError, 1%nat)
                        else
                          (Z.lor (Z.lor (Z.lor (Z.shiftl (Z.land s0 0x07) 18)
                                               (Z.shiftl (Z.land s1 0x3F) 12))
                                        (Z.shiftl (Z.land s2 0x3F) 6))
                                 (Z.land s3 0x3F), 4%nat)
                    end
              end
        end
  end.

(** [for _, r := range s]: the runes the loop visits.  [skip] counts the
    bytes of the current rune still to step over. *)
Fixpoint range_from (skip : nat) (s : list Z) : list Z :=
  match s with
  | [] => []
  | _ :: rest =>
      match skip with
      | S k => range_from k rest
      | O => let '(r, size) := DecodeRune s in r :: range_from (Nat.pred size) rest
      end
  end.

Definition runes (s : string) : list Z := range_from 0 (bytes_of_string s).

Definition byte_trunc (z : Z) : Z := z mod 256.

Definition encode3 (r : Z) : list Z :=
  [Z.lor 0xE0 (byte_trunc (Z.shiftr r 12));
   Z.lor 0x80 (Z.land (byte_trunc (Z.shiftr r 6)) 0x3F);
   Z.lor 0x80 (Z.land (byte_trunc r) 0x3F)].

(** [utf8.AppendRune] (the runtime's [encoderune]). *)
Definition EncodeRune (r : Z) : list Z :=
  let i := r mod 2 ^ 32 in
  if i <=? 0x7F then [byte_trunc r]
  else if i <=? 0x7FF then
    [Z.lor 0xC0 (byte_trunc (Z.shiftr r 6));
     Z.lor 0x80 (Z.land (byte_trunc r) 0x3F)]
  else if (MaxRune <? i) || ((surrogateMin <=? i) && (i <=? surrogateMax)) then
    encode3 RuneError
  else if i <=? 0xFFFF then encode3 r
  else
    [Z.lor 0xF0 (byte_trunc (Z.shiftr r 18));
     Z.lor 0x80 (Z.land (byte_trunc (Z.shiftr r 12)) 0x3F);
     Z.lor 0x80 (Z.land (byte_trunc (Z.shiftr r 6)) 0x3F);
     Z.lor 0x80 (Z.land (byte_trunc r) 0x3F)].

(** [string(rs)] for [rs : []rune]. *)
Definition string_of_runes (rs : list Z) : string :=
  string_of_bytes (concat (map EncodeRune rs)).

(** A Unicode scalar value: what [EncodeRune] encodes as itself. *)
Definition valid_rune (r : Z) : Prop :=
  0 <= r <= MaxRune /\ ~ (surrogateMin <= r <= surrogateMax).

Definition is_byte (b : Z) : Prop := 0 <= b < 256.

Definition ascii_only (s : string) : Prop :=
  Forall (fun b => b < RuneSelf) (bytes_of_string s).

(** *** The codec in arithmetic

    UTF-8 as the Unicode standard tabulates it, without tables or bit
    operations; the Go functions above are shown to compute it. *)

Definition encode_arith (r : Z) : list Z :=
  if r <? 0x80 then [r]
  else if r <? 0x800 then [192 + r / 64; 128 + r mod 64]
  else if r <? 0x10000 then [224 + r / 4096; 128 + (r / 64) mod 64; 128 + r mod 64]
  else [240 + r / 262144; 128 + (r / 4096) mod 64; 128 + (r / 64) mod 64; 128 + r mod 64].

(** The bounds of the second byte, by first byte. *)
Definition second_lo (b0 : Z) : Z :=
  if b0 =? 0xE0 then 0xA0 else if b0 =? 0xF0 then 0x90 else 0x80.

Definition second_hi (b0 : Z) : Z :=
  if b0 =? 0xED then 0x9F else if b0 =? 0xF4 then 0x8F else 0xBF.

Definition decode_arith (s : list Z) : Z * nat :=
  match s with
  | [] => (RuneError, 0%nat)
  | b0 :: t1 =>
      if b0 <? 0x80 then (b0, 1%nat)
      else if (b0 <? 0xC2) || (0xF4 <? b0) then (RuneError, 1%nat)
      else
        match t1 with
        | [] => (RuneError, 1%nat)
        | b1 :: t2 =>
            if outside (second_lo b0) (second_hi b0) b1 then (RuneError, 1%nat)
            else if b0 <? 0xE0 then ((b0 - 192) * 64 + (b1 - 128), 2%nat)
            else
              match t2 with
              | [] => (RuneError, 1%nat)
              | b2 :: t3 =>
                  if outside 0x80 0xBF b2 then (RuneError, 1%nat)
                  else if b0 <? 0xF0 then
                    ((b0 - 224) * 4096 + (b1 - 128) * 64 + (b2 - 128), 3%nat)
                  else
                    match t3 with
                    | [] => (RuneError, 1%nat)
                    | b3 :: _ =>
                        if outside 0x80 0xBF b3 then (RuneError, 1%nat)
                        else
                          ((b0 - 240) * 262144 + (b1 - 128) * 4096
                           + (b2 - 128) * 64 + (b3 - 128), 4%nat)
                    end
              end
        end
  end.

End Utf8.

(** ** Package [strings] *)

Module Strings.

Import Go.

Section EqualFold.

(** The general path of [strings.EqualFold] (label [hasUnicode]), entered
    with the two remaining suffixes as soon as a byte of either string is
    not ASCII.  It consults the Unicode case-folding tables of the Go
    runtime, which are taken as given. *)
Variable hasUnicode : string -> string -> bool.

(** [strings.EqualFold]: the ASCII loop of the Go source. *)
Fixpoint EqualFold (s t : string) : bool :=
  match s, t with
  | String sa s', String ta t' =>
      let sr := byte_of sa in
      let tr := byte_of ta in
      if 128 <=? Z.lor sr tr then hasUnicode s t
      else if tr =? sr then EqualFold s' t'
      else
        let lo := Z.min sr tr in
        let hi := Z.max sr tr in
        if (65 <=? lo) && (lo <=? 90) && (hi =? (lo + 97 - 65) mod 256)
        then EqualFold s' t'
        else false
  | EmptyString, EmptyString => true
  | _, _ => false
  end.

End EqualFold.

(** [strings.Trim(s, cutset)] for a cutset of one ASCII byte [c]. *)
Fixpoint TrimLeft (s : string) (c : ascii) : string :=
  match s with
  | EmptyString => EmptyString
  | String a s' => if Ascii.eqb a c then TrimLeft s' c else s
  end.

Fixpoint TrimRight (s : string) (c : ascii) : string :=
  match s with
  | EmptyString => EmptyString
  | String a s' =>
      match TrimRight s' c with
      | EmptyString => if Ascii.eqb a c then EmptyString else String a EmptyString
      | r => String a r
      end
  end.

Definition Trim (s : string) (c : ascii) : string := TrimRight (TrimLeft s c) c.

(** [strings.Split(s, sep)] for a separator of one byte [c]. *)
Fixpoint Split (s : string) (c : ascii) : list string :=
  match s with
  | EmptyString => [EmptyString]
  | String a s' =>
      if Ascii.eqb a c then EmptyString :: Split s' c
      else
        match Split s' c with
        | h :: t => String a h :: t
        | [] => [String a EmptyString]
        end
  end.

(** [strings.HasPrefix(s, prefix)] for a prefix of one byte [c]. *)
Definition HasPrefix (s : string) (c : ascii) : bool :=
  match s with
  | EmptyString => false
  | String a _ => Ascii.eqb a c
  end.

(** [strings.ReplaceAll(s, old, new)] for an [old] of one byte [c]. *)
Fixpoint ReplaceAll (s : string) (c : ascii) (new : string) : string :=
  match s with
  | EmptyString => EmptyString
  | String a s' =>
      (if Ascii.eqb a c then new else String a EmptyString) +:+ ReplaceAll s' c new
  end.

(** Two functions of package [strings] the program does not call itself;
    the properties of [Split] are stated with them, and [filepath.Clean]
    below is written with [Join].
    [strings.Count(s, substr)] for a [substr] of one byte [c]. *)
Fixpoint Count (s : string) (c : ascii) : nat :=
  match s with
  | EmptyString => 0%nat
  | String a s' => if Ascii.eqb a c then Datatypes.S (Count s' c) else Count s' c
  end.

(** [strings.Join(elems, sep)] for a separator of one byte [c]. *)
Fixpoint Join (elems : list string) (c : ascii) : string :=
  match elems with
  | [] => EmptyString
  | [e] => e
  | e :: rest => e +:+ String c (Join rest c)
  end.

(** Zero-padding of a decimal numeral to [width] digits. *)
Definition zero_pad (width : nat) (digits : string) : string :=
  String.concat EmptyString (replicate (width - String.length digits) "0"%string) +:+ digits.

(** [appendInt] of package [time]: [x] in decimal, at least [width] digits. *)
Definition appendInt (x : Z) (width : nat) : string :=
  (if x <? 0 then "-"%string else EmptyString) +:+ zero_pad width (pretty (Z.abs x)).

(** [t.Format("20060102_150405")] on the fields of [t]. *)
Definition Format_20060102_150405 (c : Civil) : string :=
  appendInt (year c) 4 +:+ appendInt (month c) 2 +:+ appendInt (day c) 2 +:+ "_"
  +:+ appendInt (hour c) 2 +:+ appendInt (minute c) 2 +:+ appendInt (second c) 2.

(** The verb [%d] of [fmt.Sprintf] on an [int64]. *)
Definition itoa (x : Z) : string := pretty x.

End Strings.

(** ** Package [path/filepath], on Unix *)

Module Filepath.

(** The loop of [filepath.Clean], element by element (an element is what
    lies between two slashes), [out] being the elements written so far:
    an empty element and [.] are skipped; [..] removes the last element
    written, unless nothing is written or the last element is a [..]
    itself, in which case it is written when the path is not rooted and
    skipped when it is. *)
Fixpoint clean_elems (rooted : bool) (out elems : list string) : list string :=
  match elems with
  | [] => out
  | e :: rest =>
      if bool_decide (e = ""%string) || bool_decide (e = "."%string)
      then clean_elems rooted out rest
      else if bool_decide (e = ".."%string) then
        match last out with
        | Some l =>
            if bool_decide (l = ".."%string)
            then clean_elems rooted (out ++ [e]) rest
            else clean_elems rooted (removelast out) rest
        | None =>
            if rooted then clean_elems rooted out rest
            else clean_elems rooted (out ++ [e]) rest
        end
      else clean_elems rooted (out ++ [e]) rest
  end.

(** [filepath.Clean]: the empty path and a path that cleans to nothing
    are [.]. *)
Definition Clean (path : string) : string :=
  if bool_decide (path = ""%string) then "."%string
  else
    let rooted := Strings.HasPrefix path "/" in
    let out := clean_elems rooted [] (Strings.Split path "/") in
    if rooted then "/" +:+ Strings.Join out "/"
    else
      match out with
      | [] => "."%string
      | _ => Strings.Join out "/"
      end.

(** [filepath.Join(a, b)]: the elements from the first non-empty one on,
    joined by a slash and cleaned; the empty string when both are empty. *)
Definition Join (a b : string) : string :=
  if bool_decide (a = ""%string)
  then (if bool_decide (b = ""%string) then ""%string else Clean b)
  else Clean (a +:+ "/" +:+ b).

End Filepath.

(** ** Package [http]: the Gin path matcher (gin.go) *)

Module Http.

Import Go.

(** The loop of [GinPathMatcher.Match] over the template's segments; the
    two slices have the same length. *)
Fixpoint matchParts (templateParts actualParts : list string) : bool :=
  match templateParts, actualParts with
  | templatePart :: ts, actualPart :: acts =>
      if Strings.HasPrefix templatePart ":" || bool_decide (templatePart = "*"%string)
      then matchParts ts acts
      else if negb (bool_decide (templatePart = actualPart)) then false
      else matchParts ts acts
  | _, _ => true
  end.

Definition GinPathMatcher_Match (template actual : string) : bool :=
  let templateParts := Strings.Split (Strings.Trim template "/") "/" in
  let actualParts := Strings.Split (Strings.Trim actual "/") "/" in
  if negb (List.length templateParts =? List.length actualParts)%nat then false
  else matchParts templateParts actualParts.

(** [s[1:]], for a string the caller has checked to be non-empty. *)
Definition from1 (s : string) : string :=
  match s with
  | EmptyString => EmptyString
  | String _ s' => s'
  end.

(** The loop of [GinPathMatcher.ExtractParams]; the two slices have the
    same length. *)
Fixpoint extractParts (templateParts actualParts : list string)
    (params : gmap string string) : gmap string string :=
  match templateParts, actualParts with
  | templatePart :: ts, actualPart :: acts =>
      if Strings.HasPrefix templatePart ":"
      then
        let paramName := from1 templatePart in
        extractParts ts acts (<[paramName := actualPart]> params)
      else extractParts ts acts params
  | _, _ => params
  end.

Definition GinPathMatcher_ExtractParams (template actual : string) : gmap string string :=
  let params : gmap string string := ∅ in
  let templateParts := Strings.Split (Strings.Trim template "/") "/" in
  let actualParts := Strings.Split (Strings.Trim actual "/") "/" in
  if negb (List.length templateParts =? List.length actualParts)%nat then params
  else extractParts templateParts actualParts params.

(** What [GinContext] reads of the [gin.Context] it wraps: the route
    template Gin matched ([FullPath], empty when no route matched), the
    path of the request URL and the request method. *)
Record GinContext := {
  FullPath : string;
  URLPath : string;
  Method : string
}.

Definition GetPath (g : GinContext) : string :=
  let path := FullPath g in
  if bool_decide (path = ""%string) then URLPath g else path.

Definition GetMethod (g : GinContext) : string := Method g.

Definition GetRequestPath (g : GinContext) : string := URLPath g.

(** A value of type [interface{}]: nil, a Go [string], or a value of
    another dynamic type (a named string type is another type). *)
Inductive Dynamic :=
| DNil
| DString (s : string)
| DOther (tag : nat).

(** [keyToString]: the type assertion [key.(string)] holds for a [string]
    only. *)
Definition keyToString (key : Dynamic) : string :=
  match key with
  | DString str => str
  | _ => ""%string
  end.

(** [SetContext] and [GetContext] on the map [Keys] of the [gin.Context]. *)
Definition SetContext (keys : gmap string Dynamic) (key value : Dynamic)
  : gmap string Dynamic :=
  <[keyToString key := value]> keys.

Definition GetContext (keys : gmap string Dynamic) (key : Dynamic) : Dynamic :=
  match keys !! keyToString key with
  | None => DNil
  | Some value => value
  end.

(** A template none of whose segments is a parameter or a wildcard. *)
Definition literal (template : string) : Prop :=
  Forall (fun part => Strings.HasPrefix part ":" = false /\ part <> "*"%string)
         (Strings.Split (Strings.Trim template "/") "/").

End Http.

(** ** Package [core]: data model (types.go, options.go) *)

Module Core.

Import Go.

Record ProfilingTask := {
  Path : string;
  Methods : list string;
  ExpiresAt : Time;
  Duration : Z;
  SampleRate : Z;
  ProfileType : string
}.

(** The zero value [ProfilingTask{}]. *)
Definition zeroTask : ProfilingTask :=
  {| Path := ""; Methods := []; ExpiresAt := 0; Duration := 0;
     SampleRate := 0; ProfileType := "" |}.

Record ProfilingStats := {
  TotalRequests : Z;
  ProfiledCount : Z;
  FailedCount : Z;
  ActiveProfiles : Z;
  LastUpdate : Time
}.

Record ProfilingResult := {
  rPath : string;
  rStartTime : Time;
  rDuration : Z;
  rFilename : string;
  rFileSize : Z;
  rProfileType : string;
  rSuccess : bool;
  rError : string
}.

Record Options := {
  MaxConcurrent : Z;
  DefaultDuration : Z;
  CleanupInterval : Z;
  MaxFileAge : Z;
  Enabled : bool;
  ProfileDir : string;
  DefaultSampleRate : Z
}.

Definition Second : Z := 1000000000.

Definition DefaultOptions : Options :=
  {| MaxConcurrent := 3;
     DefaultDuration := 30 * Second;
     CleanupInterval := 10 * 60 * Second;
     MaxFileAge := 24 * 3600 * Second;
     Enabled := true;
     ProfileDir := "./profiles";
     DefaultSampleRate := 1 |}.

(** *** Method matching (the methods of [ProfilingTask]) *)

Section Methods.

Variable hasUnicode : string -> string -> bool.

Definition CommonMethods : list string :=
  ["GET"; "POST"; "PUT"; "DELETE"]%string.

(** [contains]: the loop returns at the first element equal to [item]
    under [strings.EqualFold]. *)
Fixpoint contains (slice : list string) (item : string) : bool :=
  match slice with
  | [] => false
  | s :: rest =>
      if Strings.EqualFold hasUnicode s item then true
      else contains rest item
  end.

Definition ShouldMatchMethod (task : ProfilingTask) (requestMethod : string) : bool :=
  if Z.of_nat (List.length (Methods task)) =? 0 then
    bool_decide (requestMethod = "GET"%string)
  else if contains (Methods task) "*" then
    contains CommonMethods requestMethod
  else
    contains (Methods task) requestMethod.

Fixpoint GetEffectiveMethods_loop (methods result : list string) : list string :=
  match methods with
  | [] => result
  | method :: rest =>
      if bool_decide (method = "*"%string)
      then GetEffectiveMethods_loop rest (result ++ CommonMethods)
      else GetEffectiveMethods_loop rest (result ++ [method])
  end.

Definition GetEffectiveMethods (task : ProfilingTask) : list string :=
  if Z.of_nat (List.length (Methods task)) =? 0 then ["GET"%string]
  else GetEffectiveMethods_loop (Methods task) [].

End Methods.

(** *** Profilers and sessions *)

(** What the Go runtime answers to the calls of package [runtime/pprof]. *)
Record Runtime := {
  (** a CPU profile is being taken in this process *)
  cpuProfiling : bool;
  (** what the CPU profiler has written to its writer when
      [StopCPUProfile] returns *)
  cpuProfile : list byte;
  (** what [WriteHeapProfile] writes, and the error it returns *)
  heapProfile : list byte * error;
  (** [Lookup("goroutine")], [None] being nil; what [WriteTo] writes and
      the error it returns *)
  goroutineProfile : option (list byte * error)
}.

Definition with_cpuProfiling (rt : Runtime) (b : bool) : Runtime :=
  {| cpuProfiling := b; cpuProfile := cpuProfile rt;
     heapProfile := heapProfile rt; goroutineProfile := goroutineProfile rt |}.

Record CPUProfileSession := {
  cpu_task : ProfilingTask;
  cpu_buffer : Buffer;
  cpu_startTime : Time;
  cpu_running : bool
}.

Record HeapProfileSession := {
  heap_task : ProfilingTask;
  heap_startTime : Time;
  heap_running : bool;
  heap_stopped : bool
}.

Record GoroutineProfileSession := {
  gor_task : ProfilingTask;
  gor_startTime : Time;
  gor_running : bool;
  gor_stopped : bool
}.

(** [pprof.StartCPUProfile] fails when a CPU profile is already being taken. *)
Definition NewCPUProfileSession (rt : Runtime) (now : Time) (task : ProfilingTask)
  : (option CPUProfileSession * error) * Runtime :=
  if cpuProfiling rt then
    ((None, Some "failed to start CPU profiling: cpu profiling already in use"%string), rt)
  else
    ((Some {| cpu_task := task; cpu_buffer := None; cpu_startTime := now;
              cpu_running := true |}, None),
     with_cpuProfiling rt true).

Definition CPUProfileSession_Stop (rt : Runtime) (s : CPUProfileSession)
  : (bytes * error) * CPUProfileSession * Runtime :=
  if negb (cpu_running s) then
    ((Buffer_Bytes (cpu_buffer s), None), s, rt)
  else
    let buffer := Buffer_Write (cpu_buffer s) (cpuProfile rt) in
    ((Buffer_Bytes buffer, None),
     {| cpu_task := cpu_task s; cpu_buffer := buffer;
        cpu_startTime := cpu_startTime s; cpu_running := false |},
     with_cpuProfiling rt false).

Definition NewHeapProfileSession (now : Time) (task : ProfilingTask)
  : option HeapProfileSession * error :=
  (Some {| heap_task := task; heap_startTime := now; heap_running := true;
           heap_stopped := false |}, None).

Definition HeapProfileSession_Stop (rt : Runtime) (s : HeapProfileSession)
  : (bytes * error) * HeapProfileSession :=
  if heap_stopped s then ((None, None), s)
  else
    let s' := {| heap_task := heap_task s; heap_startTime := heap_startTime s;
                 heap_running := false; heap_stopped := true |} in
    let buffer := Buffer_Write None (fst (heapProfile rt)) in
    match snd (heapProfile rt) with
    | Some err => ((None, Some ("failed to write heap profile: " +:+ err)), s')
    | None => ((Buffer_Bytes buffer, None), s')
    end.

Definition NewGoroutineProfileSession (now : Time) (task : ProfilingTask)
  : option GoroutineProfileSession * error :=
  (Some {| gor_task := task; gor_startTime := now; gor_running := true;
           gor_stopped := false |}, None).

Definition GoroutineProfileSession_Stop (rt : Runtime) (s : GoroutineProfileSession)
  : (bytes * error) * GoroutineProfileSession :=
  if gor_stopped s then ((None, None), s)
  else
    let s' := {| gor_task := gor_task s; gor_startTime := gor_startTime s;
                 gor_running := false; gor_stopped := true |} in
    match goroutineProfile rt with
    | None => ((None, Some "goroutine profile not found"%string), s')
    | Some (written, werr) =>
        let buffer := Buffer_Write None written in
        match werr with
        | Some err => ((None, Some ("failed to write goroutine profile: " +:+ err)), s')
        | None => ((Buffer_Bytes buffer, None), s')
        end
    end.

(** The interface [ProfileSession] over its three implementations. *)
Inductive ProfileSession :=
| CPUSession (s : CPUProfileSession)
| HeapSession (s : HeapProfileSession)
| GoroutineSession (s : GoroutineProfileSession).

Definition Stop (rt : Runtime) (session : ProfileSession)
  : (bytes * error) * ProfileSession * Runtime :=
  match session with
  | CPUSession s =>
      let '(r, s', rt') := CPUProfileSession_Stop rt s in (r, CPUSession s', rt')
  | HeapSession s =>
      let '(r, s') := HeapProfileSession_Stop rt s in (r, HeapSession s', rt)
  | GoroutineSession s =>
      let '(r, s') := GoroutineProfileSession_Stop rt s in (r, GoroutineSession s', rt)
  end.

Definition GetStartTime (session : ProfileSession) : Time :=
  match session with
  | CPUSession s => cpu_startTime s
  | HeapSession s => heap_startTime s
  | GoroutineSession s => gor_startTime s
  end.

Definition IsRunning (session : ProfileSession) : bool :=
  match session with
  | CPUSession s => cpu_running s
  | HeapSession s => heap_running s
  | GoroutineSession s => gor_running s
  end.

Definition session_task (session : ProfileSession) : ProfilingTask :=
  match session with
  | CPUSession s => cpu_task s
  | HeapSession s => heap_task s
  | GoroutineSession s => gor_task s
  end.

(** Every constructor starts a goroutine that calls [Stop] when the
    duration timer fires or the context is done, if [task.Duration > 0]. *)
Definition timer_armed (session : ProfileSession) : bool :=
  0 <? Duration (session_task session).

(** The interface [Profiler] over its three implementations. *)
Inductive Profiler := CPUProfiler | HeapProfiler | GoroutineProfiler.

Definition GetProfileType (p : Profiler) : string :=
  match p with
  | CPUProfiler => "cpu"
  | HeapProfiler => "heap"
  | GoroutineProfiler => "goroutine"
  end.

Definition Profiler_StartProfiling (rt : Runtime) (now : Time) (p : Profiler)
    (task : ProfilingTask) : (option ProfileSession * error) * Runtime :=
  match p with
  | CPUProfiler =>
      let '((s, err), rt') := NewCPUProfileSession rt now task in
      ((CPUSession <$> s, err), rt')
  | HeapProfiler =>
      let '(s, err) := NewHeapProfileSession now task in
      ((HeapSession <$> s, err), rt)
  | GoroutineProfiler =>
      let '(s, err) := NewGoroutineProfileSession now task in
      ((GoroutineSession <$> s, err), rt)
  end.

(** *** The collaborators of the manager *)

Inductive Level := LInfo | LWarn | LError | LDebug.

(** What the manager does to its collaborators: a message handed to the
    logger, a call of [storage.Save]. *)
Inductive Event :=
| Logged (level : Level) (msg : string)
| SaveCalled (filename : string) (data : bytes).

(** The interface [Storage], for a backend whose state has type [S]. *)
Class Storage (S : Type) := {
  Save : Time -> S -> string -> bytes -> S * error;
  Delete : S -> string -> S * error
}.

(** *** The manager (manager.go) *)

Section Manager.

Context {S : Type} `{Storage S}.

Variable hasUnicode : string -> string -> bool.

(** The fields of an instant in the local time zone. *)
Variable localTime : Time -> Civil.

Record Manager := {
  tasks : gmap string ProfilingTask;
  stats : ProfilingStats;
  options : Options;
  (** the number of tokens in the channel [limiter], of capacity
      [options.MaxConcurrent] *)
  limiter : nat;
  requestCount : gmap string Z;
  storage : S;
  (** [pathMatcher.Match] *)
  pathMatcher : string -> string -> bool;
  profilers : gmap string Profiler;
  trace : list Event
}.

Definition with_tasks (m : Manager) (t : gmap string ProfilingTask) : Manager :=
  {| tasks := t; stats := stats m; options := options m; limiter := limiter m;
     requestCount := requestCount m; storage := storage m;
     pathMatcher := pathMatcher m; profilers := profilers m; trace := trace m |}.

Definition with_stats (m : Manager) (s : ProfilingStats) : Manager :=
  {| tasks := tasks m; stats := s; options := options m; limiter := limiter m;
     requestCount := requestCount m; storage := storage m;
     pathMatcher := pathMatcher m; profilers := profilers m; trace := trace m |}.

Definition with_limiter (m : Manager) (n : nat) : Manager :=
  {| tasks := tasks m; stats := stats m; options := options m; limiter := n;
     requestCount := requestCount m; storage := storage m;
     pathMatcher := pathMatcher m; profilers := profilers m; trace := trace m |}.

Definition with_requestCount (m : Manager) (c : gmap string Z) : Manager :=
  {| tasks := tasks m; stats := stats m; options := options m; limiter := limiter m;
     requestCount := c; storage := storage m;
     pathMatcher := pathMatcher m; profilers := profilers m; trace := trace m |}.

Definition with_storage (m : Manager) (st : S) : Manager :=
  {| tasks := tasks m; stats := stats m; options := options m; limiter := limiter m;
     requestCount := requestCount m; storage := st;
     pathMatcher := pathMatcher m; profilers := profilers m; trace := trace m |}.

Definition with_profilers (m : Manager) (p : gmap string Profiler) : Manager :=
  {| tasks := tasks m; stats := stats m; options := options m; limiter := limiter m;
     requestCount := requestCount m; storage := storage m;
     pathMatcher := pathMatcher m; profilers := p; trace := trace m |}.

Definition emit (m : Manager) (e : Event) : Manager :=
  {| tasks := tasks m; stats := stats m; options := options m; limiter := limiter m;
     requestCount := requestCount m; storage := storage m;
     pathMatcher := pathMatcher m; profilers := profilers m;
     trace := trace m ++ [e] |}.

Definition incFailedCount (s : ProfilingStats) : ProfilingStats :=
  {| TotalRequests := TotalRequests s; ProfiledCount := ProfiledCount s;
     FailedCount := wrap64 (FailedCount s + 1);
     ActiveProfiles := ActiveProfiles s; LastUpdate := LastUpdate s |}.

(** [m.stats.ActiveProfiles++; m.stats.ProfiledCount++] *)
Definition incActiveProfiled (s : ProfilingStats) : ProfilingStats :=
  {| TotalRequests := TotalRequests s;
     ProfiledCount := wrap64 (ProfiledCount s + 1);
     FailedCount := FailedCount s;
     ActiveProfiles := wrap64 (ActiveProfiles s + 1);
     LastUpdate := LastUpdate s |}.

Definition decActiveProfiles (s : ProfilingStats) : ProfilingStats :=
  {| TotalRequests := TotalRequests s; ProfiledCount := ProfiledCount s;
     FailedCount := FailedCount s;
     ActiveProfiles := wrap64 (ActiveProfiles s - 1);
     LastUpdate := LastUpdate s |}.

Definition setLastUpdate (s : ProfilingStats) (now : Time) : ProfilingStats :=
  {| TotalRequests := TotalRequests s; ProfiledCount := ProfiledCount s;
     FailedCount := FailedCount s; ActiveProfiles := ActiveProfiles s;
     LastUpdate := now |}.

Definition setTotalRequests (s : ProfilingStats) (n : Z) : ProfilingStats :=
  {| TotalRequests := n; ProfiledCount := ProfiledCount s;
     FailedCount := FailedCount s; ActiveProfiles := ActiveProfiles s;
     LastUpdate := LastUpdate s |}.

(** [RegisterProfiler] *)
Definition RegisterProfiler (m : Manager) (p : Profiler) : Manager :=
  emit (with_profilers m (<[GetProfileType p := p]> (profilers m)))
       (Logged LInfo "Profiler registered").

(** The body of [NewManager]: the struct literal, the three default
    profilers, the log line.  The two goroutines it starts are the callers
    of [updateTasks] and [cleanExpiredTasks]. *)
Definition initManager (opts : Options) (st : S) (matcher : string -> string -> bool)
    (now : Time) : Manager :=
  let m := {| tasks := ∅;
              stats := {| TotalRequests := 0; ProfiledCount := 0; FailedCount := 0;
                          ActiveProfiles := 0; LastUpdate := now |};
              options := opts; limiter := 0%nat; requestCount := ∅;
              storage := st; pathMatcher := matcher; profilers := ∅;
              trace := [] |} in
  let m := RegisterProfiler m CPUProfiler in
  let m := RegisterProfiler m HeapProfiler in
  let m := RegisterProfiler m GoroutineProfiler in
  emit m (Logged LInfo "Profiling manager initialized").

(** [NewManager]: [make(chan struct{}, n)] panics for a negative [n], in
    which case there is no manager. *)
Definition NewManager (opts : Options) (st : S) (matcher : string -> string -> bool)
    (now : Time) : option Manager :=
  if MaxConcurrent opts <? 0 then None
  else Some (initManager opts st matcher now).

(** [releaseLimiter]: a receive that does nothing on an empty channel. *)
Definition releaseLimiter (m : Manager) : Manager :=
  with_limiter m (Nat.pred (limiter m)).

(** The loop of [ShouldProfile] over [m.tasks], visited in the order
    [visit]: the first task that matches path and method. *)
Fixpoint findTask (m : Manager) (visit : list (string * ProfilingTask))
    (path method : string) : option ProfilingTask :=
  match visit with
  | [] => None
  | (_, task) :: rest =>
      if pathMatcher m (Path task) path && ShouldMatchMethod hasUnicode task method
      then Some task
      else findTask m rest path method
  end.

(** The [select] that ends [ShouldProfile]: a send on [limiter] that
    succeeds when the channel has room, and the [default] case otherwise. *)
Definition tryAcquire (m : Manager) (matchedTask : ProfilingTask)
  : (ProfilingTask * bool) * Manager :=
  if Z.of_nat (limiter m) <? MaxConcurrent (options m) then
    ((matchedTask, true), with_limiter m (Datatypes.S (limiter m)))
  else
    ((zeroTask, false),
     emit (with_stats m (incFailedCount (stats m)))
          (Logged LWarn "Concurrent limit exceeded")).

Definition ShouldProfile (visit : list (string * ProfilingTask)) (now : Time)
    (m : Manager) (path method : string) : (ProfilingTask * bool) * Manager :=
  if negb (Enabled (options m)) then ((zeroTask, false), m)
  else
    match findTask m visit path method with
    | None => ((zeroTask, false), m)
    | Some matchedTask =>
        if After now (ExpiresAt matchedTask) then ((zeroTask, false), m)
        else if 1 <? SampleRate matchedTask then
          let count := wrap64 (default 0 (requestCount m !! Path matchedTask) + 1) in
          let m := with_requestCount m (<[Path matchedTask := count]> (requestCount m)) in
          if negb (Z.rem count (SampleRate matchedTask) =? 0)
          then ((zeroTask, false), m)
          else tryAcquire m matchedTask
        else tryAcquire m matchedTask
    end.

(** A request as [ShouldProfile] sees it: the order in which the loop
    visits the task table, the reading of the clock, path and method. *)
Record Request := {
  req_visit : list (string * ProfilingTask);
  req_now : Time;
  req_path : string;
  req_method : string
}.

(** The outcome of one call, past the sampling check: admitted, or refused
    because the limiter was full ([FailedCount] moved). *)
Definition admits (out : (ProfilingTask * bool) * Manager) : bool := snd (fst out).

Definition exhausted (m : Manager) (out : (ProfilingTask * bool) * Manager) : bool :=
  negb (admits out)
  && negb (FailedCount (stats (snd out)) =? FailedCount (stats m)).

(** A sequence of calls of [ShouldProfile], each on the state the previous
    one left: the number admitted, the number refused for lack of a
    permit, and the final state. *)
Fixpoint serve (m : Manager) (reqs : list Request) : (nat * nat) * Manager :=
  match reqs with
  | [] => ((0%nat, 0%nat), m)
  | r :: rest =>
      let out := ShouldProfile (req_visit r) (req_now r) m (req_path r) (req_method r) in
      let '((a, e), m') := serve (snd out) rest in
      (((if admits out then Datatypes.S a else a),
        (if exhausted m out then Datatypes.S e else e)), m')
  end.

Definition StartProfiling (rt : Runtime) (now : Time) (m : Manager)
    (path : string) (task : ProfilingTask)
  : (option ProfileSession * error) * Manager * Runtime :=
  match profilers m !! ProfileType task with
  | None =>
      let m := releaseLimiter m in
      let err := "profiler type " +:+ ProfileType task +:+ " not found" in
      ((None, Some err), emit m (Logged LError "Profiler not found"), rt)
  | Some profiler =>
      match Profiler_StartProfiling rt now profiler task with
      | ((_, Some err), rt') =>
          let m := releaseLimiter m in
          let m := with_stats m (incFailedCount (stats m)) in
          ((None, Some err), emit m (Logged LError "Failed to start profiling"), rt')
      | ((session, None), rt') =>
          let m := with_stats m (incActiveProfiled (stats m)) in
          ((session, None), emit m (Logged LInfo "Profiling started"), rt')
      end
  end.

(** The map [replacements] of [sanitizePath], from rune to rune. *)
Definition replacements : gmap Z Z :=
  list_to_map [(47, 95); (58, 95); (42, 95); (63, 95); (60, 95); (62, 95);
               (124, 95); (34, 95); (92, 95)].

Definition sanitizePath (path : string) : string :=
  Utf8.string_of_runes
    (foldl (fun result r =>
              match replacements !! r with
              | Some replacement => result ++ [replacement]
              | None => result ++ [r]
              end)
           [] (Utf8.runes path)).

(** [generateFilename] reads the clock twice: [now1] is formatted, [now2]
    gives the nanoseconds. *)
Definition generateFilename (now1 now2 : Time) (path method profileType : string) : string :=
  let sanitized := sanitizePath path in
  let timestamp := Strings.Format_20060102_150405 (localTime now1) in
  let nanos := Z.rem (UnixNano now2) 1000000 in
  profileType +:+ "/profile_" +:+ sanitized +:+ "_" +:+ method +:+ "_"
  +:+ timestamp +:+ "_" +:+ Strings.itoa nanos +:+ ".pprof".

Record StopOutcome := {
  so_result : ProfilingResult;
  so_err : error;
  so_manager : Manager;
  so_session : ProfileSession;
  so_runtime : Runtime
}.

(** The clock readings of one call of [StopProfiling], in the order in
    which they are taken. *)
Record StopClock := {
  at_since : Time;
  at_format : Time;
  at_nanos : Time;
  at_save : Time
}.

(** [StopProfiling] up to its return; the deferred [releaseLimiter] runs
    after it. *)
Definition StopProfiling_body (rt : Runtime) (clk : StopClock) (m : Manager)
    (path method : string) (task : ProfilingTask) (session : ProfileSession)
  : StopOutcome :=
  let startTime := GetStartTime session in
  let '((data, err), session', rt') := Stop rt session in
  let m := with_stats m (decActiveProfiles (stats m)) in
  let result := {| rPath := path; rStartTime := startTime;
                   rDuration := Sub (at_since clk) startTime;
                   rFilename := ""; rFileSize := 0;
                   rProfileType := ProfileType task;
                   rSuccess := bool_decide (err = None); rError := "" |} in
  match err with
  | Some msg =>
      let result := {| rPath := rPath result; rStartTime := rStartTime result;
                       rDuration := rDuration result; rFilename := rFilename result;
                       rFileSize := rFileSize result;
                       rProfileType := rProfileType result;
                       rSuccess := rSuccess result; rError := msg |} in
      let m := with_stats m (incFailedCount (stats m)) in
      {| so_result := result; so_err := Some msg;
         so_manager := emit m (Logged LError "Failed to stop profiling");
         so_session := session'; so_runtime := rt' |}
  | None =>
      if len data =? 0 then
        {| so_result := result; so_err := None;
           so_manager := emit m (Logged LWarn "Empty profiling data");
           so_session := session'; so_runtime := rt' |}
      else
        let filename :=
          generateFilename (at_format clk) (at_nanos clk) path method (ProfileType task) in
        let result := {| rPath := rPath result; rStartTime := rStartTime result;
                         rDuration := rDuration result; rFilename := filename;
                         rFileSize := wrap64 (len data);
                         rProfileType := rProfileType result;
                         rSuccess := rSuccess result; rError := rError result |} in
        let '(st, serr) := Save (at_save clk) (storage m) filename data in
        let m := emit (with_storage m st) (SaveCalled filename data) in
        match serr with
        | Some msg =>
            let result := {| rPath := rPath result; rStartTime := rStartTime result;
                             rDuration := rDuration result;
                             rFilename := rFilename result;
                             rFileSize := rFileSize result;
                             rProfileType := rProfileType result;
                             rSuccess := false; rError := msg |} in
            let m := with_stats m (incFailedCount (stats m)) in
            {| so_result := result; so_err := Some msg;
               so_manager := emit m (Logged LError "Failed to save profile");
               so_session := session'; so_runtime := rt' |}
        | None =>
            {| so_result := result; so_err := None;
               so_manager := emit m (Logged LInfo "Profiling completed");
               so_session := session'; so_runtime := rt' |}
        end
  end.

Definition StopProfiling (rt : Runtime) (clk : StopClock) (m : Manager)
    (path method : string) (task : ProfilingTask) (session : ProfileSession)
  : StopOutcome :=
  let o := StopProfiling_body rt clk m path method task session in
  {| so_result := so_result o; so_err := so_err o;
     so_manager := releaseLimiter (so_manager o);
     so_session := so_session o; so_runtime := so_runtime o |}.

(** [GetStats]: the sum over [requestCount] does not depend on the order. *)
Definition GetStats (m : Manager) : ProfilingStats :=
  setTotalRequests (stats m)
    (map_fold (fun _ count totalRequests => wrap64 (totalRequests + count)) 0
              (requestCount m)).

Definition GetTasks (m : Manager) : gmap string ProfilingTask := tasks m.

Definition IsEnabled (m : Manager) : bool := Enabled (options m).

(** The first loop of [updateTasks]: a later task replaces an earlier one
    of the same path. *)
Definition buildTaskMap (newTasks : list ProfilingTask) : gmap string ProfilingTask :=
  foldl (fun taskMap task => <[Path task := task]> taskMap) ∅ newTasks.

(** The second loop of [updateTasks], over the keys of [requestCount]
    visited in the order [visit]. *)
Definition pruneCounts (taskMap : gmap string ProfilingTask) (visit : list string)
    (counts : gmap string Z) : gmap string Z :=
  foldl (fun counts path =>
           match taskMap !! path with
           | Some _ => counts
           | None => delete path counts
           end)
        counts visit.

Definition updateTasks (now : Time) (m : Manager) (newTasks : list ProfilingTask) : Manager :=
  let taskMap := buildTaskMap newTasks in
  let m := with_tasks m taskMap in
  let m := with_stats m (setLastUpdate (stats m) now) in
  let m := with_requestCount m
             (pruneCounts taskMap (map_to_list (requestCount m)).*1 (requestCount m)) in
  emit m (Logged LInfo "Tasks updated").

Definition cleanExpiredTasks (now : Time) (m : Manager) : Manager :=
  foldl (fun m '(path, task) =>
           if After now (ExpiresAt task)
           then with_requestCount (with_tasks m (delete path (tasks m)))
                                  (delete path (requestCount m))
           else m)
        m (map_to_list (tasks m)).

(** The value of the request counter of a task's path, 0 for a path the
    map does not hold. *)
Definition counter (m : Manager) (task : ProfilingTask) : Z :=
  default 0 (requestCount m !! Path task).

(** What admission leaves untouched. *)
Definition same_setup (m m' : Manager) : Prop :=
  tasks m' = tasks m /\ options m' = options m /\ pathMatcher m' = pathMatcher m
  /\ profilers m' = profilers m /\ storage m' = storage m.

(** The part of the manager the permit accounting reads. *)
Definition accounts (m : Manager) : Options * nat * Z :=
  (options m, limiter m, ActiveProfiles (stats m)).

End Manager.

(** What a call of [Stop] returns, and the session it leaves behind. *)
Definition stop_result (rt : Runtime) (session : ProfileSession) : bytes * error :=
  fst (fst (Stop rt session)).

Definition stopped_session (rt : Runtime) (session : ProfileSession) : ProfileSession :=
  snd (fst (Stop rt session)).

(** *** The specification's words, to compare the code with *)

(** The task table of a declaration: for each path the last task declared
    for it. *)
Definition last_declared (L : list ProfilingTask) (path : string) : option ProfilingTask :=
  last (filter (fun t => Path t = path) L).

(** The characters the specification lists for sanitization, by code
    point: slash, colon, star, question mark, less-than, greater-than,
    bar, double quote and backslash. *)
Definition forbidden : list Z := [47; 58; 42; 63; 60; 62; 124; 34; 92].

(** The replacement of one character: an underscore for a listed
    character, the character itself otherwise. *)
Definition sanitize_rune (r : Z) : Z :=
  if bool_decide (r ∈ forbidden) then 95 else r.






End Core.

(** ** Package [storage]: the backends (memory.go, file.go) *)

Module Storage.

Import Go Core.

Record memoryFile := {
  data : list byte;
  modTime : Time
}.

Record MemoryStorage := {
  files : gmap string memoryFile;
  mem_log : list (Level * string)
}.

Definition NewMemoryStorage : MemoryStorage :=
  {| files := ∅; mem_log := [] |}.

(** [make([]byte, len(data))] followed by [copy]. *)
Definition copy_of (d : bytes) : list byte := default [] d.

Definition MemoryStorage_Save (now : Time) (m : MemoryStorage) (filename : string)
    (d : bytes) : MemoryStorage * error :=
  ({| files := <[filename := {| data := copy_of d; modTime := now |}]> (files m);
      mem_log := mem_log m ++ [(LInfo, "Profile saved to memory"%string)] |},
   None).

Definition MemoryStorage_Delete (m : MemoryStorage) (filename : string)
  : MemoryStorage * error :=
  match files m !! filename with
  | None => (m, None)
  | Some _ =>
      ({| files := delete filename (files m);
          mem_log := mem_log m ++ [(LInfo, "Profile deleted from memory"%string)] |},
       None)
  end.

#[global] Instance MemoryStorage_Storage : Core.Storage MemoryStorage :=
  {| Save := MemoryStorage_Save; Delete := MemoryStorage_Delete |}.

(** The loop of [MemoryStorage.Clean] over [m.files], visited in the order
    [visit]: the files left and the number removed. *)
Definition cleanFiles (now : Time) (maxAge : Z) (visit : list (string * memoryFile))
    (fs : gmap string memoryFile) : gmap string memoryFile * Z :=
  foldl (fun '(fs, cleanedCount) '(filename, file) =>
           if maxAge <? Sub now (modTime file)
           then (delete filename fs, cleanedCount + 1)
           else (fs, cleanedCount))
        (fs, 0) visit.

Definition MemoryStorage_Clean (now : Time) (visit : list (string * memoryFile))
    (m : MemoryStorage) (maxAge : Z) : MemoryStorage * error :=
  let '(fs, cleanedCount) := cleanFiles now maxAge visit (files m) in
  ({| files := fs;
      mem_log := if 0 <? cleanedCount
                 then mem_log m ++ [(LInfo, "Memory profile cleanup completed"%string)]
                 else mem_log m |},
   None).

(** A file whose age at [now] exceeds [maxAge]. *)
Definition too_old (now : Time) (maxAge : Z) (file : memoryFile) : bool :=
  maxAge <? Sub now (modTime file).

(** [sanitizePath] of file.go, the file backend's own: seven replacements,
    byte by byte. *)
Definition sanitizePath (path : string) : string :=
  let sanitized := Strings.ReplaceAll path "/" "_" in
  let sanitized := Strings.ReplaceAll sanitized ":" "_" in
  let sanitized := Strings.ReplaceAll sanitized "*" "_" in
  let sanitized := Strings.ReplaceAll sanitized "?" "_" in
  let sanitized := Strings.ReplaceAll sanitized "<" "_" in
  let sanitized := Strings.ReplaceAll sanitized ">" "_" in
  let sanitized := Strings.ReplaceAll sanitized "|" "_" in
  sanitized.

(** The bytes that sanitizer replaces: slash, colon, star, question mark,
    less-than, greater-than and bar. *)
Definition replaced : list Z := [47; 58; 42; 63; 60; 62; 124].

(** The replacement of one byte [c] by an underscore, on a byte. *)
Definition replace_byte (c : ascii) (b : Z) : Z := if b =? byte_of c then 95 else b.

(** The file system under a [FileStorage]: what each path names. *)
Inductive Node :=
| RegularFile (content : list byte) (mtime : Time)
| Directory.

(** A directory has entries when some path lies under it. *)
Definition has_entries (fs : gmap string Node) (dir : string) : bool :=
  existsb (fun '(p, _) => String.prefix (dir +:+ "/") p) (map_to_list fs).

(** [os.Remove]: removes the named file or empty directory, and fails
    with a [*PathError] otherwise. *)
Definition os_Remove (fs : gmap string Node) (name : string)
  : gmap string Node * error :=
  match fs !! name with
  | None => (fs, Some ("remove " +:+ name +:+ ": no such file or directory"))
  | Some (RegularFile _ _) => (delete name fs, None)
  | Some Directory =>
      if has_entries fs name
      then (fs, Some ("remove " +:+ name +:+ ": directory not empty"))
      else (delete name fs, None)
  end.

Record FileStorage := {
  baseDir : string;
  disk : gmap string Node;
  file_log : list (Level * string)
}.

Section FileStorage.

(** [filepath.Join]. *)
Variable Join : string -> string -> string.

Definition FileStorage_Delete (f : FileStorage) (filename : string)
  : FileStorage * error :=
  let filePath := Join (baseDir f) filename in
  match os_Remove (disk f) filePath with
  | (disk', Some err) =>
      ({| baseDir := baseDir f; disk := disk';
          file_log := file_log f ++ [(LError, "Failed to delete profile file"%string)] |},
       Some err)
  | (disk', None) =>
      ({| baseDir := baseDir f; disk := disk';
          file_log := file_log f ++ [(LInfo, "Profile deleted"%string)] |},
       None)
  end.

End FileStorage.

End Storage.

(** ** Package [config]: the file provider (file.go) and the initial load *)

Module Config.

Import Go Core.

(** What [os.ReadFile] answers: an error for which [os.IsNotExist] holds,
    another error, or the bytes of the file. *)
Inductive ReadFile :=
| NotExist
| ReadError (msg : string)
| Contents (data : list byte).

Definition with_Duration (task : ProfilingTask) (d : Z) : ProfilingTask :=
  {| Path := Path task; Methods := Methods task; ExpiresAt := ExpiresAt task;
     Duration := d; SampleRate := SampleRate task; ProfileType := ProfileType task |}.

Definition with_SampleRate (task : ProfilingTask) (r : Z) : ProfilingTask :=
  {| Path := Path task; Methods := Methods task; ExpiresAt := ExpiresAt task;
     Duration := Duration task; SampleRate := r; ProfileType := ProfileType task |}.

Definition with_ProfileType (task : ProfilingTask) (t : string) : ProfilingTask :=
  {| Path := Path task; Methods := Methods task; ExpiresAt := ExpiresAt task;
     Duration := Duration task; SampleRate := SampleRate task; ProfileType := t |}.

Definition with_Methods (task : ProfilingTask) (ms : list string) : ProfilingTask :=
  {| Path := Path task; Methods := ms; ExpiresAt := ExpiresAt task;
     Duration := Duration task; SampleRate := SampleRate task;
     ProfileType := ProfileType task |}.

(** The four defaults [FileConfig.GetTasks] gives a task it keeps. *)
Definition setDefaults (task : ProfilingTask) : ProfilingTask :=
  let task := if Duration task =? 0 then with_Duration task 30 else task in
  let task := if SampleRate task =? 0 then with_SampleRate task 1 else task in
  let task := if bool_decide (ProfileType task = ""%string)
              then with_ProfileType task "cpu" else task in
  if Z.of_nat (List.length (Methods task)) =? 0
  then with_Methods task ["GET"%string] else task.

Record Filtered := {
  validTasks : list ProfilingTask;
  expiredCount : Z;
  warnings : list (Level * string)
}.

(** The loop of [FileConfig.GetTasks] over [config.Profiles]. *)
Definition filterTasks (now : Time) (profiles : list ProfilingTask) : Filtered :=
  foldl (fun acc task =>
           if Before now (ExpiresAt task)
           then {| validTasks := validTasks acc ++ [setDefaults task];
                   expiredCount := expiredCount acc;
                   warnings := warnings acc |}
           else {| validTasks := validTasks acc;
                   expiredCount := expiredCount acc + 1;
                   warnings := warnings acc ++ [(LWarn, "Task expired"%string)] |})
        {| validTasks := []; expiredCount := 0; warnings := [] |} profiles.

Section FileConfig.

(** [yaml.Unmarshal] into a [FileConfigFormat]: the profiles it read, and
    its error. *)
Variable Unmarshal : list byte -> list ProfilingTask * error.

(** [FileConfig.GetTasks]: the tasks (a nil and an empty slice are both the
    empty list), the error, and what is handed to the logger. *)
Definition FileConfig_GetTasks (read : ReadFile) (now : Time)
  : (list ProfilingTask * error) * list (Level * string) :=
  match read with
  | NotExist =>
      (([], None), [(LInfo, "Config file not found, profiling is disabled"%string)])
  | ReadError msg =>
      (([], Some msg), [(LError, "Failed to read config file"%string)])
  | Contents data =>
      match Unmarshal data with
      | (_, Some err) => (([], Some err), [(LError, "Failed to parse config file"%string)])
      | (profiles, None) =>
          let f := filterTasks now profiles in
          ((validTasks f, None),
           warnings f
           ++ (if (0 <? Z.of_nat (List.length profiles))
                  && (Z.of_nat (List.length (validTasks f)) =? 0)
               then [(LError, "All profiling tasks have expired!"%string)] else [])
           ++ [(LInfo, "Config loaded"%string)])
      end
  end.

End FileConfig.

Section InitialLoad.

Context {S : Type}.

(** The first part of [Manager.startConfigSync]: the tasks of the provider
    are installed unless it failed. *)
Definition startConfigSync_load (now : Time) (m : Manager (S := S))
    (loaded : list ProfilingTask * error) : Manager :=
  match loaded with
  | (newTasks, None) => updateTasks now m newTasks
  | (_, Some err) => emit m (Logged LError "Failed to load initial config")
  end.

End InitialLoad.

End Config.

(** ** The requests in flight (middleware.go)

    The middleware takes every request through [ShouldProfile], then
    [StartProfiling], then [StopProfiling], and requests are served
    concurrently.  A world is the manager together with the requests that
    hold a permit; a step is one of the manager's critical sections, run
    by any of the goroutines. *)

Module Middleware.

Import Go Core.

Inductive Phase :=
| Permitted (path method : string) (task : ProfilingTask)
| Profiling (path method : string) (task : ProfilingTask) (session : ProfileSession)
| Releasing.

Definition profiling (p : Phase) : bool :=
  match p with
  | Profiling _ _ _ _ => true
  | _ => false
  end.

Section Worlds.

Context {S : Type} `{Storage S}.

Variable hasUnicode : string -> string -> bool.
Variable localTime : Time -> Civil.

Record World := {
  mgr : Manager (S := S);
  flights : list Phase
}.

Inductive step : World -> World -> Prop :=
| step_refused m fs visit now path method t m' :
    visit ≡ₚ map_to_list (tasks m) ->
    ShouldProfile hasUnicode visit now m path method = ((t, false), m') ->
    step {| mgr := m; flights := fs |} {| mgr := m'; flights := fs |}
| step_admitted m fs visit now path method t m' :
    visit ≡ₚ map_to_list (tasks m) ->
    ShouldProfile hasUnicode visit now m path method = ((t, true), m') ->
    step {| mgr := m; flights := fs |}
         {| mgr := m'; flights := fs ++ [Permitted path method t] |}
| step_started m fs1 fs2 rt now path method task session err m' rt' :
    StartProfiling rt now m path task = ((Some session, err), m', rt') ->
    step {| mgr := m; flights := fs1 ++ Permitted path method task :: fs2 |}
         {| mgr := m'; flights := fs1 ++ Profiling path method task session :: fs2 |}
| step_start_failed m fs1 fs2 rt now path method task err m' rt' :
    StartProfiling rt now m path task = ((None, err), m', rt') ->
    step {| mgr := m; flights := fs1 ++ Permitted path method task :: fs2 |}
         {| mgr := m'; flights := fs1 ++ fs2 |}
| step_timer m fs1 fs2 rt path method task session r session' rt' :
    timer_armed session = true ->
    Stop rt session = (r, session', rt') ->
    step {| mgr := m; flights := fs1 ++ Profiling path method task session :: fs2 |}
         {| mgr := m; flights := fs1 ++ Profiling path method task session' :: fs2 |}
| step_stopped m fs1 fs2 rt clk path method task session :
    step {| mgr := m; flights := fs1 ++ Profiling path method task session :: fs2 |}
         {| mgr := so_manager
                     (StopProfiling_body localTime rt clk m path method task session);
            flights := fs1 ++ Releasing :: fs2 |}
| step_released m fs1 fs2 :
    step {| mgr := m; flights := fs1 ++ Releasing :: fs2 |}
         {| mgr := releaseLimiter m; flights := fs1 ++ fs2 |}
| step_updated m fs now newTasks :
    step {| mgr := m; flights := fs |}
         {| mgr := updateTasks now m newTasks; flights := fs |}
| step_cleaned m fs now :
    step {| mgr := m; flights := fs |}
         {| mgr := cleanExpiredTasks now m; flights := fs |}.

(** The worlds reachable from a freshly built manager. *)
Inductive reachable (opts : Options) : World -> Prop :=
| reachable_new st matcher now m :
    NewManager opts st matcher now = Some m ->
    reachable opts {| mgr := m; flights := [] |}
| reachable_step w w' :
    reachable opts w -> step w w' -> reachable opts w'.

(** The number of requests whose session has been started and not yet
    handed to [StopProfiling]. *)
Definition sessions (fs : list Phase) : nat :=
  length (filter (fun p => profiling p = true) fs).

(** The invariant of the permit accounting: every request in flight holds
    one token of the limiter, and [ActiveProfiles] counts the sessions. *)
Definition balanced (opts : Options) (w : World) : Prop :=
  accounts (mgr w) = (opts, length (flights w), Z.of_nat (sessions (flights w)))
  /\ Z.of_nat (length (flights w)) <= MaxConcurrent opts.

End Worlds.

(** *** The handler that [Profiler.Middleware] returns, on one request *)

(** How the [select] of the handler ends: the goroutine that runs
    [c.Next()] reported on [done] (after recovering from a panic or not),
    or the timeout fired first; what that goroutine does after the
    timeout is no longer the handler's. *)
Inductive Wait :=
| Done (panicked : bool)
| TimedOut.

(** What the handler does besides calling the manager: it starts
    [c.Next()], it hands a message to the profiler's logger. *)
Inductive Effect :=
| Next
| Log (level : Level) (msg : string).

Definition is_Next (e : Effect) : bool :=
  match e with
  | Next => true
  | Log _ _ => false
  end.

(** The number of times [c.Next()] is started. *)
Definition next_calls (es : list Effect) : nat :=
  length (filter (fun e => is_Next e = true) es).

Section Handler.

Context {S : Type} `{Storage S}.

Variable hasUnicode : string -> string -> bool.
Variable localTime : Time -> Civil.

Record Handled := {
  h_manager : option (Manager (S := S));
  h_effects : list Effect;
  h_runtime : Runtime
}.

(** The session as [StopProfiling] finds it: [fired] tells whether the
    goroutine the session's constructor started has called [Stop] by then,
    which it only does for a task with [Duration > 0]. *)
Definition before_stop (fired : bool) (rt : Runtime) (session : ProfileSession)
  : ProfileSession * Runtime :=
  if fired && timer_armed session
  then let '(_, session', rt') := Stop rt session in (session', rt')
  else (session, rt).

(** The handler on one request.  [manager] is [p.manager], [None] being
    nil; [visit], [now_admit], [now_start] and [clk] are what the calls of
    the manager read of the map order and the clock.  The result is [None]
    when the handler panics. *)
Definition Middleware (manager : option (Manager (S := S))) (c : Http.GinContext)
    (visit : list (string * ProfilingTask)) (now_admit now_start : Time)
    (rt : Runtime) (wait : Wait) (fired : bool) (clk : StopClock)
  : option Handled :=
  match manager with
  | None => Some {| h_manager := None; h_effects := [Next]; h_runtime := rt |}
  | Some m =>
      if negb (IsEnabled m)
      then Some {| h_manager := Some m; h_effects := [Next]; h_runtime := rt |}
      else
        let path := Http.GetPath c in
        let method := Http.GetMethod c in
        let '((task, shouldProfile), m) :=
          ShouldProfile hasUnicode visit now_admit m path method in
        if negb shouldProfile
        then Some {| h_manager := Some m; h_effects := [Next]; h_runtime := rt |}
        else
          match StartProfiling rt now_start m path task with
          | ((_, Some err), m, rt) =>
              Some {| h_manager := Some m;
                      h_effects := [Log LError "Failed to start profiling"; Next];
                      h_runtime := rt |}
          | ((None, None), _, _) =>
              (* a nil session with a nil error: [StopProfiling] calls a
                 method on it *)
              None
          | ((Some session, None), m, rt) =>
              let waited :=
                match wait with
                | Done true => [Next; Log LError "Request panic during profiling"]
                | Done false => [Next]
                | TimedOut => [Next; Log LWarn "Request timed out during profiling"]
                end in
              let '(session, rt) := before_stop fired rt session in
              let o := StopProfiling localTime rt clk m path method task session in
              let reported :=
                match so_err o with
                | Some _ => [Log LError "Failed to stop profiling"]
                | None =>
                    if rSuccess (so_result o)
                    then [Log LInfo "Profiling completed successfully"]
                    else []
                end in
              Some {| h_manager := Some (so_manager o);
                      h_effects := waited ++ reported;
                      h_runtime := so_runtime o |}
          end
  end.

End Handler.

(** *** The status and tasks views (profiler.go) *)

(** The loop of [StatusHandler] over the task table, visited in the order
    [visit]: the number of tasks it reports as active. *)
Definition StatusHandler_activeTasks (now : Time) (visit : list (string * ProfilingTask))
  : Z :=
  foldl (fun activeTasks '(_, task) =>
           if Before now (ExpiresAt task) then wrap64 (activeTasks + 1)
           else activeTasks)
        0 visit.

(** The loop of [TasksHandler]: the tasks it lists as active and the tasks
    it lists as expired. *)
Definition TasksHandler_categorize (now : Time) (visit : list (string * ProfilingTask))
  : list ProfilingTask * list ProfilingTask :=
  foldl (fun '(activeTasks, expiredTasks) '(_, task) =>
           if Before now (ExpiresAt task)
           then (activeTasks ++ [task], expiredTasks)
           else (activeTasks, expiredTasks ++ [task]))
        ([], []) visit.

End Middleware.

(** ** Concrete tasks, managers and requests

    The inputs at which the theorems below are instantiated, after the
    end-to-end scenarios of the specification. *)

Module Examples.

Import Go Core.

(** An [EqualFold] whose general path answers no: the inputs here are ASCII. *)
Definition noUnicode (s t : string) : bool := false.

(** A clock frozen at 2025-03-09 07:00:59. *)
Definition frozen (t : Time) : Civil :=
  {| year := 2025; month := 3; day := 9; hour := 7; minute := 0; second := 59 |}.

Definition task_a (methods : list string) (expires rate : Z) (type : string)
  : ProfilingTask :=
  {| Path := "/a/:id"; Methods := methods; ExpiresAt := expires; Duration := 2;
     SampleRate := rate; ProfileType := type |}.

Definition runtime0 : Runtime :=
  {| cpuProfiling := false; cpuProfile := [x01];
     heapProfile := ([x02], None);
     goroutineProfile := Some ([x03], None) |}.

Definition heap0 : ProfileSession :=
  HeapSession {| heap_task := task_a [] 100 1 "heap"; heap_startTime := 5;
                 heap_running := true; heap_stopped := false |}.

Definition goroutine0 : ProfileSession :=
  GoroutineSession {| gor_task := task_a [] 100 1 "goroutine"; gor_startTime := 5;
                      gor_running := true; gor_stopped := false |}.

Definition clock0 : StopClock :=
  {| at_since := 20; at_format := 21; at_nanos := 22; at_save := 23 |}.

(** A manager over the memory backend and the Gin matcher. *)
Definition fresh (opts : Options) : Manager (S := Storage.MemoryStorage) :=
  initManager opts Storage.NewMemoryStorage Http.GinPathMatcher_Match 0.

Definition manager_with (opts : Options) (newTasks : list ProfilingTask)
  : Manager (S := Storage.MemoryStorage) :=
  updateTasks 0 (fresh opts) newTasks.

(** Scenario "Sampling": one task with [sample_rate = 5]. *)
Definition sampled_manager : Manager (S := Storage.MemoryStorage) :=
  manager_with DefaultOptions [task_a ["GET"%string] 1000 5 "cpu"].

Definition get_a7 (now : Time) : Request :=
  {| req_visit := map_to_list (tasks sampled_manager); req_now := now;
     req_path := "/a/7"; req_method := "GET" |}.

(** A task that expires at instant 100. *)
Definition expiring_manager : Manager (S := Storage.MemoryStorage) :=
  manager_with DefaultOptions [task_a [] 100 1 "cpu"].

(** One heap session in flight: the table is installed, a request is
    admitted, its session is started. *)
Definition heap_job : ProfilingTask := task_a ["GET"%string] 1000 1 "heap".

Definition heap_manager : Manager (S := Storage.MemoryStorage) :=
  manager_with DefaultOptions [heap_job].

Definition heap_admitted : Manager (S := Storage.MemoryStorage) :=
  snd (ShouldProfile noUnicode (map_to_list (tasks heap_manager)) 10
         heap_manager "/a/7" "GET").

Definition heap_started : Manager (S := Storage.MemoryStorage) :=
  snd (fst (StartProfiling runtime0 11 heap_admitted "/a/7" heap_job)).

Definition heap_session : ProfileSession :=
  HeapSession {| heap_task := heap_job; heap_startTime := 11;
                 heap_running := true; heap_stopped := false |}.

Definition heap_world : Middleware.World (S := Storage.MemoryStorage) :=
  {| Middleware.mgr := heap_started;
     Middleware.flights := [] ++ [Middleware.Profiling "/a/7" "GET" heap_job heap_session] |}.

(** A request served with the table visited in the order of [map_to_list]. *)
Definition request (m : Manager (S := Storage.MemoryStorage)) (now : Time)
    (path method : string) : Request :=
  {| req_visit := map_to_list (tasks m); req_now := now;
     req_path := path; req_method := method |}.

(** Scenario "Method expansion": one task declared for ["*"]. *)
Definition star_manager : Manager (S := Storage.MemoryStorage) :=
  manager_with DefaultOptions [task_a ["*"%string] 1000 1 "cpu"].

(** Scenario "Concurrency cap": a single permit. *)
Definition one_permit : Options :=
  {| MaxConcurrent := 1; DefaultDuration := DefaultDuration DefaultOptions;
     CleanupInterval := CleanupInterval DefaultOptions;
     MaxFileAge := MaxFileAge DefaultOptions; Enabled := true;
     ProfileDir := "./profiles"; DefaultSampleRate := 1 |}.

Definition single_manager : Manager (S := Storage.MemoryStorage) :=
  manager_with one_permit [task_a ["GET"%string] 1000 1 "cpu"].

(** Scenario "Config swap": three sampled requests, then a table that
    declares another path only. *)
Definition task_b : ProfilingTask :=
  {| Path := "/b/:id"; Methods := ["GET"%string]; ExpiresAt := 1000; Duration := 2;
     SampleRate := 5; ProfileType := "cpu" |}.

Definition served_manager : Manager (S := Storage.MemoryStorage) :=
  snd (serve noUnicode sampled_manager (map get_a7 [1; 2; 3])).

Definition swapped_manager : Manager (S := Storage.MemoryStorage) :=
  updateTasks 50 served_manager [task_b].

(** [filepath.Join]. *)
Definition join (a b : string) : string := Filepath.Join a b.

Definition empty_disk : Storage.FileStorage :=
  {| Storage.baseDir := "./profiles"; Storage.disk := ∅; Storage.file_log := [] |}.

(** A disk that holds one artifact. *)
Definition one_file_disk : Storage.FileStorage :=
  {| Storage.baseDir := "./profiles";
     Storage.disk := {[ "profiles/cpu/x.pprof"%string := Storage.RegularFile [x01] 5 ]};
     Storage.file_log := [] |}.

(** A CPU session started on the sampled table. *)
Definition cpu_job : ProfilingTask := task_a ["GET"%string] 1000 5 "cpu".

Definition cpu_session : CPUProfileSession :=
  {| cpu_task := cpu_job; cpu_buffer := None; cpu_startTime := 11; cpu_running := true |}.

Definition cpu_started : Manager (S := Storage.MemoryStorage) :=
  snd (fst (StartProfiling runtime0 11 sampled_manager "/a/7" cpu_job)).

(** A fresh manager, as a world with no request in flight. *)
Definition fresh_world : Middleware.World (S := Storage.MemoryStorage) :=
  {| Middleware.mgr := fresh DefaultOptions; Middleware.flights := [] |}.

(** A table of two tasks with disjoint routes, and two orders of visit. *)
Definition two_manager : Manager (S := Storage.MemoryStorage) :=
  manager_with DefaultOptions [task_a ["GET"%string] 1000 1 "cpu"; task_b].

Definition visit_ab : list (string * ProfilingTask) :=
  [("/a/:id"%string, task_a ["GET"%string] 1000 1 "cpu"); ("/b/:id"%string, task_b)].

Definition visit_ba : list (string * ProfilingTask) :=
  [("/b/:id"%string, task_b); ("/a/:id"%string, task_a ["GET"%string] 1000 1 "cpu")].

(** A request of the route [/a/:id], and what the handler leaves when the
    request completes before the timeout and before the session's timer. *)
Definition ctx_a7 : Http.GinContext :=
  {| Http.FullPath := "/a/:id"; Http.URLPath := "/a/7"; Http.Method := "GET" |}.

Definition heap_handled : Middleware.Handled (S := Storage.MemoryStorage) :=
  let o := StopProfiling frozen runtime0 clock0 heap_started "/a/:id" "GET"
             heap_job heap_session in
  {| Middleware.h_manager := Some (so_manager o);
     Middleware.h_effects :=
       [Middleware.Next; Middleware.Log LInfo "Profiling completed successfully"];
     Middleware.h_runtime := runtime0 |}.

(** A store of two files, saved at the instants 0 and 100. *)
Definition two_files : Storage.MemoryStorage :=
  fst (Storage.MemoryStorage_Save 100
         (fst (Storage.MemoryStorage_Save 0 Storage.NewMemoryStorage "cpu/old.pprof"
                 (Some [x01])))
         "cpu/new.pprof" (Some [x02])).

(** A configuration file that declares one task, by its path and expiry only. *)
Definition unmarshal_one (data : list byte) : list ProfilingTask * error :=
  ([{| Path := "/a/:id"; Methods := []; ExpiresAt := 100; Duration := 0;
       SampleRate := 0; ProfileType := "" |}], None).

Definition loaded_task : ProfilingTask :=
  {| Path := "/a/:id"; Methods := ["GET"%string]; ExpiresAt := 100; Duration := 30;
     SampleRate := 1; ProfileType := "cpu" |}.

(** The sampled table after four requests, declared again with
    [sample_rate = 3]: a second snapshot of the configuration. *)
Definition redeclared_manager : Manager (S := Storage.MemoryStorage) :=
  updateTasks 50 (snd (serve noUnicode sampled_manager (map get_a7 [1; 2; 3; 4])))
    [task_a ["GET"%string] 1000 3 "cpu"].

(** Two tasks whose templates both match [/a/7], and a visit of the table
    that meets the second one first. *)
Definition task_star : ProfilingTask :=
  {| Path := "/a/*"; Methods := ["GET"%string]; ExpiresAt := 1000; Duration := 2;
     SampleRate := 1; ProfileType := "cpu" |}.

Definition overlap_manager : Manager (S := Storage.MemoryStorage) :=
  manager_with DefaultOptions [task_a ["GET"%string] 1000 2 "cpu"; task_star].

Definition visit_star_first : list (string * ProfilingTask) :=
  [("/a/*"%string, task_star); ("/a/:id"%string, task_a ["GET"%string] 1000 2 "cpu")].

Definition get_a7_star_first (now : Time) : Request :=
  {| req_visit := visit_star_first; req_now := now;
     req_path := "/a/7"; req_method := "GET" |}.

(** A manager whose options switch profiling off. *)
Definition switched_off : Options :=
  {| MaxConcurrent := 3; DefaultDuration := DefaultDuration DefaultOptions;
     CleanupInterval := CleanupInterval DefaultOptions;
     MaxFileAge := MaxFileAge DefaultOptions; Enabled := false;
     ProfileDir := "./profiles"; DefaultSampleRate := 1 |}.

Definition disabled_manager : Manager (S := Storage.MemoryStorage) :=
  manager_with switched_off [task_a ["GET"%string] 1000 1 "cpu"].

End Examples.

(** * Properties *)

Import Go Utf8 Core.

(** ** 64-bit arithmetic *)

Lemma wrap64_id z : int64_range z -> wrap64 z = z.
Proof.
  unfold int64_range, wrap64. intros Hz.
  rewrite Z.mod_small by lia. lia.
Qed.

(** An increment always changes a 64-bit counter. *)
Lemma wrap64_succ_neq z : wrap64 (z + 1) <> z.
Proof.
  unfold wrap64. intros Heq.
  assert (Hm : (z + 1 + 2 ^ 63) mod 2 ^ 64 = z + 2 ^ 63) by lia.
  pose proof (Z.mod_pos_bound (z + 1 + 2 ^ 63) (2 ^ 64) ltac:(lia)) as Hb.
  destruct (Z.eq_dec (z + 1 + 2 ^ 63) (2 ^ 64)) as [He|Hne].
  - rewrite He, Z.mod_same in Hm by lia. lia.
  - rewrite Z.mod_small in Hm by lia. lia.
Qed.

(** Counting the multiples of [n] passed by one increment. *)
Lemma div_succ_step c n :
  1 <= n ->
  (c + 1) / n - c / n = if Z.rem (c + 1) n =? 0 then 1 else 0.
Proof.
  intros Hn.
  assert (Hrem : (Z.rem (c + 1) n =? 0) = ((c + 1) mod n =? 0)).
  { destruct (Z.eqb_spec (Z.rem (c + 1) n) 0) as [Hr|Hr];
      destruct (Z.eqb_spec ((c + 1) mod n) 0) as [Hm|Hm]; try done.
    - destruct Hm. apply Z.mod_divide; [lia|]. apply Z.rem_divide; [lia|done].
    - destruct Hr. apply Z.rem_divide; [lia|]. apply Z.mod_divide; [lia|done]. }
  rewrite Hrem.
  pose proof (Z.div_mod c n ltac:(lia)) as Hdm.
  pose proof (Z.mod_pos_bound c n ltac:(lia)) as Hb.
  destruct (Z.eqb_spec ((c + 1) mod n) 0) as [Hz|Hnz].
  - apply Z.mod_divide in Hz; [|lia]. destruct Hz as [q Hq].
    assert (c / n = q - 1) as ->.
    { symmetry. apply (Z.div_unique c n (q - 1) (n - 1)); lia. }
    assert ((c + 1) / n = q) as ->.
    { symmetry. apply (Z.div_unique (c + 1) n q 0); lia. }
    lia.
  - assert (c mod n + 1 < n).
    { destruct (Z.eq_dec (c mod n + 1) n) as [He|]; [|lia].
      destruct Hnz. apply Z.mod_divide; [lia|]. exists (c / n + 1). lia. }
    assert ((c + 1) / n = c / n) as ->; [|lia].
    symmetry. apply (Z.div_unique (c + 1) n (c / n) (c mod n + 1)); lia.
Qed.

(** ** Bit operations as arithmetic *)

Lemma land_shifted a b n : 0 <= n -> 0 <= b < 2 ^ n -> Z.land (a * 2 ^ n) b = 0.
Proof.
  intros Hn Hb. apply Z.bits_inj'. intros i Hi.
  rewrite Z.land_spec, Z.bits_0.
  destruct (Z.lt_ge_cases i n) as [Hlt|Hge].
  - by rewrite Z.mul_pow2_bits_low.
  - destruct (Z.eq_dec b 0) as [->|Hnz]; [by rewrite Z.bits_0, andb_false_r|].
    rewrite (Z.bits_above_log2 b i), andb_false_r; [done|lia|].
    assert (Z.log2 b < n) by (apply Z.log2_lt_pow2; lia). lia.
Qed.

Lemma lor_shifted a b n : 0 <= n -> 0 <= b < 2 ^ n -> Z.lor (a * 2 ^ n) b = a * 2 ^ n + b.
Proof.
  intros Hn Hb. pose proof (Z.add_lor_land (a * 2 ^ n) b) as Hadd.
  rewrite land_shifted in Hadd by done. lia.
Qed.

Lemma land_low a n : 0 <= n -> Z.land a (2 ^ n - 1) = a mod 2 ^ n.
Proof.
  intros Hn. rewrite <- Z.land_ones by done. f_equal.
  rewrite Z.ones_equiv. lia.
Qed.

Lemma lor_C0 x : 0 <= x < 64 -> Z.lor 0xC0 x = 192 + x.
Proof. intros. apply (lor_shifted 3 x 6); lia. Qed.

Lemma lor_80 x : 0 <= x < 64 -> Z.lor 0x80 x = 128 + x.
Proof. intros. apply (lor_shifted 2 x 6); lia. Qed.

Lemma lor_E0 x : 0 <= x < 16 -> Z.lor 0xE0 x = 224 + x.
Proof. intros. apply (lor_shifted 14 x 4); lia. Qed.

Lemma lor_F0 x : 0 <= x < 8 -> Z.lor 0xF0 x = 240 + x.
Proof. intros. apply (lor_shifted 30 x 3); lia. Qed.

Lemma land_3F x : Z.land x 0x3F = x mod 64.
Proof. apply (land_low x 6). lia. Qed.

Lemma land_1F x : Z.land x 0x1F = x mod 32.
Proof. apply (land_low x 5). lia. Qed.

Lemma land_0F x : Z.land x 0x0F = x mod 16.
Proof. apply (land_low x 4). lia. Qed.

Lemma land_07 x : Z.land x 0x07 = x mod 8.
Proof. apply (land_low x 3). lia. Qed.

Lemma shiftr_6 x : Z.shiftr x 6 = x / 64.
Proof. by rewrite Z.shiftr_div_pow2. Qed.

Lemma shiftr_12 x : Z.shiftr x 12 = x / 4096.
Proof. by rewrite Z.shiftr_div_pow2. Qed.

Lemma shiftr_18 x : Z.shiftr x 18 = x / 262144.
Proof. by rewrite Z.shiftr_div_pow2. Qed.

Lemma shiftl_6 x : Z.shiftl x 6 = x * 64.
Proof. by rewrite Z.shiftl_mul_pow2. Qed.

Lemma shiftl_12 x : Z.shiftl x 12 = x * 4096.
Proof. by rewrite Z.shiftl_mul_pow2. Qed.

Lemma shiftl_18 x : Z.shiftl x 18 = x * 262144.
Proof. by rewrite Z.shiftl_mul_pow2. Qed.

Lemma lor2 a b : 0 <= b < 64 -> Z.lor (a * 64) b = a * 64 + b.
Proof. intros. apply (lor_shifted a b 6); lia. Qed.

Lemma lor3 a b c :
  0 <= b < 64 -> 0 <= c < 64 ->
  Z.lor (Z.lor (a * 4096) (b * 64)) c = a * 4096 + b * 64 + c.
Proof.
  intros. rewrite (lor_shifted a (b * 64) 12 ltac:(lia) ltac:(lia) : Z.lor (a * 4096) _ = _).
  replace (a * 2 ^ 12 + b * 64) with ((a * 64 + b) * 2 ^ 6) by lia.
  rewrite lor_shifted by lia. lia.
Qed.

Lemma lor4 a b c d :
  0 <= b < 64 -> 0 <= c < 64 -> 0 <= d < 64 ->
  Z.lor (Z.lor (Z.lor (a * 262144) (b * 4096)) (c * 64)) d
  = a * 262144 + b * 4096 + c * 64 + d.
Proof.
  intros.
  rewrite (lor_shifted a (b * 4096) 18 ltac:(lia) ltac:(lia) : Z.lor (a * 262144) _ = _).
  replace (a * 2 ^ 18 + b * 4096) with ((a * 64 + b) * 4096) by lia.
  rewrite lor3 by lia. lia.
Qed.

Ltac divmod := Z.to_euclidean_division_equations; lia.

Ltac list_divmod := repeat (apply (f_equal2 cons); [divmod|]); reflexivity.

Ltac split_cmp :=
  repeat match goal with
         | |- context [?a <? ?c] => destruct (Z.ltb_spec a c); try lia
         | |- context [?a =? ?c] => destruct (Z.eqb_spec a c); try lia
         end.

Ltac split_cmp_divmod :=
  repeat match goal with
         | |- context [?a =? ?c] => destruct (Z.eqb_spec a c); try divmod
         | |- context [?a <? ?c] => destruct (Z.ltb_spec a c); try divmod
         end.

Ltac ev t := let v := eval vm_compute in t in change t with v.

Ltac decode_class x :=
  ev (0xF0 <=? x); ev (Z.testbit x 0); ev (Z.land x 7);
  ev (acceptRanges (Z.shiftr x 4)); cbv beta iota;
  ev (2 <=? 2); ev (3 <=? 2); ev (3 <=? 3); ev (4 <=? 2); ev (4 <=? 3); cbv beta iota.

Ltac bits_arith :=
  rewrite ?land_3F, ?land_1F, ?land_0F, ?land_07, ?shiftl_6, ?shiftl_12, ?shiftl_18.

Ltac next_byte :=
  match goal with
  | |- context [match ?t with [] => _ | _ :: _ => _ end] =>
      is_var t; destruct t as [|? ?]; [reflexivity|]
  end;
  match goal with
  | |- context [outside ?lo ?hi ?b] =>
      let Ho := fresh "Ho" in
      destruct (outside lo hi b) eqn:Ho; [reflexivity|];
      unfold outside in Ho; apply orb_false_iff in Ho as [? ?]
  end.

(** ** The UTF-8 codec *)

(** The encoder computes the arithmetic encoding. *)
Lemma EncodeRune_arith r : valid_rune r -> EncodeRune r = encode_arith r.
Proof.
  unfold valid_rune, MaxRune, surrogateMin, surrogateMax. intros [Hr Hs].
  unfold EncodeRune, encode_arith, encode3, byte_trunc, MaxRune, surrogateMin, surrogateMax.
  change (2 ^ 32) with 4294967296. rewrite (Z.mod_small r 4294967296) by lia.
  rewrite !shiftr_6, !shiftr_12, !shiftr_18, !land_3F.
  destruct (Z.leb_spec r 0x7F); destruct (Z.ltb_spec r 0x80); try lia.
  { by rewrite Z.mod_small by lia. }
  destruct (Z.leb_spec r 0x7FF); destruct (Z.ltb_spec r 0x800); try lia.
  { rewrite lor_C0, lor_80 by divmod. list_divmod. }
  destruct (Z.ltb_spec 0x10FFFF r); [lia|].
  assert (Hsur : (0xD800 <=? r) && (r <=? 0xDFFF) = false).
  { destruct (Z.leb_spec 0xD800 r), (Z.leb_spec r 0xDFFF); simpl; try done; lia. }
  rewrite Hsur. cbn [orb].
  destruct (Z.leb_spec r 0xFFFF); destruct (Z.ltb_spec r 0x10000); try lia.
  - rewrite lor_E0, !lor_80 by divmod. list_divmod.
  - rewrite lor_F0, !lor_80 by divmod. list_divmod.
Qed.

Lemma first_cases b :
  (b < 0x80 /\ first b = 0xF0)
  \/ ((0x80 <= b < 0xC2 \/ 0xF4 < b) /\ first b = 0xF1)
  \/ (0xC2 <= b < 0xE0 /\ first b = 0x02)
  \/ (b = 0xE0 /\ first b = 0x13)
  \/ ((0xE0 < b < 0xED \/ 0xED < b < 0xF0) /\ first b = 0x03)
  \/ (b = 0xED /\ first b = 0x23)
  \/ (b = 0xF0 /\ first b = 0x34)
  \/ (0xF0 < b < 0xF4 /\ first b = 0x04)
  \/ (b = 0xF4 /\ first b = 0x44).
Proof.
  unfold first.
  repeat match goal with
         | |- context [?a <? ?c] => destruct (Z.ltb_spec a c)
         | |- context [?a =? ?c] => destruct (Z.eqb_spec a c)
         end; lia.
Qed.

(** The table-driven decoder computes the arithmetic decoding. *)
Lemma DecodeRune_arith s : DecodeRune s = decode_arith s.
Proof.
  destruct s as [|b0 t1]; [done|].
  unfold DecodeRune, decode_arith, second_lo, second_hi.
  destruct (first_cases b0) as
    [[Hb ->]|[[Hb ->]|[[Hb ->]|[[Hb ->]|[[Hb ->]|[[Hb ->]|[[Hb ->]|[[Hb ->]|[Hb ->]]]]]]]]].
  - decode_class 0xF0. by split_cmp.
  - decode_class 0xF1. split_cmp; cbn [orb]; done.
  - decode_class 0x02. split_cmp. cbn [orb]. next_byte.
    bits_arith. rewrite lor2 by divmod. f_equal. divmod.
  - decode_class 0x13. split_cmp. cbn [orb]. do 2 next_byte.
    bits_arith. rewrite lor3 by divmod. f_equal. divmod.
  - decode_class 0x03. split_cmp; cbn [orb]; do 2 next_byte;
      bits_arith; rewrite lor3 by divmod; f_equal; divmod.
  - decode_class 0x23. split_cmp. cbn [orb]. do 2 next_byte.
    bits_arith. rewrite lor3 by divmod. f_equal. divmod.
  - decode_class 0x34. split_cmp. cbn [orb]. do 3 next_byte.
    bits_arith. rewrite lor4 by divmod. f_equal. divmod.
  - decode_class 0x04. split_cmp. cbn [orb]. do 3 next_byte.
    bits_arith. rewrite lor4 by divmod. f_equal. divmod.
  - decode_class 0x44. split_cmp. cbn [orb]. do 3 next_byte.
    bits_arith. rewrite lor4 by divmod. f_equal. divmod.
Qed.

Lemma valid_rune_bounds r :
  valid_rune r <-> 0 <= r <= 0x10FFFF /\ ~ (0xD800 <= r <= 0xDFFF).
Proof. done. Qed.

Lemma encode_arith_bytes r : valid_rune r -> Forall is_byte (encode_arith r).
Proof.
  rewrite valid_rune_bounds. intros [Hr Hs]. unfold encode_arith, is_byte.
  split_cmp; repeat constructor; divmod.
Qed.

Lemma encode_arith_length r : (1 <= length (encode_arith r) <= 4)%nat.
Proof. unfold encode_arith. split_cmp; simpl; lia. Qed.

(** Decoding what was encoded gives the rune back, whatever follows. *)
Lemma decode_encode r rest :
  valid_rune r ->
  decode_arith (encode_arith r ++ rest) = (r, length (encode_arith r)).
Proof.
  rewrite valid_rune_bounds. intros [Hr Hs]. unfold encode_arith.
  destruct (Z.ltb_spec r 0x80); [|destruct (Z.ltb_spec r 0x800);
    [|destruct (Z.ltb_spec r 0x10000)]];
    cbn [app length]; unfold decode_arith, second_lo, second_hi, outside.
  - split_cmp. done.
  - split_cmp_divmod; cbn [orb]; f_equal; divmod.
  - split_cmp_divmod; cbn [orb]; f_equal; divmod.
  - split_cmp_divmod; cbn [orb]; f_equal; divmod.
Qed.

(** The decoder only produces Unicode scalar values. *)
Lemma decode_valid s :
  Forall is_byte s -> valid_rune (fst (decode_arith s)).
Proof.
  intros Hs. rewrite valid_rune_bounds.
  destruct s as [|b0 t1]; [cbn; unfold RuneError; lia|].
  apply Forall_cons in Hs as [Hb0 Hs]. unfold is_byte in Hb0.
  unfold decode_arith, second_lo, second_hi.
  assert (Herr : 0 <= RuneError <= 0x10FFFF /\ ~ (0xD800 <= RuneError <= 0xDFFF))
    by (unfold RuneError; lia).
  destruct (Z.ltb_spec b0 0x80); [cbn; lia|].
  destruct ((b0 <? 0xC2) || (0xF4 <? b0)) eqn:Hrange; [done|].
  apply orb_false_iff in Hrange as [?%Z.ltb_ge ?%Z.ltb_ge].
  destruct t1 as [|b1 t2]; [done|].
  destruct (outside _ _ b1) eqn:Ho1; [done|].
  unfold outside in Ho1. apply orb_false_iff in Ho1 as [?%Z.ltb_ge ?%Z.ltb_ge].
  destruct (Z.ltb_spec b0 0xE0).
  { cbn [fst]. revert H2 H3. split_cmp; intros; lia. }
  destruct t2 as [|b2 t3]; [done|].
  destruct (outside _ _ b2) eqn:Ho2; [done|].
  unfold outside in Ho2. apply orb_false_iff in Ho2 as [?%Z.ltb_ge ?%Z.ltb_ge].
  destruct (Z.ltb_spec b0 0xF0).
  { cbn [fst]. revert H2 H3. split_cmp; intros; lia. }
  destruct t3 as [|b3 t4]; [done|].
  destruct (outside _ _ b3) eqn:Ho3; [done|].
  unfold outside in Ho3. apply orb_false_iff in Ho3 as [?%Z.ltb_ge ?%Z.ltb_ge].
  cbn [fst]. revert H2 H3. split_cmp; intros; lia.
Qed.

Lemma decode_size s : s <> [] -> (1 <= snd (decode_arith s) <= length s)%nat.
Proof.
  destruct s as [|b0 t1]; [done|]. intros _.
  unfold decode_arith.
  destruct (_ <? _); [simpl; lia|]. destruct (_ || _); [simpl; lia|].
  destruct t1 as [|b1 t2]; [simpl; lia|].
  destruct (outside _ _ _); [simpl; lia|]. destruct (_ <? _); [simpl; lia|].
  destruct t2 as [|b2 t3]; [simpl; lia|].
  destruct (outside _ _ _); [simpl; lia|]. destruct (_ <? _); [simpl; lia|].
  destruct t3 as [|b3 t4]; [simpl; lia|].
  destruct (outside _ _ _); simpl; lia.
Qed.

(** ** The loop over a string *)

Lemma range_from_skip l rest :
  range_from (length l) (l ++ rest) = range_from 0 rest.
Proof. induction l as [|b l IH]; [done|]. destruct rest; simpl; exact IH. Qed.

Lemma range_from_encoded r rest :
  valid_rune r ->
  range_from 0 (EncodeRune r ++ rest) = r :: range_from 0 rest.
Proof.
  intros Hr. rewrite EncodeRune_arith by done.
  pose proof (decode_encode r rest Hr) as Hdec.
  pose proof (encode_arith_length r) as Hlen.
  destruct (encode_arith r) as [|b l] eqn:He; [simpl in Hlen; lia|].
  cbn [app range_from]. cbn [app] in Hdec.
  rewrite DecodeRune_arith, Hdec. cbn [length Nat.pred].
  by rewrite range_from_skip.
Qed.

Lemma range_from_runes rs :
  Forall valid_rune rs -> range_from 0 (concat (map EncodeRune rs)) = rs.
Proof.
  induction 1 as [|r rs Hr _ IH]; [done|].
  cbn [map concat]. by rewrite range_from_encoded, IH.
Qed.

Lemma bytes_of_string_of_bytes l :
  Forall is_byte l -> bytes_of_string (string_of_bytes l) = l.
Proof.
  induction 1 as [|b l Hb _ IH]; [done|]. cbn. rewrite IH. f_equal.
  unfold byte_of, ascii_of. rewrite N_ascii_embedding; unfold is_byte in Hb; lia.
Qed.

Lemma bytes_of_string_bytes s : Forall is_byte (bytes_of_string s).
Proof.
  induction s as [|a s IH]; [constructor|]. cbn. constructor; [|done].
  unfold is_byte, byte_of. pose proof (N_ascii_bounded a). lia.
Qed.

Lemma string_of_bytes_of_string s : string_of_bytes (bytes_of_string s) = s.
Proof.
  induction s as [|a s IH]; [done|]. cbn. rewrite IH. f_equal.
  unfold byte_of, ascii_of. rewrite N2Z.id. apply ascii_N_embedding.
Qed.

(** Converting runes to a string and ranging over it gives the runes back. *)
Lemma runes_string_of_runes rs :
  Forall valid_rune rs -> runes (string_of_runes rs) = rs.
Proof.
  intros Hrs. unfold runes, string_of_runes.
  rewrite bytes_of_string_of_bytes; [by apply range_from_runes|].
  apply Forall_concat, Forall_fmap. eapply Forall_impl; [exact Hrs|].
  intros r Hr. cbn. rewrite EncodeRune_arith by done. by apply encode_arith_bytes.
Qed.

Lemma range_from_valid l : forall skip,
  Forall is_byte l -> Forall valid_rune (range_from skip l).
Proof.
  induction l as [|b l IH]; intros skip Hl; [constructor|].
  destruct skip as [|k]; cbn [range_from].
  - rewrite DecodeRune_arith.
    pose proof (decode_valid (b :: l) Hl) as Hv.
    destruct (decode_arith (b :: l)) as [r size]. constructor; [done|].
    apply IH. by apply Forall_cons in Hl as [_ ?].
  - apply IH. by apply Forall_cons in Hl as [_ ?].
Qed.

(** Ranging over a string only yields Unicode scalar values. *)
Lemma runes_valid s : Forall valid_rune (runes s).
Proof. apply range_from_valid, bytes_of_string_bytes. Qed.

(** ** Filename synthesis *)

Lemma replacements_lookup r :
  replacements !! r = if bool_decide (r ∈ forbidden) then Some 95 else None.
Proof.
  unfold forbidden. case_bool_decide as Hin.
  - repeat (apply elem_of_cons in Hin as [->|Hin]; [vm_compute; reflexivity|]).
    inversion Hin.
  - unfold replacements. cbn [list_to_map foldr].
    repeat (apply not_elem_of_cons in Hin as [? Hin]).
    unfold curry. cbn [fst snd].
    rewrite !lookup_insert_ne by done. apply lookup_empty.
Qed.

(** The loop of [sanitizePath] maps the replacement over the runes. *)
Lemma sanitize_loop rs acc :
  foldl (fun result r =>
           match replacements !! r with
           | Some replacement => result ++ [replacement]
           | None => result ++ [r]
           end) acc rs
  = acc ++ map sanitize_rune rs.
Proof.
  revert acc. induction rs as [|r rs IH]; intros acc; cbn [foldl map].
  - by rewrite app_nil_r.
  - rewrite IH, replacements_lookup. unfold sanitize_rune.
    case_bool_decide; by rewrite <- app_assoc.
Qed.

Lemma sanitizePath_runes_of path :
  sanitizePath path = string_of_runes (map sanitize_rune (runes path)).
Proof. unfold sanitizePath. by rewrite sanitize_loop. Qed.

Lemma sanitize_rune_valid r : valid_rune r -> valid_rune (sanitize_rune r).
Proof.
  unfold sanitize_rune. case_bool_decide; [|done]. intros _.
  rewrite valid_rune_bounds. lia.
Qed.

(** Read back as characters, the sanitized path is the path with each
    listed character replaced and every other character unchanged. *)
Lemma sanitizePath_runes path :
  runes (sanitizePath path) = map sanitize_rune (runes path).
Proof.
  rewrite sanitizePath_runes_of. apply runes_string_of_runes.
  apply Forall_fmap. eapply Forall_impl; [apply runes_valid|].
  intros r Hr. by apply sanitize_rune_valid.
Qed.

Lemma range_from_ascii l :
  Forall (fun b => b < RuneSelf) l -> range_from 0 l = l.
Proof.
  unfold RuneSelf. induction 1 as [|b l Hb _ IH]; [done|].
  cbn [range_from]. rewrite DecodeRune_arith. unfold decode_arith.
  destruct (Z.ltb_spec b 0x80); [|lia]. cbn [Nat.pred]. by rewrite IH.
Qed.

Lemma encode_ascii l :
  Forall (fun b => 0 <= b < 0x80) l -> concat (map EncodeRune l) = l.
Proof.
  induction 1 as [|b l Hb _ IH]; [done|].
  cbn [map concat]. rewrite IH, EncodeRune_arith by (rewrite valid_rune_bounds; lia).
  unfold encode_arith. by destruct (Z.ltb_spec b 0x80); [|lia].
Qed.

(** On an ASCII path the replacement is byte by byte. *)
Lemma sanitizePath_ascii path :
  ascii_only path ->
  sanitizePath path = string_of_bytes (map sanitize_rune (bytes_of_string path)).
Proof.
  intros Hascii. rewrite sanitizePath_runes_of. unfold runes, string_of_runes.
  rewrite range_from_ascii by done. f_equal. apply encode_ascii.
  apply Forall_fmap.
  pose proof (bytes_of_string_bytes path) as Hbytes.
  unfold ascii_only, RuneSelf in Hascii.
  induction Hascii as [|b l Hb _ IH]; [constructor|].
  apply Forall_cons in Hbytes as [Hb0 Hbytes]. constructor; [|by apply IH].
  cbn. unfold sanitize_rune, is_byte in *. case_bool_decide; lia.
Qed.

(** *** Decimal numerals *)
















(** The filename of scenario "Single-shot CPU". *)
Example generateFilename_example :
  generateFilename Examples.frozen 1741503659000123456 1741503659000123456
    "/a/:id" "GET" "cpu"
  = "cpu/profile__a__id_GET_20250309_070059_123456.pprof"%string.
Proof. vm_compute. reflexivity. Qed.

(** Every listed character is replaced; the two bytes of a character
    outside ASCII stay. *)
Example sanitizePath_example :
  sanitizePath "/x:y*z?<a>|b\c/é" = "_x_y_z__a__b_c_é"%string.
Proof. vm_compute. reflexivity. Qed.

(** A byte that is no UTF-8 is read as U+FFFD and written as its three
    bytes. *)
Example sanitizePath_invalid_byte :
  bytes_of_string (sanitizePath (string_of_bytes [0x61; 0xFF]))
  = [0x61; 0xEF; 0xBF; 0xBD].
Proof. vm_compute. reflexivity. Qed.

(** ** Method matching *)

Section MethodFacts.

Variable hasUnicode : string -> string -> bool.

Lemma contains_spec slice item :
  contains hasUnicode slice item = true <->
  exists s, s ∈ slice /\ Strings.EqualFold hasUnicode s item = true.
Proof.
  induction slice as [|s rest IH]; simpl.
  - split; [discriminate | intros (s & Hs & _); inversion Hs].
  - destruct (Strings.EqualFold hasUnicode s item) eqn:E.
    + split; [intros _; exists s; split; [left | exact E] | reflexivity].
    + rewrite IH. split.
      * intros (s' & Hin & Hs'). exists s'. split; [by right | done].
      * intros (s' & Hin & Hs'). inversion Hin; subst; [congruence|eauto].
Qed.

Lemma length_zero_nil {A} (l : list A) :
  (Z.of_nat (List.length l) =? 0) = bool_decide (l = []).
Proof.
  case_bool_decide as Hl; [by subst|].
  apply Z.eqb_neq. destruct l; [done|]. simpl. lia.
Qed.

(** A non-empty [Methods] without ["*"]: membership up to [EqualFold]. *)
Lemma ShouldMatchMethod_listed task m :
  Methods task <> [] ->
  contains hasUnicode (Methods task) "*" = false ->
  ShouldMatchMethod hasUnicode task m = contains hasUnicode (Methods task) m.
Proof.
  intros Hne Hstar. unfold ShouldMatchMethod.
  rewrite length_zero_nil, bool_decide_eq_false_2 by done.
  by rewrite Hstar.
Qed.

(** A [Methods] that contains ["*"]: the four common methods, up to
    [EqualFold]. *)
Lemma ShouldMatchMethod_star task m :
  contains hasUnicode (Methods task) "*" = true ->
  ShouldMatchMethod hasUnicode task m = contains hasUnicode CommonMethods m.
Proof.
  intros Hstar. unfold ShouldMatchMethod.
  rewrite length_zero_nil, Hstar.
  destruct (Methods task); [done|]. by rewrite bool_decide_eq_false_2.
Qed.

(** An empty [Methods]: the bytes of the method are those of ["GET"]. *)
Lemma ShouldMatchMethod_default task m :
  Methods task = [] ->
  ShouldMatchMethod hasUnicode task m = true <-> m = "GET"%string.
Proof.
  intros He. unfold ShouldMatchMethod. rewrite He. simpl.
  by rewrite bool_decide_eq_true.
Qed.

(** C6.  Method matching is not case-insensitive for an empty method set:
    the task without methods refuses the method [get] and accepts [GET],
    while the task that lists [GET], and the one that lists the star,
    accept [get]; [GetEffectiveMethods] gives the empty set as [GET]. *)
Theorem ShouldMatchMethod_default_is_case_sensitive :
  ShouldMatchMethod hasUnicode (Examples.task_a [] 100 1 "cpu") "get" = false
  /\ ShouldMatchMethod hasUnicode (Examples.task_a [] 100 1 "cpu") "GET" = true
  /\ ShouldMatchMethod hasUnicode (Examples.task_a ["GET"%string] 100 1 "cpu") "get" = true
  /\ ShouldMatchMethod hasUnicode (Examples.task_a ["*"%string] 100 1 "cpu") "get" = true
  /\ GetEffectiveMethods (Examples.task_a [] 100 1 "cpu") = ["GET"%string].
Proof. repeat split; reflexivity. Qed.

End MethodFacts.

(** ** Sessions *)

Lemma CPUProfileSession_Stop_idempotent rt rt2 s :
  fst (fst (CPUProfileSession_Stop rt2 (snd (fst (CPUProfileSession_Stop rt s)))))
  = fst (fst (CPUProfileSession_Stop rt s)).
Proof.
  unfold CPUProfileSession_Stop.
  destruct (cpu_running s) eqn:Hr; simpl; [done|]. by rewrite Hr.
Qed.

Lemma CPUProfileSession_Stop_no_error rt s :
  snd (fst (fst (CPUProfileSession_Stop rt s))) = None.
Proof. unfold CPUProfileSession_Stop. by destruct (cpu_running s). Qed.

Lemma HeapProfileSession_Stop_again rt rt2 s :
  fst (HeapProfileSession_Stop rt2 (snd (HeapProfileSession_Stop rt s))) = (None, None).
Proof.
  unfold HeapProfileSession_Stop.
  destruct (heap_stopped s) eqn:Hs; simpl; [by rewrite Hs|].
  by destruct (snd (heapProfile rt)).
Qed.

Lemma GoroutineProfileSession_Stop_again rt rt2 s :
  fst (GoroutineProfileSession_Stop rt2 (snd (GoroutineProfileSession_Stop rt s)))
  = (None, None).
Proof.
  unfold GoroutineProfileSession_Stop.
  destruct (gor_stopped s) eqn:Hs; simpl; [by rewrite Hs|].
  destruct (goroutineProfile rt) as [[w [e|]]|]; done.
Qed.

(** A second [Stop] never fails, whatever the mode. *)
Lemma Stop_again_no_error rt rt2 session :
  snd (stop_result rt2 (stopped_session rt session)) = None.
Proof.
  unfold stop_result, stopped_session.
  destruct session as [s|s|s]; simpl.
  - destruct (CPUProfileSession_Stop rt s) as [[r s'] rt']; simpl.
    pose proof (CPUProfileSession_Stop_no_error rt2 s') as E.
    by destruct (CPUProfileSession_Stop rt2 s') as [[r2 s2] rt2'].
  - pose proof (HeapProfileSession_Stop_again rt rt2 s) as E.
    destruct (HeapProfileSession_Stop rt s) as [r s']; simpl in *.
    destruct (HeapProfileSession_Stop rt2 s') as [r2 s2]; simpl in *. by subst.
  - pose proof (GoroutineProfileSession_Stop_again rt rt2 s) as E.
    destruct (GoroutineProfileSession_Stop rt s) as [r s']; simpl in *.
    destruct (GoroutineProfileSession_Stop rt2 s') as [r2 s2]; simpl in *. by subst.
Qed.

(** For the CPU mode the second [Stop] returns the bytes of the first. *)
Lemma Stop_again_cpu rt rt2 s :
  stop_result rt2 (stopped_session rt (CPUSession s)) = stop_result rt (CPUSession s).
Proof.
  unfold stop_result, stopped_session. simpl.
  pose proof (CPUProfileSession_Stop_idempotent rt rt2 s) as E.
  pose proof (CPUProfileSession_Stop_no_error rt s) as E1.
  destruct (CPUProfileSession_Stop rt s) as [[r s'] rt']; simpl in *.
  pose proof (CPUProfileSession_Stop_no_error rt2 s') as E2.
  destruct (CPUProfileSession_Stop rt2 s') as [[r2 s2] rt2']; simpl in *. done.
Qed.

(** For the heap and goroutine modes it returns nil bytes. *)
Lemma Stop_again_nil rt rt2 session :
  (forall s, session <> CPUSession s) ->
  stop_result rt2 (stopped_session rt session) = (None, None).
Proof.
  unfold stop_result, stopped_session. intros Hmode.
  destruct session as [s|s|s]; simpl.
  - by destruct (Hmode s).
  - pose proof (HeapProfileSession_Stop_again rt rt2 s) as E.
    destruct (HeapProfileSession_Stop rt s) as [r s']; simpl in *.
    destruct (HeapProfileSession_Stop rt2 s') as [r2 s2]; simpl in *. by subst.
  - pose proof (GoroutineProfileSession_Stop_again rt rt2 s) as E.
    destruct (GoroutineProfileSession_Stop rt s) as [r s']; simpl in *.
    destruct (GoroutineProfileSession_Stop rt2 s') as [r2 s2]; simpl in *. by subst.
Qed.

(** C2.  [Stop] is not idempotent for the heap and goroutine modes: on a
    session whose capture is one byte, the first [Stop] returns that byte
    and the second returns nil bytes, both without error. *)
Theorem Stop_twice_heap_goroutine_loses_bytes :
  stop_result Examples.runtime0 Examples.heap0 = (Some [x02], None)
  /\ stop_result Examples.runtime0
       (stopped_session Examples.runtime0 Examples.heap0) = (None, None)
  /\ stop_result Examples.runtime0 Examples.goroutine0 = (Some [x03], None)
  /\ stop_result Examples.runtime0
       (stopped_session Examples.runtime0 Examples.goroutine0) = (None, None).
Proof. repeat split; reflexivity. Qed.

(** ** Stopping a session through the manager *)

Section StopProfilingFacts.

Context {S : Type} `{Storage S}.

Variable localTime : Time -> Civil.

Implicit Types m : Manager (S := S).

(** The exit of [StopProfiling] for a [Stop] that returns no bytes and no
    error. *)
Lemma StopProfiling_no_bytes rt clk m path method task session data session' rt' :
  Stop rt session = ((data, None), session', rt') ->
  len data = 0 ->
  StopProfiling localTime rt clk m path method task session
  = {| so_result := {| rPath := path; rStartTime := GetStartTime session;
                       rDuration := Sub (at_since clk) (GetStartTime session);
                       rFilename := ""; rFileSize := 0;
                       rProfileType := ProfileType task;
                       rSuccess := true; rError := "" |};
       so_err := None;
       so_manager := releaseLimiter
                       (emit (with_stats m (decActiveProfiles (stats m)))
                             (Logged LWarn "Empty profiling data"));
       so_session := session';
       so_runtime := rt' |}.
Proof.
  intros HStop Hlen. unfold StopProfiling, StopProfiling_body.
  rewrite HStop. simpl. rewrite Hlen. done.
Qed.

(** C8.  When [session.Stop] returns empty (or nil) bytes and no error,
    [StopProfiling] returns a result with [success = true] and no error,
    the filename stays empty (none is synthesized), and [storage.Save] is
    not called: the trace gains the warning only and the storage is as
    it was. *)
Theorem StopProfiling_empty_data rt clk m path method task session data session' rt' :
  Stop rt session = ((data, None), session', rt') ->
  len data = 0 ->
  rSuccess (so_result (StopProfiling localTime rt clk m path method task session)) = true
  /\ so_err (StopProfiling localTime rt clk m path method task session) = None
  /\ rFilename (so_result (StopProfiling localTime rt clk m path method task session))
     = ""%string
  /\ rFileSize (so_result (StopProfiling localTime rt clk m path method task session)) = 0
  /\ trace (so_manager (StopProfiling localTime rt clk m path method task session))
     = trace m ++ [Logged LWarn "Empty profiling data"]
  /\ storage (so_manager (StopProfiling localTime rt clk m path method task session))
     = storage m.
Proof.
  intros HStop Hlen.
  by rewrite (StopProfiling_no_bytes rt clk m path method task session _ _ _ HStop Hlen).
Qed.

(** C10.  For a heap or a goroutine session that the duration timer (or
    the cancellation of the context) has already stopped, the [Stop] that
    [StopProfiling] calls returns nil bytes; [StopProfiling] then returns
    [success = true] with no filename, and the trace gains the warning
    only: whatever the first [Stop] captured is never handed to
    [storage.Save]. *)
Theorem StopProfiling_after_timer_discards rt0 rt clk m path method task
    (h : HeapProfileSession) (g : GoroutineProfileSession) :
  let outcome session :=
    StopProfiling localTime rt clk m path method task (stopped_session rt0 session) in
  let discarded session :=
    stop_result rt (stopped_session rt0 session) = (None, None)
    /\ rSuccess (so_result (outcome session)) = true
    /\ so_err (outcome session) = None
    /\ rFilename (so_result (outcome session)) = ""%string
    /\ trace (so_manager (outcome session))
       = trace m ++ [Logged LWarn "Empty profiling data"]
    /\ storage (so_manager (outcome session)) = storage m in
  discarded (HeapSession h) /\ discarded (GoroutineSession g).
Proof.
  intros outcome discarded.
  assert (Hall : forall session, (forall s, session <> CPUSession s) -> discarded session).
  { intros session Hmode. unfold discarded, outcome.
    pose proof (Stop_again_nil rt0 rt session Hmode) as Hnil.
    split; [exact Hnil|].
    unfold stop_result in Hnil.
    destruct (Stop rt (stopped_session rt0 session)) as [[r s2] rt2] eqn:HStop.
    simpl in Hnil. subst r.
    by rewrite (StopProfiling_no_bytes rt clk m path method task _ _ _ _ HStop eq_refl). }
  split; apply Hall; intros s; discriminate.
Qed.

End StopProfilingFacts.

Lemma StopProfiling_empty_data_witness :
  rSuccess (so_result
              (StopProfiling Examples.frozen Examples.runtime0 Examples.clock0
                 Examples.heap_started "/a/7" "GET" Examples.heap_job
                 (stopped_session Examples.runtime0 Examples.heap_session))) = true.
Proof.
  refine (proj1 (StopProfiling_empty_data Examples.frozen Examples.runtime0 Examples.clock0
                   Examples.heap_started "/a/7" "GET" Examples.heap_job
                   (stopped_session Examples.runtime0 Examples.heap_session)
                   None (stopped_session Examples.runtime0 Examples.heap_session)
                   Examples.runtime0 _ _)).
  - reflexivity.
  - reflexivity.
Defined.

(** ** Admission *)

Section AdmissionFacts.

Context {S : Type}.

Variable hasUnicode : string -> string -> bool.

Implicit Types m : Manager (S := S).

Lemma tryAcquire_admits m task t m' :
  tryAcquire m task = ((t, true), m') -> t = task.
Proof.
  unfold tryAcquire. destruct (_ <? _); intros [=]; done.
Qed.

(** An admission returns the candidate, and the candidate is not expired. *)
Lemma ShouldProfile_admits visit now m path method t m' :
  ShouldProfile hasUnicode visit now m path method = ((t, true), m') ->
  findTask hasUnicode m visit path method = Some t /\ After now (ExpiresAt t) = false.
Proof.
  unfold ShouldProfile.
  destruct (negb (Enabled (options m))); [intros [=]|].
  destruct (findTask hasUnicode m visit path method) as [task|]; [|intros [=]].
  destruct (After now (ExpiresAt task)) eqn:Hexp; [intros [=]|].
  destruct (1 <? SampleRate task).
  - destruct (negb _); [intros [=]|].
    intros Hacq. apply tryAcquire_admits in Hacq. by subst.
  - intros Hacq. apply tryAcquire_admits in Hacq. by subst.
Qed.

(** Strictly after the expiry of the selected task, [ShouldProfile] returns
    [false] and leaves the manager, its request counter included, as it
    was; and an admission implies [now <= expires_at]. *)
Lemma ShouldProfile_after_expiry visit now m path method :
  (forall task,
     findTask hasUnicode m visit path method = Some task ->
     ExpiresAt task < now ->
     ShouldProfile hasUnicode visit now m path method = ((zeroTask, false), m))
  /\ (forall t m',
        ShouldProfile hasUnicode visit now m path method = ((t, true), m') ->
        now <= ExpiresAt t).
Proof.
  split.
  - intros task Hfind Hlt. unfold ShouldProfile. rewrite Hfind.
    destruct (negb (Enabled (options m))); [done|].
    unfold After. by rewrite (proj2 (Z.ltb_lt _ _) Hlt).
  - intros t m' Hadm. apply ShouldProfile_admits in Hadm as [_ Hexp].
    unfold After in Hexp. apply Z.ltb_ge in Hexp. done.
Qed.

Lemma findTask_pathMatcher m m' visit path method :
  pathMatcher m' = pathMatcher m ->
  findTask hasUnicode m' visit path method = findTask hasUnicode m visit path method.
Proof.
  intros Hpm. induction visit as [|[k task] visit IH]; cbn [findTask]; [done|].
  by rewrite Hpm, IH.
Qed.

Lemma findTask_elem m visit path method t :
  findTask hasUnicode m visit path method = Some t ->
  exists k, (k, t) ∈ visit.
Proof.
  induction visit as [|[k task] visit IH]; simpl; [done|].
  destruct (_ && _).
  - intros [= ->]. exists k. left.
  - intros Hf. destruct (IH Hf) as [k' Hk']. exists k'. by right.
Qed.

Lemma findTask_matches m visit path method t :
  findTask hasUnicode m visit path method = Some t ->
  pathMatcher m (Path t) path && ShouldMatchMethod hasUnicode t method = true.
Proof.
  induction visit as [|[k task] visit IH]; cbn [findTask]; [done|].
  destruct (pathMatcher m (Path task) path
            && ShouldMatchMethod hasUnicode task method) eqn:Hm; [|done].
  by intros [= <-].
Qed.

Lemma tryAcquire_setup m task : same_setup m (snd (tryAcquire m task)).
Proof. unfold tryAcquire, same_setup. by destruct (_ <? _). Qed.

Lemma ShouldProfile_setup visit now m path method :
  same_setup m (snd (ShouldProfile hasUnicode visit now m path method)).
Proof.
  unfold ShouldProfile.
  destruct (negb _); [done|].
  destruct (findTask _ _ _ _ _) as [task|]; [|done].
  destruct (After _ _); [done|].
  destruct (1 <? _); [destruct (negb _); [done|]|];
    match goal with |- same_setup _ (snd (tryAcquire ?m' _)) =>
      by destruct (tryAcquire_setup m' task) as (?&?&?&?&?) end.
Qed.

(** The three outcomes of the [select]. *)
Lemma tryAcquire_outcome m0 m task :
  FailedCount (stats m) = FailedCount (stats m0) ->
  let out := tryAcquire m task in
  requestCount (snd out) = requestCount m
  /\ ((Z.of_nat (limiter m) < MaxConcurrent (options m)
       /\ admits out = true /\ exhausted m0 out = false
       /\ limiter (snd out) = Datatypes.S (limiter m))
      \/ (MaxConcurrent (options m) <= Z.of_nat (limiter m)
          /\ admits out = false /\ exhausted m0 out = true
          /\ limiter (snd out) = limiter m)).
Proof.
  intros Hf. unfold tryAcquire.
  destruct (Z.ltb_spec (Z.of_nat (limiter m)) (MaxConcurrent (options m))).
  - split; [done|]. left. unfold admits, exhausted. simpl. done.
  - split; [done|]. right. unfold admits, exhausted. simpl.
    rewrite Hf. repeat split; try done.
    apply negb_true_iff, Z.eqb_neq, wrap64_succ_neq.
Qed.

(** One call that reaches the sampling check for the candidate [T]. *)
Lemma ShouldProfile_candidate visit now m path method T :
  Enabled (options m) = true ->
  findTask hasUnicode m visit path method = Some T ->
  After now (ExpiresAt T) = false ->
  ShouldProfile hasUnicode visit now m path method
  = if 1 <? SampleRate T then
      let count := wrap64 (default 0 (requestCount m !! Path T) + 1) in
      let m1 := with_requestCount m (<[Path T := count]> (requestCount m)) in
      if negb (Z.rem count (SampleRate T) =? 0) then ((zeroTask, false), m1)
      else tryAcquire m1 T
    else tryAcquire m T.
Proof.
  intros He Hf Ha. unfold ShouldProfile. by rewrite He, Hf, Ha.
Qed.

(** The sampling invariant, from any value of the counter. *)
Lemma serve_sampling T reqs : forall m,
  Enabled (options m) = true ->
  1 <= SampleRate T ->
  int64_range (counter m T) ->
  counter m T + Z.of_nat (length reqs) < 2 ^ 63 ->
  Forall (fun r => findTask hasUnicode m (req_visit r) (req_path r) (req_method r) = Some T
                   /\ After (req_now r) (ExpiresAt T) = false) reqs ->
  let passed := (counter m T + Z.of_nat (length reqs)) / SampleRate T
                - counter m T / SampleRate T in
  let a := fst (fst (serve hasUnicode m reqs)) in
  let e := snd (fst (serve hasUnicode m reqs)) in
  let m' := snd (serve hasUnicode m reqs) in
  Z.of_nat (a + e) = passed
  /\ (1 < SampleRate T -> counter m' T = counter m T + Z.of_nat (length reqs))
  /\ (Z.of_nat (limiter m) + passed <= MaxConcurrent (options m) -> e = 0%nat).
Proof.
  induction reqs as [|r reqs IH]; intros m He HN Hc0 Hbound Hall;
    unfold int64_range in Hc0.
  - simpl. rewrite Z.add_0_r. repeat split; lia.
  - apply Forall_cons in Hall as [[Hfind Hlive] Hall].
    cbn [serve]. cbn [length] in Hbound. rewrite Nat2Z.inj_succ in Hbound.
    set (out := ShouldProfile hasUnicode (req_visit r) (req_now r) m
                  (req_path r) (req_method r)).
    destruct (ShouldProfile_setup (req_visit r) (req_now r) m (req_path r) (req_method r))
      as (Htasks & Hopts & Hpm & _ & _). fold out in Htasks, Hopts, Hpm.
    assert (Hout : (1 < SampleRate T ->
                    counter (snd out) T = counter m T + 1)
                   /\ (SampleRate T = 1 -> counter (snd out) T = counter m T)
                   /\ Z.of_nat ((if admits out then 1 else 0)
                                + (if exhausted m out then 1 else 0))
                      = (if 1 <? SampleRate T
                         then (if Z.rem (counter m T + 1) (SampleRate T) =? 0 then 1 else 0)
                         else 1)
                   /\ Z.of_nat (limiter (snd out))
                      = Z.of_nat (limiter m) + (if admits out then 1 else 0)
                   /\ (Z.of_nat (limiter m) < MaxConcurrent (options m) ->
                       exhausted m out = false)).
    { unfold out. rewrite (ShouldProfile_candidate _ _ _ _ _ T He Hfind Hlive).
      destruct (Z.ltb_spec 1 (SampleRate T)) as [Hgt|Hle].
      - cbv zeta. fold (counter m T).
        rewrite (wrap64_id (counter m T + 1)) by (unfold int64_range; lia).
        set (m1 := with_requestCount m
                     (<[Path T := counter m T + 1]> (requestCount m))).
        assert (Hc1 : counter m1 T = counter m T + 1).
        { unfold counter, m1. simpl. by rewrite lookup_insert_eq. }
        destruct (Z.rem (counter m T + 1) (SampleRate T) =? 0) eqn:Hrem; simpl.
        + destruct (tryAcquire_outcome m m1 T eq_refl) as [Hrc Hcases].
          cbv zeta in Hrc, Hcases.
          assert (Hc : counter (snd (tryAcquire m1 T)) T = counter m T + 1)
            by (unfold counter in *; by rewrite Hrc).
          destruct Hcases as [(Hlt & -> & -> & Hl)|(Hge & -> & -> & Hl)];
            rewrite Hl; simpl in *; repeat split; try done; try lia.
        + unfold admits, exhausted. simpl.
          rewrite Z.eqb_refl. simpl. repeat split; try done; lia.
      - destruct (tryAcquire_outcome m m T eq_refl) as [Hrc Hcases].
        cbv zeta in Hrc, Hcases.
        assert (Hc : counter (snd (tryAcquire m T)) T = counter m T)
          by (unfold counter in *; by rewrite Hrc).
        destruct Hcases as [(Hlt & -> & -> & Hl)|(Hge & -> & -> & Hl)];
          rewrite Hl; simpl in *; repeat split; try done; try lia. }
    destruct Hout as (Hcgt & Hc1 & Hcount & Hlim & Hroom).
    assert (Hcnt : counter (snd out) T
                   = if 1 <? SampleRate T then counter m T + 1 else counter m T).
    { destruct (Z.ltb_spec 1 (SampleRate T)); [by apply Hcgt | apply Hc1; lia]. }
    specialize (IH (snd out)).
    destruct (serve hasUnicode (snd out) reqs) as [[a e] m'] eqn:Hserve.
    cbn [fst snd] in *.
    assert (Hall' : Forall (fun r => findTask hasUnicode (snd out) (req_visit r)
                                       (req_path r) (req_method r) = Some T
                                     /\ After (req_now r) (ExpiresAt T) = false) reqs).
    { eapply Forall_impl; [exact Hall|]. intros r' [Hf' Hl'].
      split; [|done]. by rewrite (findTask_pathMatcher m (snd out)). }
    rewrite Hopts in IH.
    destruct (Z.ltb_spec 1 (SampleRate T)) as [Hgt|Hle].
    + specialize (IH He HN ltac:(unfold int64_range; lia) ltac:(lia) Hall').
      destruct IH as (IHa & IHc & IHe).
      rewrite Hcnt in IHa, IHc, IHe.
      pose proof (div_succ_step (counter m T) (SampleRate T) HN) as Hstep.
      cbn [length]. rewrite Nat2Z.inj_succ.
      replace (counter m T + Z.succ (Z.of_nat (length reqs)))
        with (counter m T + 1 + Z.of_nat (length reqs)) by lia.
      assert (Hmono : 0 <= (counter m T + 1 + Z.of_nat (length reqs)) / SampleRate T
                           - (counter m T + 1) / SampleRate T).
      { apply Zle_minus_le_0, Z.div_le_mono; lia. }
      split; [|split].
      * destruct (admits out), (exhausted m out);
          destruct (Z.rem (counter m T + 1) (SampleRate T) =? 0); simpl in *; lia.
      * intros _. specialize (IHc Hgt). lia.
      * intros Hfits.
        destruct (Z.rem (counter m T + 1) (SampleRate T) =? 0) eqn:Hrem.
        -- rewrite Hroom by lia. apply IHe.
           destruct (admits out), (exhausted m out); simpl in *; lia.
        -- destruct (exhausted m out); [destruct (admits out); simpl in *; lia|].
           apply IHe. destruct (admits out); simpl in *; lia.
    + assert (HN1 : SampleRate T = 1) by lia.
      specialize (IH He HN ltac:(unfold int64_range; lia) ltac:(lia) Hall').
      destruct IH as (IHa & IHc & IHe).
      rewrite Hcnt in IHa, IHc, IHe. rewrite HN1 in *. rewrite !Z.div_1_r in *.
      cbn [length]. rewrite Nat2Z.inj_succ.
      split; [|split].
      * destruct (admits out), (exhausted m out); simpl in *; lia.
      * lia.
      * intros Hfits. rewrite Hroom by lia. apply IHe.
        destruct (admits out), (exhausted m out); simpl in *; lia.
Qed.


Lemma tryAcquire_requestCount m task :
  requestCount (snd (tryAcquire m task)) = requestCount m.
Proof. unfold tryAcquire. by destruct (_ <? _). Qed.

(** A request that [T] does not match leaves the counter of [T] alone,
    whichever task it selects. *)
Lemma ShouldProfile_mismatch_counter T visit now m path method :
  (forall k t, tasks m !! k = Some t -> Path t = k) ->
  tasks m !! Path T = Some T ->
  visit ≡ₚ map_to_list (tasks m) ->
  pathMatcher m (Path T) path && ShouldMatchMethod hasUnicode T method = false ->
  requestCount (snd (ShouldProfile hasUnicode visit now m path method)) !! Path T
  = requestCount m !! Path T.
Proof.
  intros Hkeyed HT Hvisit Hmis. unfold ShouldProfile.
  destruct (negb _); [done|].
  destruct (findTask hasUnicode m visit path method) as [t|] eqn:Hf; [|done].
  destruct (After _ _); [done|].
  assert (Hne : Path t <> Path T).
  { intros Heq. pose proof (findTask_matches _ _ _ _ _ Hf) as Hm.
    apply findTask_elem in Hf as [k Hk].
    rewrite Hvisit in Hk. apply elem_of_map_to_list in Hk.
    pose proof (Hkeyed _ _ Hk) as Hpk. subst k. rewrite Heq, HT in Hk.
    injection Hk as <-. congruence. }
  destruct (1 <? SampleRate t); [|by rewrite tryAcquire_requestCount].
  destruct (negb _); [|rewrite tryAcquire_requestCount];
    by cbn [snd requestCount with_requestCount]; rewrite lookup_insert_ne.
Qed.

(** A request whose candidate has expired changes nothing. *)
Lemma ShouldProfile_expired_unchanged visit now m path method t :
  findTask hasUnicode m visit path method = Some t ->
  After now (ExpiresAt t) = true ->
  ShouldProfile hasUnicode visit now m path method = ((zeroTask, false), m).
Proof.
  intros Hf Ha. unfold ShouldProfile. rewrite Hf, Ha. by destruct (negb _).
Qed.

(** A request that [T] matches and no other task of the visited table
    matches selects [T]. *)
Lemma findTask_only_match m visit path method T :
  (exists k, (k, T) ∈ visit) ->
  pathMatcher m (Path T) path && ShouldMatchMethod hasUnicode T method = true ->
  (forall k t, (k, t) ∈ visit ->
     pathMatcher m (Path t) path && ShouldMatchMethod hasUnicode t method = true ->
     t = T) ->
  findTask hasUnicode m visit path method = Some T.
Proof.
  intros [k0 Hin] HT Honly.
  induction visit as [|[k t] visit IH]; [by apply elem_of_nil in Hin|].
  cbn [findTask].
  destruct (pathMatcher m (Path t) path && ShouldMatchMethod hasUnicode t method) eqn:Hm.
  - f_equal. apply (Honly k t); [left|done].
  - apply IH.
    + apply elem_of_cons in Hin as [[= -> ->]|Hin]; [congruence|done].
    + intros k' t' Hin'. apply (Honly k'). by right.
Qed.

(** When the selected task is at its expiry instant, the sampling check
    passes and a permit is free, the request is admitted. *)
Lemma ShouldProfile_at_expires_at visit m path method task :
  Enabled (options m) = true ->
  findTask hasUnicode m visit path method = Some task ->
  SampleRate task <= 1
  \/ Z.rem (wrap64 (counter m task + 1)) (SampleRate task) = 0 ->
  Z.of_nat (limiter m) < MaxConcurrent (options m) ->
  fst (ShouldProfile hasUnicode visit (ExpiresAt task) m path method) = (task, true).
Proof.
  intros He Hf Hsample Hroom.
  rewrite (ShouldProfile_candidate _ _ _ _ _ task He Hf)
    by (unfold After; apply Z.ltb_irrefl).
  destruct (Z.ltb_spec 1 (SampleRate task)) as [Hgt|Hle].
  - destruct Hsample as [Hle|Hrem]; [lia|].
    cbv zeta. fold (counter m task). rewrite Hrem. cbn [Z.eqb negb].
    unfold tryAcquire. cbn [limiter options with_requestCount].
    by rewrite (proj2 (Z.ltb_lt _ _) Hroom).
  - unfold tryAcquire. by rewrite (proj2 (Z.ltb_lt _ _) Hroom).
Qed.

(** C1, amended.  For a task [T] with [sample_rate = N >= 1] and a
    sequence of [matched] calls of [ShouldProfile] that all select [T]
    (the first task of the visited table that matches path and method)
    and find it not expired, the counter of [T]'s path standing at [c0]
    when the sequence starts and staying below 2^63: the number of calls
    that pass the sampling check (admitted, or refused only for lack of a
    permit) is [(c0 + matched) / N - c0 / N], all of them admitted when
    the permits suffice; this is [matched / N] when [c0] is a multiple of
    [N], as it is for a path with no counter yet.  When [N > 1] the
    counter ends at [c0 + matched], one increment per call.  A request
    that [T] does not match leaves the counter of [T]'s path alone, a
    request that finds [T] expired changes nothing, and a request that
    [T] matches and no other task of the table matches selects [T]. *)
Theorem sampling_admits_every_Nth m T reqs :
  Enabled (options m) = true ->
  1 <= SampleRate T ->
  int64_range (counter m T) ->
  counter m T + Z.of_nat (length reqs) < 2 ^ 63 ->
  Forall (fun r => findTask hasUnicode m (req_visit r) (req_path r) (req_method r) = Some T
                   /\ After (req_now r) (ExpiresAt T) = false) reqs ->
  Z.of_nat (fst (fst (serve hasUnicode m reqs)) + snd (fst (serve hasUnicode m reqs)))
  = (counter m T + Z.of_nat (length reqs)) / SampleRate T - counter m T / SampleRate T
  /\ (Z.of_nat (limiter m)
      + ((counter m T + Z.of_nat (length reqs)) / SampleRate T - counter m T / SampleRate T)
       <= MaxConcurrent (options m) ->
      Z.of_nat (fst (fst (serve hasUnicode m reqs)))
      = (counter m T + Z.of_nat (length reqs)) / SampleRate T - counter m T / SampleRate T)
  /\ (counter m T mod SampleRate T = 0 ->
      (counter m T + Z.of_nat (length reqs)) / SampleRate T - counter m T / SampleRate T
      = Z.of_nat (length reqs) / SampleRate T)
  /\ (1 < SampleRate T ->
      counter (snd (serve hasUnicode m reqs)) T = counter m T + Z.of_nat (length reqs))
  /\ (forall visit now m0 path method,
        (forall k t, tasks m0 !! k = Some t -> Path t = k) ->
        tasks m0 !! Path T = Some T ->
        visit ≡ₚ map_to_list (tasks m0) ->
        pathMatcher m0 (Path T) path && ShouldMatchMethod hasUnicode T method = false ->
        requestCount (snd (ShouldProfile hasUnicode visit now m0 path method)) !! Path T
        = requestCount m0 !! Path T)
  /\ (forall visit now m0 path method,
        findTask hasUnicode m0 visit path method = Some T ->
        After now (ExpiresAt T) = true ->
        ShouldProfile hasUnicode visit now m0 path method = ((zeroTask, false), m0))
  /\ (forall visit m0 path method,
        (exists k, (k, T) ∈ visit) ->
        pathMatcher m0 (Path T) path && ShouldMatchMethod hasUnicode T method = true ->
        (forall k t, (k, t) ∈ visit ->
           pathMatcher m0 (Path t) path && ShouldMatchMethod hasUnicode t method = true ->
           t = T) ->
        findTask hasUnicode m0 visit path method = Some T).
Proof.
  intros He HN Hc0 Hbound Hall.
  destruct (serve_sampling T reqs m He HN Hc0 Hbound Hall) as (Ha & Hc & Hex).
  split; [exact Ha|]. split; [|split; [|split; [exact Hc|split; [|split]]]].
  - intros Hfits. rewrite (Hex Hfits) in Ha. by rewrite Nat.add_0_r in Ha.
  - intros Hmult. apply Z.mod_divide in Hmult as [q Hq]; [|lia].
    rewrite Hq, Z.div_mul by lia.
    rewrite (Z.add_comm (q * SampleRate T)), Z.div_add by lia. lia.
  - intros visit now m0 path method. apply ShouldProfile_mismatch_counter.
  - intros visit now m0 path method. apply ShouldProfile_expired_unchanged.
  - intros visit m0 path method. apply findTask_only_match.
Qed.

(** What the tasks view lists as active and as expired. *)
Lemma TasksHandler_categorize_elem now visit : forall active expired t,
  let out := foldl (fun '((activeTasks, expiredTasks)
                           : list ProfilingTask * list ProfilingTask)
                        '((_, task) : string * ProfilingTask) =>
                      if Before now (ExpiresAt task)
                      then (activeTasks ++ [task], expiredTasks)
                      else (activeTasks, expiredTasks ++ [task]))
                   (active, expired) visit in
  (t ∈ fst out <-> t ∈ active \/ exists k, (k, t) ∈ visit /\ now < ExpiresAt t)
  /\ (t ∈ snd out <-> t ∈ expired \/ exists k, (k, t) ∈ visit /\ ExpiresAt t <= now).
Proof.
  induction visit as [|[k0 t0] visit IH]; intros active expired t; cbn [foldl].
  - cbn [fst snd]. split; (split; [by left|]).
    + intros [?|(k & Hin & _)]; [done|by apply elem_of_nil in Hin].
    + intros [?|(k & Hin & _)]; [done|by apply elem_of_nil in Hin].
  - unfold Before. destruct (Z.ltb_spec now (ExpiresAt t0)) as [Hlt|Hge].
    + destruct (IH (active ++ [t0]) expired t) as [IHa IHe]. cbv zeta in IHa, IHe.
      split.
      * rewrite IHa, elem_of_app, list_elem_of_singleton. split.
        -- intros [[?| ->]|(k & Hin & Hlt')]; [by left| |].
           ++ right. exists k0. split; [left|done].
           ++ right. exists k. split; [by right|done].
        -- intros [?|(k & Hin & Hlt')]; [by left; left|].
           apply elem_of_cons in Hin as [[= -> ->]|Hin]; [by left; right|].
           right. by exists k.
      * rewrite IHe. split.
        -- intros [?|(k & Hin & Hge')]; [by left|].
           right. exists k. split; [by right|done].
        -- intros [?|(k & Hin & Hge')]; [by left|].
           apply elem_of_cons in Hin as [[= -> ->]|Hin]; [lia|].
           right. by exists k.
    + destruct (IH active (expired ++ [t0]) t) as [IHa IHe]. cbv zeta in IHa, IHe.
      split.
      * rewrite IHa. split.
        -- intros [?|(k & Hin & Hlt')]; [by left|].
           right. exists k. split; [by right|done].
        -- intros [?|(k & Hin & Hlt')]; [by left|].
           apply elem_of_cons in Hin as [[= -> ->]|Hin]; [lia|].
           right. by exists k.
      * rewrite IHe, elem_of_app, list_elem_of_singleton. split.
        -- intros [[?| ->]|(k & Hin & Hge')]; [by left| |].
           ++ right. exists k0. split; [left|done].
           ++ right. exists k. split; [by right|done].
        -- intros [?|(k & Hin & Hge')]; [by left; left|].
           apply elem_of_cons in Hin as [[= -> ->]|Hin]; [by left; right|].
           right. by exists k.
Qed.

(** C5.  At the instant [now = expires_at] the task is not inert: when it
    is the task selected for the request, the sampling check passes and a
    permit is free, [ShouldProfile] admits it, for its test is
    [now.After(expires_at)].  The other readers of [expires_at] test
    [now.Before(expires_at)] and take the task for expired at that same
    instant: the tasks view lists it as expired and not as active, the
    status view does not count it, and the file provider drops it. *)
Theorem expiry_instant_admitted visit m path method task :
  Enabled (options m) = true ->
  findTask hasUnicode m visit path method = Some task ->
  SampleRate task <= 1
  \/ Z.rem (wrap64 (counter m task + 1)) (SampleRate task) = 0 ->
  Z.of_nat (limiter m) < MaxConcurrent (options m) ->
  fst (ShouldProfile hasUnicode visit (ExpiresAt task) m path method) = (task, true)
  /\ (task ∈ snd (Middleware.TasksHandler_categorize (ExpiresAt task) visit))
  /\ (task ∉ fst (Middleware.TasksHandler_categorize (ExpiresAt task) visit))
  /\ Middleware.StatusHandler_activeTasks (ExpiresAt task) [(Path task, task)] = 0
  /\ Config.validTasks (Config.filterTasks (ExpiresAt task) [task]) = []
  /\ Config.expiredCount (Config.filterTasks (ExpiresAt task) [task]) = 1.
Proof.
  intros He Hf Hsample Hroom.
  split; [by apply ShouldProfile_at_expires_at|].
  destruct (TasksHandler_categorize_elem (ExpiresAt task) visit [] [] task) as [Ha Hx].
  cbv zeta in Ha, Hx. fold (Middleware.TasksHandler_categorize (ExpiresAt task) visit) in Ha, Hx.
  split; [|split; [|split; [|split]]].
  - apply Hx. right. apply findTask_elem in Hf as [k Hk]. exists k. split; [done|lia].
  - rewrite Ha. intros [Hin|(k & _ & Hlt)]; [by apply elem_of_nil in Hin|lia].
  - unfold Middleware.StatusHandler_activeTasks, Before. cbn [foldl].
    by rewrite Z.ltb_irrefl.
  - unfold Config.filterTasks, Before. cbn [foldl]. by rewrite Z.ltb_irrefl.
  - unfold Config.filterTasks, Before. cbn [foldl]. by rewrite Z.ltb_irrefl.
Qed.

End AdmissionFacts.

(** Scenario "Sampling": of nine requests the fifth is admitted, and the
    counter ends at 9. *)
Example serve_nine_requests :
  fst (serve Examples.noUnicode Examples.sampled_manager
         (map Examples.get_a7 [1; 2; 3; 4; 5; 6; 7; 8; 9])) = (1%nat, 0%nat)
  /\ requestCount (snd (serve Examples.noUnicode Examples.sampled_manager
                          (map Examples.get_a7 [1; 2; 3; 4; 5; 6; 7; 8; 9])))
     !! "/a/:id"%string = Some 9.
Proof. split; vm_compute; reflexivity. Qed.

(** The sampled table after four requests, declared again with
    [sample_rate = 3]: the path keeps its counter, 4, and of two further
    requests the second is admitted. *)
Lemma sampling_admits_every_Nth_witness :
  Z.of_nat (fst (fst (serve Examples.noUnicode Examples.redeclared_manager
                        (map (fun now => Examples.request Examples.redeclared_manager now
                                           "/a/7" "GET") [60; 61])))
            + snd (fst (serve Examples.noUnicode Examples.redeclared_manager
                          (map (fun now => Examples.request Examples.redeclared_manager now
                                             "/a/7" "GET") [60; 61]))))
  = (4 + 2) / 3 - 4 / 3.
Proof.
  refine (proj1 (sampling_admits_every_Nth Examples.noUnicode Examples.redeclared_manager
                   (Examples.task_a ["GET"%string] 1000 3 "cpu")
                   (map (fun now => Examples.request Examples.redeclared_manager now
                                      "/a/7" "GET") [60; 61]) _ _ _ _ _)).
  - reflexivity.
  - simpl; lia.
  - vm_compute. split; [discriminate|reflexivity].
  - vm_compute; reflexivity.
  - repeat constructor; vm_compute; reflexivity.
Defined.

(** The count is not [matched / N] in general.  First, a path declared
    again keeps its counter: with the counter at 4 and [N = 3], of two
    requests that select the task one is admitted, and [2 / 3 = 0].
    Second, a request that a task matches may select another task: with
    the templates [/a/:id] ([N = 2]) and [/a/*] both in the table and the
    second visited first, two requests [GET /a/7] match the first task,
    are both admitted for the second, and leave the counter of the first
    unset, while [2 / 2 = 1].  Third, a manager whose options switch
    profiling off admits nothing: a request that its only task matches is
    refused, and [1 / 1 = 1]. *)
Lemma sampling_depends_on_counter_and_selection :
  (counter Examples.redeclared_manager (Examples.task_a ["GET"%string] 1000 3 "cpu") = 4
   /\ Forall (fun r =>
                findTask Examples.noUnicode Examples.redeclared_manager
                  (req_visit r) (req_path r) (req_method r)
                = Some (Examples.task_a ["GET"%string] 1000 3 "cpu")
                /\ After (req_now r) 1000 = false)
             (map (fun now => Examples.request Examples.redeclared_manager now "/a/7" "GET")
                  [60; 61])
   /\ fst (serve Examples.noUnicode Examples.redeclared_manager
             (map (fun now => Examples.request Examples.redeclared_manager now "/a/7" "GET")
                  [60; 61])) = (1%nat, 0%nat)
   /\ 2 / 3 = 0)
  /\ (tasks Examples.overlap_manager !! "/a/:id"%string
      = Some (Examples.task_a ["GET"%string] 1000 2 "cpu")
      /\ Examples.visit_star_first ≡ₚ map_to_list (tasks Examples.overlap_manager)
      /\ Forall (fun r =>
                   pathMatcher Examples.overlap_manager "/a/:id" (req_path r)
                   && ShouldMatchMethod Examples.noUnicode
                        (Examples.task_a ["GET"%string] 1000 2 "cpu") (req_method r) = true
                   /\ After (req_now r) 1000 = false)
                (map Examples.get_a7_star_first [10; 11])
      /\ fst (serve Examples.noUnicode Examples.overlap_manager
                (map Examples.get_a7_star_first [10; 11])) = (2%nat, 0%nat)
      /\ map (fun r => fst (fst (ShouldProfile Examples.noUnicode (req_visit r) (req_now r)
                                   Examples.overlap_manager (req_path r) (req_method r))))
             (map Examples.get_a7_star_first [10; 11])
         = [Examples.task_star; Examples.task_star]
      /\ requestCount (snd (serve Examples.noUnicode Examples.overlap_manager
                              (map Examples.get_a7_star_first [10; 11])))
         !! "/a/:id"%string = None
      /\ 2 / 2 = 1)
  /\ (findTask Examples.noUnicode Examples.disabled_manager
         (map_to_list (tasks Examples.disabled_manager)) "/a/7" "GET"
       = Some (Examples.task_a ["GET"%string] 1000 1 "cpu")
      /\ After 10 1000 = false
      /\ fst (serve Examples.noUnicode Examples.disabled_manager
                [Examples.request Examples.disabled_manager 10 "/a/7" "GET"])
         = (0%nat, 0%nat)
      /\ 1 / 1 = 1).
Proof.
  split; [|split; [|repeat split; vm_compute; reflexivity]].
  - split; [vm_compute; reflexivity|]. split; [|split; vm_compute; reflexivity].
    repeat constructor; vm_compute; reflexivity.
  - split; [vm_compute; reflexivity|]. split.
    { replace (map_to_list (tasks Examples.overlap_manager))
        with [("/a/:id"%string, Examples.task_a ["GET"%string] 1000 2 "cpu");
              ("/a/*"%string, Examples.task_star)] by (vm_compute; reflexivity).
      apply perm_swap. }
    split; [repeat constructor; vm_compute; reflexivity|].
    repeat split; vm_compute; reflexivity.
Qed.

(** The task that expires at instant 100 is admitted at instant 100. *)
Example ShouldProfile_admits_at_expiry :
  ExpiresAt (Examples.task_a [] 100 1 "cpu") = 100
  /\ fst (ShouldProfile Examples.noUnicode
            (map_to_list (tasks Examples.expiring_manager)) 100
            Examples.expiring_manager "/a/7" "GET")
     = (Examples.task_a [] 100 1 "cpu", true).
Proof. split; [reflexivity | vm_compute; reflexivity]. Qed.

(** One instant later it is refused. *)
Example ShouldProfile_refuses_after_expiry :
  ShouldProfile Examples.noUnicode
    (map_to_list (tasks Examples.expiring_manager)) 101
    Examples.expiring_manager "/a/7" "GET"
  = ((zeroTask, false), Examples.expiring_manager).
Proof.
  apply (proj1 (ShouldProfile_after_expiry Examples.noUnicode
                  (map_to_list (tasks Examples.expiring_manager)) 101
                  Examples.expiring_manager "/a/7" "GET")
               (Examples.task_a [] 100 1 "cpu")).
  - vm_compute; reflexivity.
  - simpl; lia.
Qed.

Lemma expiry_instant_admitted_witness :
  fst (ShouldProfile Examples.noUnicode
         (map_to_list (tasks Examples.expiring_manager)) 100
         Examples.expiring_manager "/a/7" "GET")
  = (Examples.task_a [] 100 1 "cpu", true)
  /\ (Examples.task_a [] 100 1 "cpu"
        ∈ snd (Middleware.TasksHandler_categorize 100
                 (map_to_list (tasks Examples.expiring_manager))))
  /\ (Examples.task_a [] 100 1 "cpu"
        ∉ fst (Middleware.TasksHandler_categorize 100
                 (map_to_list (tasks Examples.expiring_manager))))
  /\ Middleware.StatusHandler_activeTasks 100
       [("/a/:id"%string, Examples.task_a [] 100 1 "cpu")] = 0
  /\ Config.validTasks (Config.filterTasks 100 [Examples.task_a [] 100 1 "cpu"]) = []
  /\ Config.expiredCount (Config.filterTasks 100 [Examples.task_a [] 100 1 "cpu"]) = 1.
Proof.
  apply (expiry_instant_admitted Examples.noUnicode
           (map_to_list (tasks Examples.expiring_manager))
           Examples.expiring_manager "/a/7" "GET" (Examples.task_a [] 100 1 "cpu")).
  - reflexivity.
  - vm_compute; reflexivity.
  - left. simpl; lia.
  - vm_compute; reflexivity.
Defined.

(** ** Configuration updates *)

Lemma buildTaskMap_snoc L t :
  buildTaskMap (L ++ [t]) = <[Path t := t]> (buildTaskMap L).
Proof. unfold buildTaskMap. by rewrite foldl_app. Qed.

Lemma buildTaskMap_lookup L path :
  buildTaskMap L !! path = last_declared L path.
Proof.
  unfold last_declared.
  induction L as [|t L IH] using rev_ind; [done|].
  rewrite buildTaskMap_snoc, filter_app.
  destruct (decide (Path t = path)) as [Heq|Hne].
  - rewrite Heq, lookup_insert_eq.
    rewrite filter_cons_True, filter_nil by done.
    by rewrite last_snoc.
  - rewrite lookup_insert_ne by done.
    rewrite filter_cons_False, filter_nil, app_nil_r by done. done.
Qed.

Lemma last_declared_elem L path t :
  last_declared L path = Some t -> t ∈ L /\ Path t = path.
Proof.
  unfold last_declared. intros Hlast.
  apply last_Some_elem_of in Hlast.
  by apply list_elem_of_filter in Hlast as [? ?].
Qed.

Lemma last_declared_some L t :
  t ∈ L -> is_Some (last_declared L (Path t)).
Proof.
  unfold last_declared. intros Hin.
  destruct (filter (λ t0, Path t0 = Path t) L) as [|x l] eqn:E.
  - assert (t ∈ filter (λ t0, Path t0 = Path t) L) as Hf
      by (apply list_elem_of_filter; done).
    rewrite E in Hf. inversion Hf.
  - rewrite last_is_Some. done.
Qed.

(** Every task of the table built from [L] is keyed by its own path. *)
Lemma buildTaskMap_keyed L k t :
  buildTaskMap L !! k = Some t -> t ∈ L /\ Path t = k.
Proof. rewrite buildTaskMap_lookup. apply last_declared_elem. Qed.

Lemma pruneCounts_lookup taskMap visit counts path :
  pruneCounts taskMap visit counts !! path
  = if bool_decide (path ∈ visit /\ taskMap !! path = None) then None
    else counts !! path.
Proof.
  unfold pruneCounts.
  revert counts. induction visit as [|p visit IH]; intros counts; cbn [foldl].
  - case_bool_decide as H1; [|done]. destruct H1 as [H1 _]. inversion H1.
  - rewrite IH. clear IH.
    case_bool_decide as H1; case_bool_decide as H2; try done.
    + destruct H2. destruct H1 as [H1 ?]. split; [by right|done].
    + destruct H2 as [H2 Hn]. inversion H2; subst.
      * rewrite Hn. by rewrite lookup_delete_eq.
      * destruct H1. done.
    + destruct (taskMap !! p) eqn:Hp; [done|].
      destruct (decide (p = path)) as [->|Hne].
      * destruct H2. split; [left|done].
      * by rewrite lookup_delete_ne.
Qed.

(** Visiting the keys of the counter in any order that covers them prunes
    exactly the paths that are not in the table. *)
Lemma pruneCounts_covering taskMap visit (counts : gmap string Z) path :
  (forall p, is_Some (counts !! p) -> p ∈ visit) ->
  pruneCounts taskMap visit counts !! path
  = match taskMap !! path with
    | Some _ => counts !! path
    | None => None
    end.
Proof.
  intros Hcover. rewrite pruneCounts_lookup.
  case_bool_decide as Hd.
  - destruct Hd as [_ ->]. done.
  - destruct (taskMap !! path) eqn:Ht; [done|].
    destruct (counts !! path) eqn:Hc; [|done].
    destruct Hd. split; [|done]. apply Hcover. by rewrite Hc.
Qed.

Lemma keys_cover (counts : gmap string Z) p :
  is_Some (counts !! p) -> p ∈ (map_to_list counts).*1.
Proof.
  intros [c Hc]. apply list_elem_of_fmap. exists (p, c).
  split; [done|]. by apply elem_of_map_to_list.
Qed.

Section UpdateFacts.

Context {S : Type}.

Variable hasUnicode : string -> string -> bool.

Implicit Types m : Manager (S := S).

Lemma updateTasks_tasks now m L : tasks (updateTasks now m L) = buildTaskMap L.
Proof. done. Qed.

Lemma updateTasks_requestCount now m L path :
  requestCount (updateTasks now m L) !! path
  = match last_declared L path with
    | Some _ => requestCount m !! path
    | None => None
    end.
Proof.
  unfold updateTasks. simpl.
  rewrite pruneCounts_covering by apply keys_cover.
  by rewrite buildTaskMap_lookup.
Qed.

(** C4.  After [updateTasks(L)]: the task table holds for each path the
    last task [L] declares for it; the request counter has no key that is
    not the path of a task of [L], and keeps its value at the paths of
    [L]; [last_update] is the instant of the update; the result does not
    depend on the table that was there before, so that [ShouldProfile]
    only admits tasks of [L] and refuses a request that no task of [L]
    matches. *)
Theorem updateTasks_installs now m L :
  (forall path, tasks (updateTasks now m L) !! path = last_declared L path)
  /\ (forall path, is_Some (requestCount (updateTasks now m L) !! path) ->
        exists t, t ∈ L /\ Path t = path)
  /\ (forall t, t ∈ L ->
        requestCount (updateTasks now m L) !! Path t = requestCount m !! Path t)
  /\ LastUpdate (stats (updateTasks now m L)) = now
  /\ (forall old, updateTasks now (with_tasks m old) L = updateTasks now m L)
  /\ (forall visit now' path method t m',
        visit ≡ₚ map_to_list (tasks (updateTasks now m L)) ->
        ShouldProfile hasUnicode visit now' (updateTasks now m L) path method
        = ((t, true), m') ->
        t ∈ L)
  /\ (forall visit now' path method,
        visit ≡ₚ map_to_list (tasks (updateTasks now m L)) ->
        (forall t, t ∈ L ->
           pathMatcher m (Path t) path && ShouldMatchMethod hasUnicode t method = false) ->
        ShouldProfile hasUnicode visit now' (updateTasks now m L) path method
        = ((zeroTask, false), updateTasks now m L)).
Proof.
  split; [|split; [|split; [|split; [|split; [|split]]]]].
  - intros path. rewrite updateTasks_tasks. apply buildTaskMap_lookup.
  - intros path. rewrite updateTasks_requestCount.
    destruct (last_declared L path) as [t|] eqn:Ht.
    + intros _. exists t. by apply last_declared_elem.
    + intros [? ?]. done.
  - intros t Hin. rewrite updateTasks_requestCount.
    by destruct (last_declared_some L t Hin) as [t' ->].
  - done.
  - done.
  - intros visit now' path method t m' Hvisit Hadm.
    apply ShouldProfile_admits in Hadm as [Hfind _].
    apply (findTask_elem hasUnicode) in Hfind as [k Hk].
    rewrite Hvisit in Hk. apply elem_of_map_to_list in Hk.
    rewrite updateTasks_tasks in Hk.
    by apply buildTaskMap_keyed in Hk as [? _].
  - intros visit now' path method Hvisit Hnone.
    unfold ShouldProfile.
    destruct (negb (Enabled (options (updateTasks now m L)))); [done|].
    destruct (findTask hasUnicode (updateTasks now m L) visit path method) as [t|] eqn:Hf;
      [|done].
    exfalso.
    assert (Hin : t ∈ L).
    { apply (findTask_elem hasUnicode) in Hf as [k Hk].
      rewrite Hvisit in Hk. apply elem_of_map_to_list in Hk.
      rewrite updateTasks_tasks in Hk.
      by apply buildTaskMap_keyed in Hk as [? _]. }
    specialize (Hnone t Hin).
    apply (findTask_matches hasUnicode) in Hf. change (pathMatcher (updateTasks now m L)) with
      (pathMatcher m) in Hf. congruence.
Qed.

End UpdateFacts.

(** ** Permits *)

Section PermitFacts.

Context {S : Type} `{Storage S}.

Variable hasUnicode : string -> string -> bool.

Variable localTime : Time -> Civil.

Implicit Types m : Manager (S := S).

Lemma tryAcquire_accounts m task :
  accounts (snd (tryAcquire m task))
  = (options m,
     (if admits (tryAcquire m task) then Datatypes.S (limiter m) else limiter m),
     ActiveProfiles (stats m))
  /\ (admits (tryAcquire m task) = true <->
      Z.of_nat (limiter m) < MaxConcurrent (options m)).
Proof.
  unfold tryAcquire, accounts, admits.
  destruct (Z.ltb_spec (Z.of_nat (limiter m)) (MaxConcurrent (options m))); simpl.
  - done.
  - split; [done|]. split; [done|lia].
Qed.

Lemma ShouldProfile_accounts visit now m path method :
  accounts (snd (ShouldProfile hasUnicode visit now m path method))
  = (options m,
     (if admits (ShouldProfile hasUnicode visit now m path method)
      then Datatypes.S (limiter m) else limiter m),
     ActiveProfiles (stats m))
  /\ (admits (ShouldProfile hasUnicode visit now m path method) = true ->
      Z.of_nat (limiter m) < MaxConcurrent (options m)).
Proof.
  unfold ShouldProfile.
  destruct (negb _); [done|].
  destruct (findTask _ _ _ _ _) as [task|]; [|done].
  destruct (After _ _); [done|].
  destruct (1 <? _); [destruct (negb _); [done|]|];
    match goal with |- context [tryAcquire ?m' task] =>
      destruct (tryAcquire_accounts m' task) as [-> Hiff]; split; [done|apply Hiff]
    end.
Qed.

Lemma Profiler_StartProfiling_result rt now p task :
  (exists session rt', Profiler_StartProfiling rt now p task = ((Some session, None), rt'))
  \/ (exists err rt', Profiler_StartProfiling rt now p task = ((None, Some err), rt')).
Proof.
  destruct p; simpl.
  - unfold NewCPUProfileSession. destruct (cpuProfiling rt); [right|left]; eauto.
  - left. eauto.
  - left. eauto.
Qed.

(** [StartProfiling] either returns a session, having counted it, or
    returns none, having released the permit. *)
Lemma StartProfiling_accounts rt now m path task :
  accounts (snd (fst (StartProfiling rt now m path task)))
  = match fst (fst (fst (StartProfiling rt now m path task))) with
    | Some _ => (options m, limiter m, wrap64 (ActiveProfiles (stats m) + 1))
    | None => (options m, Nat.pred (limiter m), ActiveProfiles (stats m))
    end.
Proof.
  unfold StartProfiling.
  destruct (profilers m !! ProfileType task) as [p|]; [|done].
  destruct (Profiler_StartProfiling_result rt now p task)
    as [(session & rt' & ->)|(err & rt' & ->)]; done.
Qed.

Lemma StopProfiling_body_accounts rt clk m path method task session :
  accounts (so_manager (StopProfiling_body localTime rt clk m path method task session))
  = (options m, limiter m, wrap64 (ActiveProfiles (stats m) - 1)).
Proof.
  unfold StopProfiling_body.
  destruct (Stop rt session) as [[[data [e|]] s'] rt']; [done|].
  destruct (len data =? 0); [done|].
  destruct (Save _ _ _ _) as [st [e|]]; done.
Qed.

Lemma updateTasks_accounts now m L : accounts (updateTasks now m L) = accounts m.
Proof. done. Qed.

Lemma cleanExpiredTasks_accounts now m : accounts (cleanExpiredTasks now m) = accounts m.
Proof.
  unfold cleanExpiredTasks.
  generalize (map_to_list (tasks m)). intros l. revert m.
  induction l as [|[path task] l IH]; intros m; simpl; [done|].
  rewrite IH. by destruct (After _ _).
Qed.

Lemma sessions_app fs1 fs2 : Middleware.sessions (fs1 ++ fs2) = (Middleware.sessions fs1 + Middleware.sessions fs2)%nat.
Proof. unfold Middleware.sessions. by rewrite filter_app, length_app. Qed.

Lemma sessions_le fs : (Middleware.sessions fs <= length fs)%nat.
Proof. unfold Middleware.sessions. apply length_filter. Qed.

Lemma step_balanced opts w w' :
  int64_range (MaxConcurrent opts) ->
  Middleware.balanced opts w -> Middleware.step hasUnicode localTime w w' -> Middleware.balanced opts w'.
Proof.
  intros Hint [Hacc Hcap] Hstep. unfold Middleware.balanced in *.
  pose proof (sessions_le (Middleware.flights w)) as Hle.
  destruct Hstep; cbn [Middleware.mgr Middleware.flights] in *.
  - (* refused *)
    destruct (ShouldProfile_accounts visit now m path method) as [Hsp _].
    rewrite H1 in Hsp. unfold admits in Hsp. cbn [fst snd] in Hsp.
    by rewrite Hsp, <- Hacc.
  - (* admitted *)
    destruct (ShouldProfile_accounts visit now m path method) as [Hsp Hroom].
    rewrite H1 in Hsp, Hroom. unfold admits in Hsp, Hroom. cbn [fst snd] in Hsp, Hroom.
    specialize (Hroom eq_refl). injection Hacc as Ho Hl Ha.
    rewrite Hsp, sessions_app, length_app. cbn. rewrite Nat.add_0_r.
    rewrite Ho in Hroom.
    split; [f_equal; [f_equal; [done|lia]|done]|]. lia.
  - (* started *)
    pose proof (StartProfiling_accounts rt now m path task) as Hsp.
    rewrite H0 in Hsp. cbn [fst snd] in Hsp. injection Hacc as Ho Hl Ha.
    rewrite Hsp. rewrite !sessions_app, !length_app in *.
    change (Middleware.sessions (Middleware.Profiling path method task session :: fs2))
      with (Datatypes.S (Middleware.sessions fs2)).
    change (Middleware.sessions (Middleware.Permitted path method task :: fs2))
      with (Middleware.sessions fs2) in *.
    cbn [length] in *.
    pose proof (sessions_le fs1). pose proof (sessions_le fs2).
    split; [|lia]. f_equal; [f_equal; done|].
    rewrite Ha, wrap64_id; [lia|]. unfold int64_range in *. lia.
  - (* start failed *)
    pose proof (StartProfiling_accounts rt now m path task) as Hsp.
    rewrite H0 in Hsp. cbn [fst snd] in Hsp. injection Hacc as Ho Hl Ha.
    rewrite Hsp. rewrite !sessions_app, !length_app in *.
    change (Middleware.sessions (Middleware.Permitted path method task :: fs2))
      with (Middleware.sessions fs2) in *.
    cbn [length] in *.
    split; [|lia]. f_equal; [f_equal; [done|lia]|done].
  - (* the timer stops the session *)
    rewrite !sessions_app, !length_app in *.
    change (Middleware.sessions (Middleware.Profiling path method task session' :: fs2))
      with (Datatypes.S (Middleware.sessions fs2)).
    change (Middleware.sessions (Middleware.Profiling path method task session :: fs2))
      with (Datatypes.S (Middleware.sessions fs2)) in *.
    cbn [length] in *. done.
  - (* stopped *)
    rewrite StopProfiling_body_accounts. injection Hacc as Ho Hl Ha.
    rewrite !sessions_app, !length_app in *.
    change (Middleware.sessions (Middleware.Profiling path method task session :: fs2))
      with (Datatypes.S (Middleware.sessions fs2)) in *.
    change (Middleware.sessions (Middleware.Releasing :: fs2)) with (Middleware.sessions fs2).
    cbn [length] in *.
    pose proof (sessions_le fs1). pose proof (sessions_le fs2).
    split; [|lia]. f_equal; [f_equal; done|].
    rewrite Ha, wrap64_id; [lia|]. unfold int64_range in *. lia.
  - (* released *)
    injection Hacc as Ho Hl Ha.
    rewrite !sessions_app, !length_app in *.
    change (Middleware.sessions (Middleware.Releasing :: fs2)) with (Middleware.sessions fs2) in *.
    cbn [length] in *.
    split; [|lia]. unfold accounts, releaseLimiter. cbn.
    f_equal; [f_equal; [done|lia]|done].
  - by rewrite updateTasks_accounts.
  - by rewrite cleanExpiredTasks_accounts.
Qed.

Lemma NewManager_balanced opts (st : S) matcher now m :
  NewManager opts st matcher now = Some m ->
  Middleware.balanced opts {| Middleware.mgr := m; Middleware.flights := [] |}.
Proof.
  unfold NewManager. destruct (Z.ltb_spec (MaxConcurrent opts) 0); [done|].
  intros [= <-]. split; [done|]. simpl. lia.
Qed.

Lemma reachable_balanced opts w :
  int64_range (MaxConcurrent opts) ->
  Middleware.reachable hasUnicode localTime opts w -> Middleware.balanced opts w.
Proof.
  intros Hint Hreach. induction Hreach.
  - by eapply NewManager_balanced.
  - by eapply step_balanced.
Qed.

(** C3.  In every world reachable through [ShouldProfile],
    [StartProfiling] and [StopProfiling] (and the timers, configuration
    updates and sweeps between them), [active_profiles] is at most the
    number of permits held, which is at most [MaxConcurrent]: a session is
    counted only after its permit was acquired.  When no permit is
    available [ShouldProfile] returns [false] and takes none; and
    [StopProfiling] gives one permit back on each of its exits. *)
Theorem active_profiles_bounded opts w :
  int64_range (MaxConcurrent opts) ->
  Middleware.reachable hasUnicode localTime opts w ->
  (0 <= ActiveProfiles (GetStats (Middleware.mgr w))
        <= Z.of_nat (limiter (Middleware.mgr w))
   /\ Z.of_nat (limiter (Middleware.mgr w)) <= MaxConcurrent opts
   /\ options (Middleware.mgr w) = opts)
  /\ (forall visit now m path method,
        MaxConcurrent (options m) <= Z.of_nat (limiter m) ->
        admits (ShouldProfile hasUnicode visit now m path method) = false
        /\ limiter (snd (ShouldProfile hasUnicode visit now m path method)) = limiter m)
  /\ (forall rt clk m path method task session,
        limiter (so_manager (StopProfiling localTime rt clk m path method task session))
        = Nat.pred (limiter m)).
Proof.
  intros Hint Hreach. split; [|split].
  - destruct (reachable_balanced opts w Hint Hreach) as [Hacc Hcap].
    injection Hacc as Ho Hl Ha.
    pose proof (sessions_le (Middleware.flights w)).
    change (ActiveProfiles (GetStats (Middleware.mgr w)))
      with (ActiveProfiles (stats (Middleware.mgr w))).
    rewrite Ha, Hl. repeat split; try done; lia.
  - intros visit now m path method Hfull.
    destruct (ShouldProfile_accounts visit now m path method) as [Hsp Hroom].
    destruct (admits _) eqn:Hadm; [specialize (Hroom eq_refl); lia|].
    split; [done|]. by injection Hsp.
  - intros rt clk m path method task session.
    pose proof (StopProfiling_body_accounts rt clk m path method task session) as Hb.
    injection Hb as _ Hl _. unfold StopProfiling. simpl. by rewrite Hl.
Qed.

End PermitFacts.

(** One heap session in flight on a fresh manager: the world reached by
    installing the table, admitting a request and starting its session. *)
Lemma active_profiles_bounded_witness :
  0 <= ActiveProfiles (GetStats (Middleware.mgr Examples.heap_world))
    <= Z.of_nat (limiter (Middleware.mgr Examples.heap_world))
  /\ Z.of_nat (limiter (Middleware.mgr Examples.heap_world)) <= MaxConcurrent DefaultOptions
  /\ options (Middleware.mgr Examples.heap_world) = DefaultOptions.
Proof.
  refine (proj1 (active_profiles_bounded Examples.noUnicode Examples.frozen DefaultOptions
                   Examples.heap_world _ _)).
  - unfold int64_range. simpl. lia.
  - eapply Middleware.reachable_step.
    + eapply Middleware.reachable_step.
      * eapply Middleware.reachable_step.
        -- apply (Middleware.reachable_new Examples.noUnicode Examples.frozen DefaultOptions
                    Storage.NewMemoryStorage Http.GinPathMatcher_Match 0
                    (Examples.fresh DefaultOptions)).
           reflexivity.
        -- apply (Middleware.step_updated Examples.noUnicode Examples.frozen
                    (Examples.fresh DefaultOptions) [] 0 [Examples.heap_job]).
      * apply (Middleware.step_admitted Examples.noUnicode Examples.frozen
                 Examples.heap_manager [] (map_to_list (tasks Examples.heap_manager)) 10
                 "/a/7" "GET" Examples.heap_job Examples.heap_admitted).
        -- reflexivity.
        -- vm_compute; reflexivity.
    + apply (Middleware.step_started Examples.noUnicode Examples.frozen
               Examples.heap_admitted [] [] Examples.runtime0 11 "/a/7" "GET"
               Examples.heap_job Examples.heap_session None Examples.heap_started
               Examples.runtime0).
      vm_compute; reflexivity.
Defined.

(** The session in flight is counted, within the bound. *)
Example heap_world_counts :
  ActiveProfiles (GetStats (Middleware.mgr Examples.heap_world)) = 1
  /\ limiter (Middleware.mgr Examples.heap_world) = 1%nat.
Proof. split; vm_compute; reflexivity. Qed.

(** ** Storage backends *)

(** The memory backend: deleting an entry it does not hold changes
    nothing and returns no error. *)
Lemma MemoryStorage_Delete_missing m filename :
  Storage.files m !! filename = None ->
  Storage.MemoryStorage_Delete m filename = (m, None).
Proof. intros Hf. unfold Storage.MemoryStorage_Delete. by rewrite Hf. Qed.

Lemma MemoryStorage_Delete_no_error m filename :
  snd (Storage.MemoryStorage_Delete m filename) = None.
Proof. unfold Storage.MemoryStorage_Delete. by destruct (_ !! _). Qed.

(** C9.  The file backend does not treat the removal of a missing entry
    as a success: when the joined path names nothing on the disk,
    [FileStorage.Delete] returns the error of [os.Remove] and leaves the
    disk as it was. *)
Theorem FileStorage_Delete_missing_fails Join f filename :
  Storage.disk f !! Join (Storage.baseDir f) filename = None ->
  snd (Storage.FileStorage_Delete Join f filename)
  = Some ("remove " +:+ Join (Storage.baseDir f) filename +:+ ": no such file or directory")
  /\ Storage.disk (fst (Storage.FileStorage_Delete Join f filename)) = Storage.disk f.
Proof.
  intros Hf. unfold Storage.FileStorage_Delete, Storage.os_Remove.
  rewrite Hf. done.
Qed.

Lemma FileStorage_Delete_missing_fails_witness :
  snd (Storage.FileStorage_Delete Examples.join Examples.empty_disk
         "cpu/profile__a__id_GET_20250101_000000_1.pprof")
  = Some ("remove " +:+ Examples.join (Storage.baseDir Examples.empty_disk)
                          "cpu/profile__a__id_GET_20250101_000000_1.pprof"
          +:+ ": no such file or directory")
  /\ Storage.disk (fst (Storage.FileStorage_Delete Examples.join Examples.empty_disk
                          "cpu/profile__a__id_GET_20250101_000000_1.pprof"))
     = Storage.disk Examples.empty_disk.
Proof.
  apply (FileStorage_Delete_missing_fails Examples.join Examples.empty_disk).
  reflexivity.
Defined.

(** The two backends on the same missing entry. *)
Example Delete_missing_file_and_memory :
  snd (Storage.FileStorage_Delete Examples.join Examples.empty_disk "cpu/x.pprof")
  = Some "remove profiles/cpu/x.pprof: no such file or directory"%string
  /\ snd (Storage.MemoryStorage_Delete Storage.NewMemoryStorage "cpu/x.pprof") = None.
Proof. split; reflexivity. Qed.

(** ** The scenarios of the specification, evaluated *)

(** Method expansion: a task declared for ["*"] takes the four common
    methods in any letter case, and no other method. *)
Example scenario_method_expansion :
  map (fun method =>
         admits (ShouldProfile Examples.noUnicode
                   (map_to_list (tasks Examples.star_manager)) 10
                   Examples.star_manager "/a/7" method))
      ["GET"; "POST"; "PATCH"; "delete"]%string
  = [true; true; false; true].
Proof. vm_compute. reflexivity. Qed.

(** Concurrency cap: with one permit and the first session still in
    flight, the second admissible request is refused and counted as a
    failure. *)
Example scenario_concurrency_cap :
  fst (serve Examples.noUnicode Examples.single_manager
         [Examples.request Examples.single_manager 10 "/a/7" "GET";
          Examples.request Examples.single_manager 11 "/a/8" "GET"]) = (1%nat, 1%nat)
  /\ FailedCount (stats (snd (serve Examples.noUnicode Examples.single_manager
         [Examples.request Examples.single_manager 10 "/a/7" "GET";
          Examples.request Examples.single_manager 11 "/a/8" "GET"]))) = 1.
Proof. split; vm_compute; reflexivity. Qed.

(** Config swap: the counter of the path that is no longer declared is
    dropped, and its requests are refused. *)
Example scenario_config_swap :
  requestCount Examples.served_manager !! "/a/:id"%string = Some 3
  /\ requestCount Examples.swapped_manager !! "/a/:id"%string = None
  /\ admits (ShouldProfile Examples.noUnicode
               (map_to_list (tasks Examples.swapped_manager)) 60
               Examples.swapped_manager "/a/7" "GET") = false
  /\ LastUpdate (stats Examples.swapped_manager) = 50.
Proof. repeat split; vm_compute; reflexivity. Qed.

(** Expiry: past [expires_at] the request is refused and the manager is
    left as it was. *)
Example scenario_expiry :
  ShouldProfile Examples.noUnicode (map_to_list (tasks Examples.expiring_manager)) 200
    Examples.expiring_manager "/a/7" "GET"
  = ((zeroTask, false), Examples.expiring_manager).
Proof. vm_compute. reflexivity. Qed.

(** A heap session stopped by the middleware alone: the capture is saved
    under the generated name. *)
Example heap_artifact_saved :
  Storage.files (storage (so_manager
     (StopProfiling Examples.frozen Examples.runtime0 Examples.clock0
        Examples.heap_started "/a/7" "GET" Examples.heap_job Examples.heap_session)))
  = {[ "heap/profile__a_7_GET_20250309_070059_22.pprof"%string :=
         {| Storage.data := [x02]; Storage.modTime := 23 |} ]}.
Proof. vm_compute. reflexivity. Qed.

(** The same session when its timer fired first: nothing is saved, and
    the result still reports success. *)
Example heap_artifact_lost_after_timer :
  Storage.files (storage (so_manager
     (StopProfiling Examples.frozen Examples.runtime0 Examples.clock0
        Examples.heap_started "/a/7" "GET" Examples.heap_job
        (stopped_session Examples.runtime0 Examples.heap_session))))
  = ∅
  /\ rSuccess (so_result
     (StopProfiling Examples.frozen Examples.runtime0 Examples.clock0
        Examples.heap_started "/a/7" "GET" Examples.heap_job
        (stopped_session Examples.runtime0 Examples.heap_session))) = true.
Proof. split; vm_compute; reflexivity. Qed.

(** * Further properties

    The functions around the ones above: the path matcher and its
    parameters, the effective methods, the order in which the task table
    is visited, the statistics, the failures of [StartProfiling] and
    [StopProfiling], the sweep of expired tasks, the handler of the
    middleware, the memory backend, the two sanitizers and the file
    provider. *)

(** ** The path matcher (gin.go) *)

Lemma TrimLeft_cons c s : Strings.TrimLeft (String c s) c = Strings.TrimLeft s c.
Proof. simpl. by rewrite Ascii.eqb_refl. Qed.

Lemma TrimRight_snoc s c :
  Strings.TrimRight (s +:+ String c EmptyString) c = Strings.TrimRight s c.
Proof.
  induction s as [|a s IH]; simpl.
  - by rewrite Ascii.eqb_refl.
  - change (String.app s (String c EmptyString)) with (s +:+ String c EmptyString).
    by rewrite IH.
Qed.

Lemma Trim_cons c s : Strings.Trim (String c s) c = Strings.Trim s c.
Proof. unfold Strings.Trim. by rewrite TrimLeft_cons. Qed.

Lemma Trim_snoc s c : Strings.Trim (s +:+ String c EmptyString) c = Strings.Trim s c.
Proof.
  unfold Strings.Trim. induction s as [|a s IH].
  - simpl. by rewrite Ascii.eqb_refl.
  - change ((String a s) +:+ String c EmptyString)
      with (String a (s +:+ String c EmptyString)).
    cbn [Strings.TrimLeft]. destruct (Ascii.eqb a c); [exact IH|].
    apply (TrimRight_snoc (String a s)).
Qed.

(** [Split] cuts at every separator: one segment more than separators. *)
Lemma Split_length s c : length (Strings.Split s c) = Datatypes.S (Strings.Count s c).
Proof.
  induction s as [|a s IH]; [done|]. cbn [Strings.Split Strings.Count].
  destruct (Ascii.eqb a c); cbn [length]; [by rewrite IH|].
  destruct (Strings.Split s c); [done|]. exact IH.
Qed.

(** Joining the segments gives the string back. *)
Lemma Split_Join s c : Strings.Join (Strings.Split s c) c = s.
Proof.
  induction s as [|a s IH]; [done|]. cbn [Strings.Split].
  pose proof (Split_length s c) as Hl.
  destruct (Ascii.eqb_spec a c) as [->|Hne];
    destruct (Strings.Split s c) as [|h t] eqn:E; try done.
  - cbn [Strings.Join] in *. by rewrite IH.
  - destruct t as [|h' t]; cbn [Strings.Join] in *; by rewrite <- IH.
Qed.

Lemma matchParts_refl l : Http.matchParts l l = true.
Proof.
  induction l as [|p l IH]; [done|]. cbn [Http.matchParts].
  destruct (_ || _); [done|]. by rewrite bool_decide_eq_true_2.
Qed.

Lemma matchParts_literal l l' :
  Forall (fun part => Strings.HasPrefix part ":" = false /\ part <> "*"%string) l ->
  length l = length l' ->
  Http.matchParts l l' = true -> l = l'.
Proof.
  intros Hl. revert l'.
  induction Hl as [|p l [Hp Hs] _ IH]; intros [|p' l'] Hlen; try done.
  cbn [Http.matchParts]. rewrite Hp, bool_decide_eq_false_2 by done. cbn [orb].
  case_bool_decide as Hpp; [|done]. cbn [negb]. intros Hm.
  f_equal; [done|]. apply IH; [|done]. by injection Hlen.
Qed.

Lemma matchParts_spec l l' :
  length l = length l' ->
  Http.matchParts l l' = true <->
  forall i tp ap, l !! i = Some tp -> l' !! i = Some ap ->
                  Strings.HasPrefix tp ":" = true \/ tp = "*"%string \/ tp = ap.
Proof.
  revert l'. induction l as [|p l IH]; intros [|p' l'] Hlen; try done.
  injection Hlen as Hlen. cbn [Http.matchParts]. split.
  - intros Hm [|i] tp ap; cbn.
    + intros [= <-] [= <-]. destruct (Strings.HasPrefix p ":"); [by left|].
      case_bool_decide; [by right; left|]. cbn in Hm.
      case_bool_decide; [by right; right|done].
    + apply IH; [done|]. destruct (_ || _); [done|].
      by destruct (negb _).
  - intros Hall. assert (Hrest : Http.matchParts l l' = true).
    { apply IH; [done|]. intros i. apply (Hall (Datatypes.S i)). }
    destruct (Hall 0%nat p p' eq_refl eq_refl) as [Hc|[Hc|Hc]]; [by rewrite Hc| |]; subst.
    + rewrite bool_decide_eq_true_2 by done. by rewrite orb_true_r.
    + destruct (_ || _); [done|]. by rewrite bool_decide_eq_true_2.
Qed.

(** X1.  Every route template matches itself; so a request Gin has routed
    (its [FullPath] is not empty) is matched, on its path, by the task
    declared with that route's template, whatever the URL was. *)
Theorem Match_reflexive :
  (forall template, Http.GinPathMatcher_Match template template = true)
  /\ (forall c, Http.FullPath c <> ""%string ->
                Http.GetPath c = Http.FullPath c
                /\ Http.GinPathMatcher_Match (Http.FullPath c) (Http.GetPath c) = true).
Proof.
  assert (Hrefl : forall template, Http.GinPathMatcher_Match template template = true).
  { intros template. unfold Http.GinPathMatcher_Match.
    rewrite Nat.eqb_refl. apply matchParts_refl. }
  split; [exact Hrefl|]. intros c Hc. unfold Http.GetPath.
  rewrite bool_decide_eq_false_2 by done. split; [done|apply Hrefl].
Qed.

(** X2.  Matching ignores a slash added at either end of the template or
    of the path. *)
Theorem Match_ignores_outer_slashes template actual :
  Http.GinPathMatcher_Match template ("/" +:+ actual)
  = Http.GinPathMatcher_Match template actual
  /\ Http.GinPathMatcher_Match template (actual +:+ "/")
     = Http.GinPathMatcher_Match template actual
  /\ Http.GinPathMatcher_Match ("/" +:+ template) actual
     = Http.GinPathMatcher_Match template actual
  /\ Http.GinPathMatcher_Match (template +:+ "/") actual
     = Http.GinPathMatcher_Match template actual.
Proof.
  unfold Http.GinPathMatcher_Match.
  change ("/" +:+ actual) with (String "/" actual).
  change ("/" +:+ template) with (String "/" template).
  by rewrite !Trim_cons, !Trim_snoc.
Qed.

(** X3.  A template without parameter and wildcard segments matches
    exactly the paths equal to it once the slashes at both ends are
    trimmed. *)
Theorem Match_literal template actual :
  Http.literal template ->
  Http.GinPathMatcher_Match template actual = true
  <-> Strings.Trim template "/" = Strings.Trim actual "/".
Proof.
  intros Hlit. unfold Http.GinPathMatcher_Match. split.
  - destruct (_ =? _)%nat eqn:Hlen; [|done]. cbn [negb].
    apply Nat.eqb_eq in Hlen. intros Hm.
    apply (matchParts_literal _ _ Hlit Hlen) in Hm.
    rewrite <- (Split_Join (Strings.Trim template "/") "/"), Hm. apply Split_Join.
  - intros ->. rewrite Nat.eqb_refl. apply matchParts_refl.
Qed.

Lemma Match_literal_witness :
  Http.GinPathMatcher_Match "/api/users" "api/users/" = true
  <-> Strings.Trim "/api/users" "/" = Strings.Trim "api/users/" "/".
Proof.
  apply (Match_literal "/api/users" "api/users/").
  unfold Http.literal. vm_compute. repeat constructor; discriminate.
Defined.

(** X4.  A path matches a template exactly when the two, trimmed, have
    the same number of slashes and each segment of the template is a
    parameter, the star, or equal to the segment of the path at the same
    place: a parameter or a star stands for one segment, never for
    several. *)
Theorem Match_segments template actual :
  let templateParts := Strings.Split (Strings.Trim template "/") "/" in
  let actualParts := Strings.Split (Strings.Trim actual "/") "/" in
  Http.GinPathMatcher_Match template actual = true <->
  Strings.Count (Strings.Trim template "/") "/" = Strings.Count (Strings.Trim actual "/") "/"
  /\ forall i tp ap, templateParts !! i = Some tp -> actualParts !! i = Some ap ->
       Strings.HasPrefix tp ":" = true \/ tp = "*"%string \/ tp = ap.
Proof.
  intros templateParts actualParts. unfold Http.GinPathMatcher_Match.
  fold templateParts actualParts.
  assert (Hlen : length templateParts = length actualParts <->
                 Strings.Count (Strings.Trim template "/") "/"
                 = Strings.Count (Strings.Trim actual "/") "/").
  { unfold templateParts, actualParts. rewrite !Split_length. lia. }
  destruct (_ =? _)%nat eqn:E; cbn [negb].
  - apply Nat.eqb_eq in E. rewrite (matchParts_spec _ _ E). tauto.
  - apply Nat.eqb_neq in E. split; [done|]. tauto.
Qed.

(** A star at the end of a template does not take the rest of a path; a
    parameter matches an empty segment. *)
Example Match_star_is_one_segment :
  Http.GinPathMatcher_Match "/static/*" "/static/css" = true
  /\ Http.GinPathMatcher_Match "/static/*" "/static/css/site.css" = false
  /\ Http.GinPathMatcher_Match "/users/:id/posts" "/users//posts" = true.
Proof. repeat split; reflexivity. Qed.

Lemma HasPrefix_from1 tp name :
  Strings.HasPrefix tp ":" = true /\ Http.from1 tp = name <-> tp = String ":" name.
Proof.
  destruct tp as [|a tp]; cbn; [split; [by intros [? _]|done]|].
  destruct (Ascii.eqb_spec a ":") as [->|Hne]; split.
  - by intros [_ ->].
  - by intros [= ->].
  - by intros [? _].
  - intros [= -> ->]. done.
Qed.

(** The loop of [ExtractParams]: the value of a name is the segment at the
    last place where the template has the parameter of that name. *)
Lemma extractParts_lookup name v : forall ts acts params,
  length ts = length acts ->
  Http.extractParts ts acts params !! name = Some v <->
  (exists i, ts !! i = Some (String ":" name) /\ acts !! i = Some v
             /\ forall j, (i < j)%nat -> ts !! j <> Some (String ":" name))
  \/ ((forall j, ts !! j <> Some (String ":" name)) /\ params !! name = Some v).
Proof.
  induction ts as [|tp ts IH]; intros [|ap acts] params Hlen; try done.
  { cbn. split; [by right|]. by intros [(i & ? & _)|[_ ?]]. }
  injection Hlen as Hlen. cbn [Http.extractParts].
  destruct (Strings.HasPrefix tp ":") eqn:Hp.
  - rewrite (IH acts _ Hlen). split.
    + intros [(i & Hi & Ha & Hlast)|[Hnone Hins]].
      * left. exists (Datatypes.S i). repeat split; [done..|].
        intros [|j] Hj; [lia|]. apply Hlast. lia.
      * destruct (decide (Http.from1 tp = name)) as [Heq|Hne].
        -- rewrite Heq, lookup_insert_eq in Hins. injection Hins as ->.
           left. exists 0%nat. cbn. repeat split.
           ++ f_equal. by apply HasPrefix_from1.
           ++ intros [|j] Hj; [lia|]. apply Hnone.
        -- rewrite lookup_insert_ne in Hins by done. right. split; [|done].
           intros [|j]; cbn; [|apply Hnone].
           intros [= Htp]. apply Hne. by apply HasPrefix_from1.
    + intros [(i & Hi & Ha & Hlast)|[Hnone Hpar]].
      * destruct i as [|i]; cbn in Hi, Ha.
        -- injection Hi as ->. injection Ha as ->. right. split.
           ++ intros j. apply (Hlast (Datatypes.S j)). lia.
           ++ cbn. apply lookup_insert_eq.
        -- left. exists i. repeat split; [done..|].
           intros j Hj. apply (Hlast (Datatypes.S j)). lia.
      * right. split; [intros j; apply (Hnone (Datatypes.S j))|].
        rewrite lookup_insert_ne; [done|].
        intros Heq. apply (Hnone 0%nat). cbn. f_equal. by apply HasPrefix_from1.
  - rewrite (IH acts _ Hlen). split.
    + intros [(i & Hi & Ha & Hlast)|[Hnone Hpar]].
      * left. exists (Datatypes.S i). repeat split; [done..|].
        intros [|j] Hj; [lia|]. apply Hlast. lia.
      * right. split; [|done]. intros [|j]; cbn; [|apply Hnone].
        intros [= ->]. cbn in Hp. done.
    + intros [(i & Hi & Ha & Hlast)|[Hnone Hpar]].
      * destruct i as [|i]; cbn in Hi, Ha.
        -- injection Hi as ->. done.
        -- left. exists i. repeat split; [done..|].
           intros j Hj. apply (Hlast (Datatypes.S j)). lia.
      * right. split; [|done]. intros j. apply (Hnone (Datatypes.S j)).
Qed.

(** X5.  [ExtractParams] returns the empty map when template and path
    differ in their number of segments; otherwise a name has the value [v]
    exactly when [v] is the segment of the path at the last place where
    the template has the parameter of that name.  The literal segments are
    not compared. *)
Theorem ExtractParams_lookup template actual :
  let templateParts := Strings.Split (Strings.Trim template "/") "/" in
  let actualParts := Strings.Split (Strings.Trim actual "/") "/" in
  (Strings.Count (Strings.Trim template "/") "/"
   <> Strings.Count (Strings.Trim actual "/") "/" ->
   Http.GinPathMatcher_ExtractParams template actual = ∅)
  /\ (Strings.Count (Strings.Trim template "/") "/"
      = Strings.Count (Strings.Trim actual "/") "/" ->
      forall name v,
        Http.GinPathMatcher_ExtractParams template actual !! name = Some v <->
        exists i, templateParts !! i = Some (String ":" name) /\ actualParts !! i = Some v
                  /\ forall j, (i < j)%nat -> templateParts !! j <> Some (String ":" name)).
Proof.
  intros templateParts actualParts. unfold Http.GinPathMatcher_ExtractParams.
  fold templateParts actualParts.
  assert (Hlen : length templateParts = length actualParts <->
                 Strings.Count (Strings.Trim template "/") "/"
                 = Strings.Count (Strings.Trim actual "/") "/").
  { unfold templateParts, actualParts. rewrite !Split_length. lia. }
  split.
  - intros Hne. rewrite <- Hlen in Hne. apply Nat.eqb_neq in Hne. by rewrite Hne.
  - intros Heq name v. apply Hlen in Heq. rewrite (proj2 (Nat.eqb_eq _ _) Heq). cbn [negb].
    rewrite (extractParts_lookup name v _ _ _ Heq). split.
    + intros [?|[_ Hemp]]; [done|]. by rewrite lookup_empty in Hemp.
    + by left.
Qed.

(** Two parameters; a path the template does not match; a name used
    twice; a path one segment longer. *)
Example ExtractParams_example :
  Http.GinPathMatcher_ExtractParams "/users/:id/posts/:post" "/users/7/posts/42"
  = {[ "id"%string := "7"%string; "post"%string := "42"%string ]}
  /\ Http.GinPathMatcher_ExtractParams "/users/:id" "/orders/7" = {[ "id"%string := "7"%string ]}
  /\ Http.GinPathMatcher_Match "/users/:id" "/orders/7" = false
  /\ Http.GinPathMatcher_ExtractParams "/a/:x/:x" "/a/1/2" = {[ "x"%string := "2"%string ]}
  /\ Http.GinPathMatcher_ExtractParams "/users/:id" "/users/7/posts" = ∅.
Proof. repeat split; vm_compute; reflexivity. Qed.

(** ** The effective methods of a task *)

Section EffectiveMethods.

Variable hasUnicode : string -> string -> bool.

Lemma contains_app l1 l2 m :
  contains hasUnicode (l1 ++ l2) m = contains hasUnicode l1 m || contains hasUnicode l2 m.
Proof.
  induction l1 as [|s l1 IH]; [done|]. cbn [app contains].
  by destruct (Strings.EqualFold hasUnicode s m).
Qed.

Lemma GetEffectiveMethods_loop_app methods result :
  GetEffectiveMethods_loop methods result
  = result ++ GetEffectiveMethods_loop methods [].
Proof.
  revert result. induction methods as [|method rest IH]; intros result;
    cbn [GetEffectiveMethods_loop].
  - by rewrite app_nil_r.
  - rewrite !app_nil_l. case_bool_decide.
    + by rewrite IH, (IH CommonMethods), <- app_assoc.
    + by rewrite IH, (IH [method]), <- app_assoc.
Qed.

(** Under [EqualFold], only the star equals the star, when the Unicode
    tables fold nothing to it. *)
Lemma EqualFold_star s :
  (forall s, hasUnicode s "*" = false) ->
  Strings.EqualFold hasUnicode s "*" = true -> s = "*"%string.
Proof.
  intros Hu. destruct s as [|a s]; [done|]. cbn [Strings.EqualFold].
  destruct (128 <=? _); [by rewrite Hu|].
  destruct (Z.eqb_spec (byte_of "*") (byte_of a)) as [Heq|Hne].
  - destruct s; [|done]. intros _. f_equal.
    unfold byte_of in Heq. apply N2Z.inj in Heq.
    rewrite <- (ascii_N_embedding a), <- Heq. done.
  - change (byte_of "*") with 42 in *.
    destruct (_ && _) eqn:E; [|done].
    apply andb_true_iff in E as [E _]. apply andb_true_iff in E as [E1 E2].
    apply Z.leb_le in E1, E2. lia.
Qed.

Lemma contains_star_elem methods :
  (forall s, hasUnicode s "*" = false) ->
  contains hasUnicode methods "*" = bool_decide ("*"%string ∈ methods).
Proof.
  intros Hu. induction methods as [|s rest IH]; [done|]. cbn [contains].
  destruct (Strings.EqualFold hasUnicode s "*") eqn:E.
  - apply (EqualFold_star _ Hu) in E as ->. symmetry. apply bool_decide_eq_true_2. left.
  - rewrite IH. apply bool_decide_ext. rewrite elem_of_cons.
    split; [by right|]. intros [<-|?]; [|done]. by vm_compute in E.
Qed.

Lemma GetEffectiveMethods_loop_no_star methods :
  "*"%string ∉ methods -> GetEffectiveMethods_loop methods [] = methods.
Proof.
  induction methods as [|s rest IH]; [done|]. intros Hn.
  apply not_elem_of_cons in Hn as [Hs Hn]. cbn [GetEffectiveMethods_loop].
  rewrite app_nil_l, bool_decide_eq_false_2 by done.
  by rewrite GetEffectiveMethods_loop_app, IH.
Qed.

Lemma GetEffectiveMethods_loop_star methods m :
  "*"%string ∈ methods ->
  contains hasUnicode CommonMethods m = true ->
  contains hasUnicode (GetEffectiveMethods_loop methods []) m = true.
Proof.
  induction methods as [|s rest IH]; [by intros ?%elem_of_nil|].
  intros Hin Hm. cbn [GetEffectiveMethods_loop]. rewrite app_nil_l.
  case_bool_decide as Hs.
  - by rewrite GetEffectiveMethods_loop_app, contains_app, Hm.
  - rewrite GetEffectiveMethods_loop_app, contains_app.
    apply elem_of_cons in Hin as [Hin|Hin]; [done|].
    rewrite (IH Hin Hm). apply orb_true_r.
Qed.

(** X6.  Every method [ShouldMatchMethod] accepts for a task is, up to
    letter case, one of the task's [GetEffectiveMethods].  (The Unicode
    tables are assumed to fold no string to the star.) *)
Theorem ShouldMatchMethod_effective task m :
  (forall s, hasUnicode s "*" = false) ->
  ShouldMatchMethod hasUnicode task m = true ->
  contains hasUnicode (GetEffectiveMethods task) m = true.
Proof.
  intros Hu. unfold ShouldMatchMethod, GetEffectiveMethods.
  destruct (Z.of_nat (length (Methods task)) =? 0).
  - intros ->%bool_decide_eq_true. reflexivity.
  - rewrite (contains_star_elem _ Hu). case_bool_decide as Hstar.
    + by apply GetEffectiveMethods_loop_star.
    + by rewrite GetEffectiveMethods_loop_no_star.
Qed.

End EffectiveMethods.

Lemma ShouldMatchMethod_effective_witness :
  contains Examples.noUnicode
    (GetEffectiveMethods (Examples.task_a ["*"%string] 100 1 "cpu")) "get"
  = true.
Proof.
  apply (ShouldMatchMethod_effective Examples.noUnicode); reflexivity.
Defined.

(** The converse fails: beside a star, a listed method is effective and
    is not matched. *)
Example GetEffectiveMethods_not_matched :
  GetEffectiveMethods (Examples.task_a ["*"; "PATCH"]%string 100 1 "cpu")
  = ["GET"; "POST"; "PUT"; "DELETE"; "PATCH"]%string
  /\ ShouldMatchMethod Examples.noUnicode
       (Examples.task_a ["*"; "PATCH"]%string 100 1 "cpu") "PATCH"
     = false.
Proof. split; reflexivity. Qed.

(** ** The order of the task table, and the statistics *)

Section TableFacts.

Context {S : Type}.

Variable hasUnicode : string -> string -> bool.

Implicit Types m : Manager (S := S).

Lemma findTask_None m visit path method :
  findTask hasUnicode m visit path method = None <->
  forall k t, (k, t) ∈ visit ->
    pathMatcher m (Path t) path && ShouldMatchMethod hasUnicode t method = false.
Proof.
  induction visit as [|[k0 t0] visit IH]; cbn [findTask].
  - split; [|done]. intros _ k t Hin. by apply elem_of_nil in Hin.
  - destruct (_ && _) eqn:E.
    + split; [done|]. intros Hall.
      specialize (Hall k0 t0 (list_elem_of_here _ _)). congruence.
    + rewrite IH. split.
      * intros Hall k t Hin. apply elem_of_cons in Hin as [[= -> ->]|Hin]; [done|eauto].
      * intros Hall k t Hin. apply (Hall k). by right.
Qed.

Lemma findTask_unique m visit1 visit2 path method :
  visit1 ≡ₚ visit2 ->
  (forall k1 t1 k2 t2, (k1, t1) ∈ visit1 -> (k2, t2) ∈ visit1 ->
     pathMatcher m (Path t1) path && ShouldMatchMethod hasUnicode t1 method = true ->
     pathMatcher m (Path t2) path && ShouldMatchMethod hasUnicode t2 method = true ->
     t1 = t2) ->
  findTask hasUnicode m visit1 path method = findTask hasUnicode m visit2 path method.
Proof.
  intros Hperm Huniq.
  destruct (findTask hasUnicode m visit1 path method) as [t1|] eqn:H1;
    destruct (findTask hasUnicode m visit2 path method) as [t2|] eqn:H2; try done.
  - f_equal.
    pose proof (findTask_matches hasUnicode _ _ _ _ _ H1) as Hm1.
    pose proof (findTask_matches hasUnicode _ _ _ _ _ H2) as Hm2.
    apply findTask_elem in H1 as [k1 Hk1]. apply findTask_elem in H2 as [k2 Hk2].
    rewrite <- Hperm in Hk2. by apply (Huniq k1 t1 k2 t2).
  - pose proof (findTask_matches hasUnicode _ _ _ _ _ H1) as Hm1.
    apply findTask_elem in H1 as [k1 Hk1]. rewrite Hperm in Hk1.
    rewrite findTask_None in H2. specialize (H2 k1 t1 Hk1). congruence.
  - pose proof (findTask_matches hasUnicode _ _ _ _ _ H2) as Hm2.
    apply findTask_elem in H2 as [k2 Hk2]. rewrite <- Hperm in Hk2.
    rewrite findTask_None in H1. specialize (H1 k2 t2 Hk2). congruence.
Qed.

(** X7.  When at most one task of the table matches the request's path and
    method, [ShouldProfile] returns the same result and leaves the same
    manager in whatever order the loop visits the table. *)
Theorem ShouldProfile_order_independent m visit1 visit2 now path method :
  visit1 ≡ₚ map_to_list (tasks m) ->
  visit2 ≡ₚ map_to_list (tasks m) ->
  (forall k1 t1 k2 t2, tasks m !! k1 = Some t1 -> tasks m !! k2 = Some t2 ->
     pathMatcher m (Path t1) path && ShouldMatchMethod hasUnicode t1 method = true ->
     pathMatcher m (Path t2) path && ShouldMatchMethod hasUnicode t2 method = true ->
     t1 = t2) ->
  ShouldProfile hasUnicode visit1 now m path method
  = ShouldProfile hasUnicode visit2 now m path method.
Proof.
  intros Hp1 Hp2 Huniq. unfold ShouldProfile.
  rewrite (findTask_unique m visit1 visit2 path method); [done|by rewrite Hp1|].
  intros k1 t1 k2 t2 Hk1 Hk2. rewrite Hp1 in Hk1, Hk2.
  apply elem_of_map_to_list in Hk1, Hk2. by apply (Huniq k1 t1 k2 t2).
Qed.

Lemma ShouldProfile_unsampled visit now m path method :
  (forall k t, (k, t) ∈ visit -> SampleRate t <= 1) ->
  requestCount (snd (ShouldProfile hasUnicode visit now m path method)) = requestCount m.
Proof.
  intros Hrate. unfold ShouldProfile.
  destruct (negb _); [done|].
  destruct (findTask _ _ _ _ _) as [task|] eqn:Hf; [|done].
  destruct (After _ _); [done|].
  apply findTask_elem in Hf as [k Hk]. apply Hrate in Hk.
  destruct (Z.ltb_spec 1 (SampleRate task)); [lia|].
  apply tryAcquire_requestCount.
Qed.

Lemma serve_unsampled reqs : forall m,
  (forall k t, tasks m !! k = Some t -> SampleRate t <= 1) ->
  (forall r, r ∈ reqs -> req_visit r ≡ₚ map_to_list (tasks m)) ->
  requestCount (snd (serve hasUnicode m reqs)) = requestCount m.
Proof.
  induction reqs as [|r reqs IH]; intros m Hrate Hvisit; [done|].
  cbn [serve].
  pose proof (ShouldProfile_setup hasUnicode (req_visit r) (req_now r) m
                (req_path r) (req_method r)) as (Ht & _).
  pose proof (ShouldProfile_unsampled (req_visit r) (req_now r) m
                (req_path r) (req_method r)) as Hc.
  destruct (ShouldProfile _ _ _ _ _ _) as [out m1]. cbn [snd] in *.
  specialize (IH m1). destruct (serve hasUnicode m1 reqs) as [[a e] m2]. cbn [snd] in *.
  rewrite IH, Hc; [done| | |].
  - intros k t Hk. apply (Hrate k). apply elem_of_map_to_list.
    rewrite <- (Hvisit r); [done|left].
  - rewrite Ht. exact Hrate.
  - rewrite Ht. intros r' Hr'. apply Hvisit. by right.
Qed.

(** X8.  [TotalRequests] counts the requests of sampled tasks only: while
    every task of the table has a sample rate of at most 1, no sequence
    of requests moves the request counters, nor the total [GetStats]
    reports. *)
Theorem TotalRequests_counts_sampled_tasks_only m reqs :
  (forall k t, tasks m !! k = Some t -> SampleRate t <= 1) ->
  (forall r, r ∈ reqs -> req_visit r ≡ₚ map_to_list (tasks m)) ->
  requestCount (snd (serve hasUnicode m reqs)) = requestCount m
  /\ TotalRequests (GetStats (snd (serve hasUnicode m reqs))) = TotalRequests (GetStats m).
Proof.
  intros Hrate Hvisit. unfold GetStats. by rewrite serve_unsampled.
Qed.

End TableFacts.

Lemma ShouldProfile_order_independent_witness :
  ShouldProfile Examples.noUnicode Examples.visit_ab 10 Examples.two_manager "/a/7" "GET"
  = ShouldProfile Examples.noUnicode Examples.visit_ba 10 Examples.two_manager "/a/7" "GET".
Proof.
  apply (ShouldProfile_order_independent Examples.noUnicode Examples.two_manager
           Examples.visit_ab Examples.visit_ba 10 "/a/7" "GET").
  - vm_compute. apply perm_swap || reflexivity.
  - vm_compute. apply perm_swap || reflexivity.
  - intros k1 t1 k2 t2 Hk1 Hk2.
    change (tasks Examples.two_manager)
      with (<["/b/:id"%string := Examples.task_b]>
              ({[ "/a/:id"%string := Examples.task_a ["GET"%string] 1000 1 "cpu" ]})
            : gmap string ProfilingTask) in Hk1, Hk2.
    apply lookup_insert_Some in Hk1 as [[_ <-]|[_ [_ <-]%lookup_singleton_Some]];
      apply lookup_insert_Some in Hk2 as [[_ <-]|[_ [_ <-]%lookup_singleton_Some]];
      try done; vm_compute; discriminate.
Defined.

Lemma TotalRequests_counts_sampled_tasks_only_witness :
  requestCount (snd (serve Examples.noUnicode Examples.star_manager
                       [Examples.request Examples.star_manager 10 "/a/7" "GET";
                        Examples.request Examples.star_manager 11 "/a/8" "POST"]))
  = requestCount Examples.star_manager
  /\ TotalRequests
       (GetStats (snd (serve Examples.noUnicode Examples.star_manager
                         [Examples.request Examples.star_manager 10 "/a/7" "GET";
                          Examples.request Examples.star_manager 11 "/a/8" "POST"])))
     = TotalRequests (GetStats Examples.star_manager).
Proof.
  apply (TotalRequests_counts_sampled_tasks_only Examples.noUnicode Examples.star_manager).
  - intros k t Hk.
    change (tasks Examples.star_manager)
      with ({[ "/a/:id"%string := Examples.task_a ["*"%string] 1000 1 "cpu" ]}
            : gmap string ProfilingTask) in Hk.
    apply lookup_singleton_Some in Hk as [_ <-]. cbn. lia.
  - intros r Hr. repeat (apply elem_of_cons in Hr as [->|Hr]; [reflexivity|]).
    by apply elem_of_nil in Hr.
Defined.

(** Two admitted requests, and a total that stays at 0. *)
Example TotalRequests_example :
  fst (serve Examples.noUnicode Examples.star_manager
         [Examples.request Examples.star_manager 10 "/a/7" "GET";
          Examples.request Examples.star_manager 11 "/a/8" "POST"]) = (2%nat, 0%nat)
  /\ TotalRequests
       (GetStats (snd (serve Examples.noUnicode Examples.star_manager
                         [Examples.request Examples.star_manager 10 "/a/7" "GET";
                          Examples.request Examples.star_manager 11 "/a/8" "POST"]))) = 0.
Proof. split; vm_compute; reflexivity. Qed.

(** ** The failures of [StartProfiling] and [StopProfiling] *)

Section SessionFacts.

Context {S : Type} `{Storage S}.

Variable hasUnicode : string -> string -> bool.

Variable localTime : Time -> Civil.

Implicit Types m : Manager (S := S).

(** The three profilers [NewManager] registers. *)
Lemma initManager_profilers opts (st : S) matcher now type :
  profilers (initManager opts st matcher now) !! type
  = if bool_decide (type = "cpu"%string) then Some CPUProfiler
    else if bool_decide (type = "heap"%string) then Some HeapProfiler
    else if bool_decide (type = "goroutine"%string) then Some GoroutineProfiler
    else None.
Proof.
  unfold initManager, RegisterProfiler. cbn.
  repeat case_bool_decide; subst;
    rewrite ?lookup_insert_eq, ?lookup_insert_ne by done; try done.
Qed.

Lemma StartProfiling_profilers rt now m path task :
  profilers (snd (fst (StartProfiling rt now m path task))) = profilers m.
Proof.
  unfold StartProfiling. destruct (profilers m !! _) as [p|]; [|done].
  by destruct (Profiler_StartProfiling rt now p task) as [[s [e|]] rt'].
Qed.

Lemma StopProfiling_body_profilers rt clk m path method task session :
  profilers (so_manager (StopProfiling_body localTime rt clk m path method task session))
  = profilers m.
Proof.
  unfold StopProfiling_body.
  destruct (Stop rt session) as [[[data [e|]] s'] rt']; [done|].
  destruct (len data =? 0); [done|].
  destruct (Save _ _ _ _) as [st [e|]]; done.
Qed.

Lemma cleanExpiredTasks_profilers now m : profilers (cleanExpiredTasks now m) = profilers m.
Proof.
  unfold cleanExpiredTasks.
  generalize (map_to_list (tasks m)). intros l. revert m.
  induction l as [|[path task] l IH]; intros m; simpl; [done|].
  rewrite IH. by destruct (After _ _).
Qed.

(** No step of the protocol registers or removes a profiler. *)
Lemma step_profilers w w' :
  Middleware.step hasUnicode localTime w w' ->
  profilers (Middleware.mgr w') = profilers (Middleware.mgr w).
Proof.
  intros Hstep. destruct Hstep; cbn [Middleware.mgr].
  - pose proof (ShouldProfile_setup hasUnicode visit now m path method) as Hs.
    rewrite H1 in Hs. by destruct Hs as (?&?&?&?&?).
  - pose proof (ShouldProfile_setup hasUnicode visit now m path method) as Hs.
    rewrite H1 in Hs. by destruct Hs as (?&?&?&?&?).
  - pose proof (StartProfiling_profilers rt now m path task) as Hs. by rewrite H0 in Hs.
  - pose proof (StartProfiling_profilers rt now m path task) as Hs. by rewrite H0 in Hs.
  - done.
  - apply StopProfiling_body_profilers.
  - done.
  - done.
  - apply cleanExpiredTasks_profilers.
Qed.

Lemma reachable_profilers opts w type :
  Middleware.reachable hasUnicode localTime opts w ->
  profilers (Middleware.mgr w) !! type
  = if bool_decide (type = "cpu"%string) then Some CPUProfiler
    else if bool_decide (type = "heap"%string) then Some HeapProfiler
    else if bool_decide (type = "goroutine"%string) then Some GoroutineProfiler
    else None.
Proof.
  induction 1 as [st matcher now m Hnew|w w' _ IH Hstep].
  - unfold NewManager in Hnew. destruct (_ <? _); [done|]. injection Hnew as <-.
    apply initManager_profilers.
  - by rewrite (step_profilers _ _ Hstep).
Qed.

(** X9.  In every world reachable from [NewManager], a task whose profile
    type is none of [cpu], [heap], [goroutine] (spelled so) makes
    [StartProfiling] return no session and the error
    [profiler type <type> not found]; the permit is given back, the
    runtime is not touched, and the statistics are left as they were:
    this failure is not counted in [FailedCount]. *)
Theorem StartProfiling_unknown_type opts w rt now path task :
  Middleware.reachable hasUnicode localTime opts w ->
  ProfileType task ∉ ["cpu"; "heap"; "goroutine"]%string ->
  let out := StartProfiling rt now (Middleware.mgr w) path task in
  fst (fst out) = (None, Some ("profiler type " +:+ ProfileType task +:+ " not found"))
  /\ snd out = rt
  /\ limiter (snd (fst out)) = Nat.pred (limiter (Middleware.mgr w))
  /\ stats (snd (fst out)) = stats (Middleware.mgr w).
Proof.
  intros Hreach Hty. cbn zeta. unfold StartProfiling.
  rewrite (reachable_profilers opts w _ Hreach).
  repeat (apply not_elem_of_cons in Hty as [? Hty]).
  by rewrite !bool_decide_eq_false_2 by done.
Qed.

(** X10.  CPU sessions exclude one another: from the start of a CPU
    session until its [Stop], every [StartProfiling] of a CPU task, on any
    manager, returns the error of [pprof.StartCPUProfile], gives the permit
    back and counts one failure; after the [Stop] a CPU session starts
    again. *)
Theorem cpu_sessions_exclusive rt now m path task s m1 rt1 :
  StartProfiling rt now m path task = ((Some (CPUSession s), None), m1, rt1) ->
  (forall now' m' path' task',
     profilers m' !! ProfileType task' = Some CPUProfiler ->
     let out := StartProfiling rt1 now' m' path' task' in
     fst (fst out)
     = (None, Some "failed to start CPU profiling: cpu profiling already in use"%string)
     /\ snd out = rt1
     /\ limiter (snd (fst out)) = Nat.pred (limiter m')
     /\ FailedCount (stats (snd (fst out))) = wrap64 (FailedCount (stats m') + 1)
     /\ ActiveProfiles (stats (snd (fst out))) = ActiveProfiles (stats m'))
  /\ (forall now' m' path' task',
        profilers m' !! ProfileType task' = Some CPUProfiler ->
        exists s' m2 rt2,
          StartProfiling (snd (Stop rt1 (CPUSession s))) now' m' path' task'
          = ((Some (CPUSession s'), None), m2, rt2)).
Proof.
  unfold StartProfiling at 1. destruct (profilers m !! _) as [p|]; [|done].
  destruct p; cbn [Profiler_StartProfiling].
  - unfold NewCPUProfileSession. destruct (cpuProfiling rt) eqn:Hrt; [done|].
    cbn. intros [= <- <- <-]. split.
    + intros now' m' path' task' Hp. cbn zeta. unfold StartProfiling. rewrite Hp. done.
    + intros now' m' path' task' Hp. unfold StartProfiling. rewrite Hp. cbn. eauto.
  - cbn. discriminate.
  - cbn. discriminate.
Qed.

(** X11.  [StopProfiling] returns an error exactly when the result it
    returns has [Success = false]; [Error] is that error's message;
    [FailedCount] grows by one exactly then; [ProfiledCount] is not
    touched; and on every exit [ActiveProfiles] has been decremented and
    one permit given back. *)
Theorem StopProfiling_reports_failure rt clk m path method task session :
  let o := StopProfiling localTime rt clk m path method task session in
  rSuccess (so_result o) = bool_decide (so_err o = None)
  /\ rError (so_result o) = default ""%string (so_err o)
  /\ FailedCount (stats (so_manager o))
     = match so_err o with
       | Some _ => wrap64 (FailedCount (stats m) + 1)
       | None => FailedCount (stats m)
       end
  /\ ProfiledCount (stats (so_manager o)) = ProfiledCount (stats m)
  /\ ActiveProfiles (stats (so_manager o)) = wrap64 (ActiveProfiles (stats m) - 1)
  /\ limiter (so_manager o) = Nat.pred (limiter m).
Proof.
  cbn zeta. unfold StopProfiling, StopProfiling_body.
  destruct (Stop rt session) as [[[data [e|]] s'] rt']; [done|].
  destruct (len data =? 0); [done|].
  destruct (Save _ _ _ _) as [st [e|]]; done.
Qed.

(** A capture that is not empty is handed to the storage under the
    generated name, whatever the storage answers. *)
Lemma StopProfiling_with_data rt clk m path method task session d :
  stop_result rt session = (Some d, None) ->
  d <> [] ->
  let o := StopProfiling localTime rt clk m path method task session in
  let filename :=
    generateFilename localTime (at_format clk) (at_nanos clk) path method (ProfileType task) in
  let saved := Save (at_save clk) (storage m) filename (Some d) in
  so_err o = snd saved
  /\ rSuccess (so_result o) = bool_decide (snd saved = None)
  /\ rFilename (so_result o) = filename
  /\ rFileSize (so_result o) = wrap64 (Z.of_nat (length d))
  /\ storage (so_manager o) = fst saved
  /\ trace (so_manager o)
     = trace m ++ [SaveCalled filename (Some d);
                   match snd saved with
                   | Some _ => Logged LError "Failed to save profile"
                   | None => Logged LInfo "Profiling completed"
                   end].
Proof.
  unfold stop_result. intros Hstop Hd. cbn zeta.
  unfold StopProfiling, StopProfiling_body.
  destruct (Stop rt session) as [[[data e] s'] rt']. cbn in Hstop.
  injection Hstop as -> ->.
  assert (Hlen : (len (Some d) =? 0) = false).
  { apply Z.eqb_neq. destruct d; [done|]. cbn. lia. }
  rewrite Hlen. destruct (Save _ _ _ _) as [st [err|]]; cbn; by rewrite <- app_assoc.
Qed.

(** X12.  A CPU capture survives the session's timer: when the goroutine
    of a CPU session has called [Stop] first, the [Stop] of
    [StopProfiling] still returns the bytes the profiler wrote, and
    [StopProfiling] hands them to the storage under the generated name. *)
Theorem cpu_capture_survives_timer rt0 now task s rt rt2 clk m path method :
  NewCPUProfileSession rt0 now task = ((Some s, None), rt) ->
  cpuProfile rt <> [] ->
  let fired := stopped_session rt (CPUSession s) in
  let o := StopProfiling localTime rt2 clk m path method task fired in
  let filename :=
    generateFilename localTime (at_format clk) (at_nanos clk) path method (ProfileType task) in
  stop_result rt2 fired = (Some (cpuProfile rt), None)
  /\ rFilename (so_result o) = filename
  /\ rFileSize (so_result o) = wrap64 (Z.of_nat (length (cpuProfile rt)))
  /\ SaveCalled filename (Some (cpuProfile rt)) ∈ trace (so_manager o).
Proof.
  unfold NewCPUProfileSession. destruct (cpuProfiling rt0); [done|].
  intros [= <- <-] Hd. cbn zeta.
  assert (Hstop : stop_result rt2 (stopped_session (with_cpuProfiling rt0 true)
                    (CPUSession {| cpu_task := task; cpu_buffer := None;
                                   cpu_startTime := now; cpu_running := true |}))
                  = (Some (cpuProfile (with_cpuProfiling rt0 true)), None)).
  { cbn in *. by destruct (cpuProfile rt0). }
  split; [exact Hstop|].
  destruct (StopProfiling_with_data rt2 clk m path method task _ _ Hstop Hd)
    as (_ & _ & Hf & Hs & _ & Ht).
  split; [exact Hf|]. split; [exact Hs|].
  rewrite Ht. apply elem_of_app. right. left.
Qed.

End SessionFacts.

Section MemoryCapture.

Variable localTime : Time -> Civil.

Implicit Types m : Manager (S := Storage.MemoryStorage).

(** X13.  With the memory backend, a capture that is not empty can be read
    back: [StopProfiling] succeeds, names the file in its result with the
    size of the capture, and the store then holds exactly the captured
    bytes under that name, dated at the instant of the save. *)
Theorem StopProfiling_saves_capture rt clk m path method task session d :
  stop_result rt session = (Some d, None) ->
  d <> [] ->
  let o := StopProfiling localTime rt clk m path method task session in
  let filename :=
    generateFilename localTime (at_format clk) (at_nanos clk) path method (ProfileType task) in
  so_err o = None
  /\ rSuccess (so_result o) = true
  /\ rFilename (so_result o) = filename
  /\ rFileSize (so_result o) = wrap64 (Z.of_nat (length d))
  /\ Storage.files (storage (so_manager o))
     = <[filename := {| Storage.data := d; Storage.modTime := at_save clk |}]>
         (Storage.files (storage m))
  /\ trace (so_manager o)
     = trace m ++ [SaveCalled filename (Some d); Logged LInfo "Profiling completed"].
Proof.
  intros Hstop Hd.
  destruct (StopProfiling_with_data localTime rt clk m path method task session d Hstop Hd)
    as (He & Hs & Hf & Hz & Hst & Ht).
  cbn zeta. rewrite He, Hs, Hf, Hz, Hst, Ht. done.
Qed.

End MemoryCapture.

Lemma StartProfiling_unknown_type_witness :
  let out := StartProfiling Examples.runtime0 5 (Middleware.mgr Examples.fresh_world) "/a/7"
               (Examples.task_a [] 100 1 "memory") in
  fst (fst out) = (None, Some ("profiler type " +:+ "memory" +:+ " not found"))
  /\ snd out = Examples.runtime0
  /\ limiter (snd (fst out)) = Nat.pred (limiter (Middleware.mgr Examples.fresh_world))
  /\ stats (snd (fst out)) = stats (Middleware.mgr Examples.fresh_world).
Proof.
  apply (StartProfiling_unknown_type Examples.noUnicode Examples.frozen DefaultOptions
           Examples.fresh_world Examples.runtime0 5 "/a/7" (Examples.task_a [] 100 1 "memory")).
  - apply (Middleware.reachable_new Examples.noUnicode Examples.frozen DefaultOptions
             Storage.NewMemoryStorage Http.GinPathMatcher_Match 0 (Examples.fresh DefaultOptions)).
    reflexivity.
  - cbn. intros Hin.
    repeat (apply elem_of_cons in Hin as [Hin|Hin]; [discriminate|]).
    by apply elem_of_nil in Hin.
Defined.

Lemma cpu_sessions_exclusive_witness :
  (forall now' (m' : Manager (S := Storage.MemoryStorage)) path' task',
     profilers m' !! ProfileType task' = Some CPUProfiler ->
     let out := StartProfiling (with_cpuProfiling Examples.runtime0 true) now' m' path' task' in
     fst (fst out)
     = (None, Some "failed to start CPU profiling: cpu profiling already in use"%string)
     /\ snd out = with_cpuProfiling Examples.runtime0 true
     /\ limiter (snd (fst out)) = Nat.pred (limiter m')
     /\ FailedCount (stats (snd (fst out))) = wrap64 (FailedCount (stats m') + 1)
     /\ ActiveProfiles (stats (snd (fst out))) = ActiveProfiles (stats m'))
  /\ (forall now' (m' : Manager (S := Storage.MemoryStorage)) path' task',
        profilers m' !! ProfileType task' = Some CPUProfiler ->
        exists s' m2 rt2,
          StartProfiling (snd (Stop (with_cpuProfiling Examples.runtime0 true)
                                    (CPUSession Examples.cpu_session)))
            now' m' path' task'
          = ((Some (CPUSession s'), None), m2, rt2)).
Proof.
  apply (cpu_sessions_exclusive Examples.runtime0 11 Examples.sampled_manager "/a/7"
           Examples.cpu_job Examples.cpu_session Examples.cpu_started
           (with_cpuProfiling Examples.runtime0 true)).
  reflexivity.
Defined.

Lemma StopProfiling_saves_capture_witness :
  let o := StopProfiling Examples.frozen Examples.runtime0 Examples.clock0
             Examples.heap_started "/a/7" "GET" Examples.heap_job Examples.heap_session in
  let filename :=
    generateFilename Examples.frozen (at_format Examples.clock0) (at_nanos Examples.clock0)
      "/a/7" "GET" (ProfileType Examples.heap_job) in
  so_err o = None
  /\ rSuccess (so_result o) = true
  /\ rFilename (so_result o) = filename
  /\ rFileSize (so_result o) = wrap64 (Z.of_nat (length [x02]))
  /\ Storage.files (storage (so_manager o))
     = <[filename := {| Storage.data := [x02]; Storage.modTime := at_save Examples.clock0 |}]>
         (Storage.files (storage Examples.heap_started))
  /\ trace (so_manager o)
     = trace Examples.heap_started
       ++ [SaveCalled filename (Some [x02]); Logged LInfo "Profiling completed"].
Proof.
  apply (StopProfiling_saves_capture Examples.frozen Examples.runtime0 Examples.clock0
           Examples.heap_started "/a/7" "GET" Examples.heap_job Examples.heap_session [x02]).
  - reflexivity.
  - discriminate.
Defined.

Lemma cpu_capture_survives_timer_witness :
  let fired := stopped_session (with_cpuProfiling Examples.runtime0 true)
                 (CPUSession Examples.cpu_session) in
  let o := StopProfiling Examples.frozen Examples.runtime0 Examples.clock0
             Examples.cpu_started "/a/7" "GET" Examples.cpu_job fired in
  let filename :=
    generateFilename Examples.frozen (at_format Examples.clock0) (at_nanos Examples.clock0)
      "/a/7" "GET" (ProfileType Examples.cpu_job) in
  stop_result Examples.runtime0 fired
  = (Some (cpuProfile (with_cpuProfiling Examples.runtime0 true)), None)
  /\ rFilename (so_result o) = filename
  /\ rFileSize (so_result o)
     = wrap64 (Z.of_nat (length (cpuProfile (with_cpuProfiling Examples.runtime0 true))))
  /\ SaveCalled filename (Some (cpuProfile (with_cpuProfiling Examples.runtime0 true)))
     ∈ trace (so_manager o).
Proof.
  apply (cpu_capture_survives_timer Examples.frozen Examples.runtime0 11 Examples.cpu_job
           Examples.cpu_session (with_cpuProfiling Examples.runtime0 true) Examples.runtime0
           Examples.clock0 Examples.cpu_started "/a/7" "GET").
  - reflexivity.
  - discriminate.
Defined.

(** ** The sweep of expired tasks *)

Section CleanFacts.

Context {S : Type}.

Implicit Types m : Manager (S := S).

Lemma sweep_lookup now (l : list (string * ProfilingTask)) : forall m k,
  let m' := foldl (fun m '(path, task) =>
                     if After now (ExpiresAt task)
                     then with_requestCount (with_tasks m (delete path (tasks m)))
                                            (delete path (requestCount m))
                     else m) m l in
  let expired := existsb (fun '(p, t) => bool_decide (p = k) && After now (ExpiresAt t)) l in
  tasks m' !! k = (if expired then None else tasks m !! k)
  /\ requestCount m' !! k = (if expired then None else requestCount m !! k)
  /\ stats m' = stats m /\ limiter m' = limiter m /\ options m' = options m
  /\ trace m' = trace m /\ storage m' = storage m.
Proof.
  induction l as [|[p t] l IH]; intros m k; cbn zeta; [done|].
  cbn [foldl existsb].
  match goal with |- context [foldl _ ?m0 l] => specialize (IH m0 k) end.
  cbn zeta in IH. destruct IH as (IHt & IHc & -> & -> & -> & -> & ->).
  rewrite IHt, IHc. clear IHt IHc.
  destruct (After now (ExpiresAt t)) eqn:Hexp; cbn.
  - case_bool_decide as Hk; cbn.
    + subst. rewrite !lookup_delete_eq. by destruct (existsb _ _).
    + rewrite !lookup_delete_ne by done. done.
  - rewrite andb_false_r. done.
Qed.

Lemma expired_in_table now (tbl : gmap string ProfilingTask) k :
  existsb (fun '(p, t) => bool_decide (p = k) && After now (ExpiresAt t)) (map_to_list tbl)
  = match tbl !! k with
    | Some t => After now (ExpiresAt t)
    | None => false
    end.
Proof.
  destruct (existsb _ _) eqn:E.
  - apply existsb_exists in E as ([p t] & Hin & Hpt).
    apply andb_true_iff in Hpt as [Hp Ht]. apply bool_decide_eq_true in Hp as ->.
    apply list_elem_of_In, elem_of_map_to_list in Hin. by rewrite Hin.
  - destruct (tbl !! k) as [t|] eqn:Hk; [|done].
    destruct (After now (ExpiresAt t)) eqn:Ht; [|done].
    rewrite <- E. apply existsb_exists. exists (k, t). split.
    + by apply list_elem_of_In, elem_of_map_to_list.
    + by rewrite bool_decide_eq_true_2.
Qed.

(** X14.  [cleanExpiredTasks] at the instant [now] leaves exactly the
    tasks that [now] is not after (a task that expires at [now] stays),
    drops the request counters of the paths it removes and no other,
    and touches neither the statistics nor the permits, and logs
    nothing. *)
Theorem cleanExpiredTasks_removes_expired now m :
  tasks (cleanExpiredTasks now m)
  = filter (fun kt => After now (ExpiresAt kt.2) = false) (tasks m)
  /\ (forall path,
        requestCount (cleanExpiredTasks now m) !! path
        = match tasks m !! path with
          | Some t => if After now (ExpiresAt t) then None else requestCount m !! path
          | None => requestCount m !! path
          end)
  /\ stats (cleanExpiredTasks now m) = stats m
  /\ limiter (cleanExpiredTasks now m) = limiter m
  /\ trace (cleanExpiredTasks now m) = trace m.
Proof.
  unfold cleanExpiredTasks. split; [|split].
  - apply map_eq. intros k.
    destruct (sweep_lookup now (map_to_list (tasks m)) m k) as (-> & _).
    rewrite expired_in_table, map_lookup_filter.
    destruct (tasks m !! k) as [t|]; [|done]. cbn.
    destruct (After now (ExpiresAt t));
      [by rewrite option_guard_False|by rewrite option_guard_True].
  - intros k.
    destruct (sweep_lookup now (map_to_list (tasks m)) m k) as (_ & -> & _).
    rewrite expired_in_table. by destruct (tasks m !! k).
  - by destruct (sweep_lookup now (map_to_list (tasks m)) m ""%string)
      as (_ & _ & -> & -> & _ & -> & _).
Qed.

End CleanFacts.

(** The task that expires at 100 stays at 100 and goes at 101. *)
Example cleanExpiredTasks_example :
  tasks (cleanExpiredTasks 100 Examples.expiring_manager) = tasks Examples.expiring_manager
  /\ tasks (cleanExpiredTasks 101 Examples.expiring_manager) = ∅.
Proof. split; vm_compute; reflexivity. Qed.

(** ** The handler of the middleware *)

Section HandlerFacts.

Context {S : Type} `{Storage S}.

Variable hasUnicode : string -> string -> bool.

Variable localTime : Time -> Civil.

Implicit Types m : Manager (S := S).

Lemma StartProfiling_result rt now m path task :
  (exists session m' rt',
     StartProfiling rt now m path task = ((Some session, None), m', rt'))
  \/ (exists err m' rt',
        StartProfiling rt now m path task = ((None, Some err), m', rt')).
Proof.
  unfold StartProfiling. destruct (profilers m !! _) as [p|]; [|right; eauto].
  destruct (Profiler_StartProfiling_result rt now p task)
    as [(session & rt' & ->)|(err & rt' & ->)]; [left|right]; eauto.
Qed.

Lemma StartProfiling_tasks rt now m path task :
  tasks (snd (fst (StartProfiling rt now m path task))) = tasks m.
Proof.
  unfold StartProfiling. destruct (profilers m !! _) as [p|]; [|done].
  by destruct (Profiler_StartProfiling rt now p task) as [[s [e|]] rt'].
Qed.

Lemma StopProfiling_accounts rt clk m path method task session :
  accounts (so_manager (StopProfiling localTime rt clk m path method task session))
  = (options m, Nat.pred (limiter m), wrap64 (ActiveProfiles (stats m) - 1)).
Proof.
  pose proof (StopProfiling_body_accounts localTime rt clk m path method task session) as Hb.
  unfold StopProfiling, accounts in *. cbn. by injection Hb as -> -> ->.
Qed.

Lemma StopProfiling_tasks rt clk m path method task session :
  tasks (so_manager (StopProfiling localTime rt clk m path method task session)) = tasks m.
Proof.
  unfold StopProfiling, StopProfiling_body.
  destruct (Stop rt session) as [[[data [e|]] s'] rt']; [done|].
  destruct (len data =? 0); [done|].
  destruct (Save _ _ _ _) as [st [e|]]; done.
Qed.

(** X15.  The handler never panics on its own account and starts the
    rest of the chain, [c.Next()], exactly once: with no manager, with
    profiling disabled, when the request is not admitted, when the session
    fails to start, and when it is profiled, whether it completes, panics
    or outlasts the timeout, and whatever [StopProfiling] returns. *)
Theorem Middleware_calls_Next_once manager c visit now_admit now_start rt wait fired clk :
  exists h,
    Middleware.Middleware hasUnicode localTime manager c visit now_admit now_start
      rt wait fired clk = Some h
    /\ Middleware.next_calls (Middleware.h_effects h) = 1%nat.
Proof.
  unfold Middleware.Middleware. destruct manager as [m|]; [|eauto].
  destruct (negb (IsEnabled m)); [eauto|].
  destruct (ShouldProfile _ _ _ _ _ _) as [[task shouldProfile] m1].
  destruct shouldProfile; cbn [negb]; [|eauto].
  unfold StartProfiling. destruct (profilers m1 !! _) as [p|]; [|eauto].
  destruct (Profiler_StartProfiling_result rt now_start p task)
    as [(session & rt' & ->)|(err & rt' & ->)]; [|eauto].
  destruct (Middleware.before_stop fired rt' session) as [session' rt''].
  eexists. split; [reflexivity|]. cbn [Middleware.h_effects].
  unfold Middleware.next_calls. rewrite filter_app, length_app.
  destruct wait as [[|]|]; cbn;
    destruct (so_err _); cbn; try done; by destruct (rSuccess _).
Qed.

(** X16.  A request handled to the end leaves the permits as it found
    them: whichever way the handler takes, the manager it leaves holds as
    many permits and counts as many active profiles as before, with the
    same options and the same task table. *)
Theorem Middleware_returns_permit m c visit now_admit now_start rt wait fired clk h :
  int64_range (ActiveProfiles (stats m)) ->
  Middleware.Middleware hasUnicode localTime (Some m) c visit now_admit now_start
    rt wait fired clk = Some h ->
  exists m',
    Middleware.h_manager h = Some m'
    /\ limiter m' = limiter m
    /\ ActiveProfiles (stats m') = ActiveProfiles (stats m)
    /\ options m' = options m
    /\ tasks m' = tasks m.
Proof.
  intros Hint. unfold Middleware.Middleware. cbn zeta.
  destruct (negb (IsEnabled m)); [intros [= <-]; by exists m|].
  pose proof (ShouldProfile_accounts hasUnicode visit now_admit m
                (Http.GetPath c) (Http.GetMethod c)) as [Hsp _].
  pose proof (ShouldProfile_setup hasUnicode visit now_admit m
                (Http.GetPath c) (Http.GetMethod c)) as (Ht & _).
  unfold admits in Hsp.
  destruct (ShouldProfile _ _ _ _ _ _) as [[task shouldProfile] m1].
  cbn [fst snd] in Hsp, Ht. injection Hsp as Ho Hl Ha.
  destruct shouldProfile; cbn [negb].
  2:{ intros [= <-]. exists m1. by rewrite Ht. }
  pose proof (StartProfiling_accounts rt now_start m1 (Http.GetPath c) task) as Hst.
  pose proof (StartProfiling_tasks rt now_start m1 (Http.GetPath c) task) as Hstt.
  destruct (StartProfiling_result rt now_start m1 (Http.GetPath c) task)
    as [(session & m2 & rt2 & Hs)|(err & m2 & rt2 & Hs)];
    rewrite Hs in *; cbn [fst snd] in Hst, Hstt; injection Hst as Ho2 Hl2 Ha2.
  - destruct (Middleware.before_stop fired rt2 session) as [session' rt3].
    cbn iota zeta.
    pose proof (StopProfiling_accounts rt3 clk m2 (Http.GetPath c) (Http.GetMethod c)
                  task session') as Hb.
    pose proof (StopProfiling_tasks rt3 clk m2 (Http.GetPath c) (Http.GetMethod c)
                  task session') as Hbt.
    destruct (StopProfiling _ _ _ _ _ _ _ _) as [result serr m3 s3 rt4].
    cbn [so_manager] in *. injection Hb as Ho3 Hl3 Ha3.
    intros [= <-]. exists m3. cbn [Middleware.h_manager].
    rewrite Hbt, Hl3, Ha3, Ho3, Hl2, Ha2, Ho2, Hl, Ha, Ho, Hstt, Ht.
    repeat split. unfold int64_range, wrap64 in *.
    Z.to_euclidean_division_equations; lia.
  - intros [= <-]. exists m2. rewrite Hl2, Ha2, Ho2, Hl, Ha, Ho, Hstt, Ht. done.
Qed.

End HandlerFacts.

Lemma Middleware_returns_permit_witness :
  exists m',
    Middleware.h_manager Examples.heap_handled = Some m'
    /\ limiter m' = limiter Examples.heap_manager
    /\ ActiveProfiles (stats m') = ActiveProfiles (stats Examples.heap_manager)
    /\ options m' = options Examples.heap_manager
    /\ tasks m' = tasks Examples.heap_manager.
Proof.
  apply (Middleware_returns_permit Examples.noUnicode Examples.frozen Examples.heap_manager
           Examples.ctx_a7 (map_to_list (tasks Examples.heap_manager)) 10 11
           Examples.runtime0 (Middleware.Done false) false Examples.clock0
           Examples.heap_handled).
  - unfold int64_range. cbn. lia.
  - vm_compute. reflexivity.
Defined.

(** The routed request of [/a/:id] is profiled under the route's template:
    the artifact is named after it, not after the URL. *)
Example Middleware_example :
  Middleware.Middleware Examples.noUnicode Examples.frozen (Some Examples.heap_manager)
    Examples.ctx_a7 (map_to_list (tasks Examples.heap_manager)) 10 11
    Examples.runtime0 (Middleware.Done false) false Examples.clock0
  = Some Examples.heap_handled
  /\ (Storage.files <$> (storage <$> Middleware.h_manager Examples.heap_handled))
     = Some {[ "heap/profile__a__id_GET_20250309_070059_22.pprof"%string :=
                 {| Storage.data := [x02]; Storage.modTime := 23 |} ]}.
Proof. split; vm_compute; reflexivity. Qed.

(** ** The memory backend (memory.go) *)

(** X17.  [MemoryStorage.Save] never fails and stores under the name a
    file with the bytes given (none for a nil slice), dated [now], leaving
    every other name as it was; [Delete] of that name then succeeds and
    leaves the store as it was before the [Save], without that name. *)
Theorem MemoryStorage_Save_Delete now m filename d :
  let saved := fst (Storage.MemoryStorage_Save now m filename d) in
  let deleted := fst (Storage.MemoryStorage_Delete saved filename) in
  snd (Storage.MemoryStorage_Save now m filename d) = None
  /\ Storage.files saved !! filename
     = Some {| Storage.data := default [] d; Storage.modTime := now |}
  /\ (forall other, other <> filename ->
        Storage.files saved !! other = Storage.files m !! other)
  /\ snd (Storage.MemoryStorage_Delete saved filename) = None
  /\ Storage.files deleted = delete filename (Storage.files m).
Proof.
  cbn zeta. unfold Storage.MemoryStorage_Delete, Storage.MemoryStorage_Save. cbn.
  rewrite lookup_insert_eq. cbn. repeat split.
  - intros other Hne. by rewrite lookup_insert_ne.
  - apply delete_insert_eq.
Qed.

Lemma cleanFiles_fold now maxAge (l : list (string * Storage.memoryFile)) : forall fs n0,
  let step := fun '(fs, cleanedCount) '(filename, file) =>
                if maxAge <? Sub now (Storage.modTime file)
                then (delete filename fs, cleanedCount + 1)
                else (fs, cleanedCount) in
  let out : gmap string Storage.memoryFile * Z := foldl step (fs, n0) l in
  (forall k, out.1 !! k
             = if existsb (fun '(p, f) => bool_decide (p = k) && Storage.too_old now maxAge f) l
               then None else fs !! k)
  /\ out.2 = n0 + Z.of_nat (length (filter (fun pf => Storage.too_old now maxAge pf.2 = true) l)).
Proof.
  induction l as [|[p f] l IH]; intros fs n0; cbn zeta.
  - cbn. split; [done|lia].
  - cbn [foldl existsb].
    change (maxAge <? Sub now (Storage.modTime f)) with (Storage.too_old now maxAge f).
    destruct (Storage.too_old now maxAge f) eqn:Hold.
    + destruct (IH (delete p fs) (n0 + 1)) as [IHf IHn]. cbn zeta in IHf, IHn.
      split.
      * intros k. rewrite IHf. case_bool_decide as Hk; cbn.
        -- subst. rewrite lookup_delete_eq. by destruct (existsb _ _).
        -- by rewrite lookup_delete_ne.
      * rewrite IHn, filter_cons_True by done. cbn [length]. lia.
    + destruct (IH fs n0) as [IHf IHn]. cbn zeta in IHf, IHn. split.
      * intros k. rewrite IHf. by rewrite andb_false_r.
      * rewrite IHn, filter_cons_False; [done|]. cbn. by rewrite Hold.
Qed.

Lemma too_old_in_visit now maxAge visit (fs : gmap string Storage.memoryFile) k :
  visit ≡ₚ map_to_list fs ->
  existsb (fun '(p, f) => bool_decide (p = k) && Storage.too_old now maxAge f) visit
  = match fs !! k with
    | Some f => Storage.too_old now maxAge f
    | None => false
    end.
Proof.
  intros Hperm. destruct (existsb _ _) eqn:E.
  - apply existsb_exists in E as ([p f] & Hin & Hpf).
    apply andb_true_iff in Hpf as [Hp Hf]. apply bool_decide_eq_true in Hp as ->.
    apply list_elem_of_In in Hin. rewrite Hperm in Hin.
    apply elem_of_map_to_list in Hin. by rewrite Hin.
  - destruct (fs !! k) as [f|] eqn:Hk; [|done].
    destruct (Storage.too_old now maxAge f) eqn:Hf; [|done].
    rewrite <- E. apply existsb_exists. exists (k, f). split.
    + apply list_elem_of_In. rewrite Hperm. by apply elem_of_map_to_list.
    + by rewrite bool_decide_eq_true_2.
Qed.

(** X18.  [MemoryStorage.Clean] never fails and, in whatever order it
    visits the files, leaves exactly those whose age at [now] is at most
    [maxAge]; it logs its one line exactly when it removed a file. *)
Theorem MemoryStorage_Clean_removes_old now visit m maxAge :
  visit ≡ₚ map_to_list (Storage.files m) ->
  let cleaned := fst (Storage.MemoryStorage_Clean now visit m maxAge) in
  snd (Storage.MemoryStorage_Clean now visit m maxAge) = None
  /\ Storage.files cleaned
     = filter (fun kf => Sub now (Storage.modTime kf.2) <= maxAge) (Storage.files m)
  /\ (Storage.files cleaned = Storage.files m
      /\ Storage.mem_log cleaned = Storage.mem_log m
      \/ Storage.files cleaned <> Storage.files m
         /\ Storage.mem_log cleaned
            = Storage.mem_log m ++ [(LInfo, "Memory profile cleanup completed"%string)]).
Proof.
  intros Hperm. cbn zeta. unfold Storage.MemoryStorage_Clean, Storage.cleanFiles.
  destruct (cleanFiles_fold now maxAge visit (Storage.files m) 0) as [Hf Hn].
  cbn zeta in Hf, Hn. destruct (foldl _ _ visit) as [fs n]. cbn [fst snd] in *.
  assert (Hfs : fs = filter (fun kf => Sub now (Storage.modTime kf.2) <= maxAge)
                            (Storage.files m)).
  { apply map_eq. intros k.
    rewrite Hf, (too_old_in_visit _ _ _ _ _ Hperm), map_lookup_filter.
    destruct (Storage.files m !! k) as [f|]; [|done]. cbn. unfold Storage.too_old.
    destruct (Z.ltb_spec maxAge (Sub now (Storage.modTime f))).
    - rewrite option_guard_False; [done|lia].
    - rewrite option_guard_True; [done|lia]. }
  split; [done|]. split; [done|].
  destruct (Z.ltb_spec 0 n) as [Hpos|Hzero]; [right|left]; split; try done.
  - assert (Hex : exists pf, Storage.too_old now maxAge pf.2 = true /\ pf ∈ visit).
    { destruct (filter (fun pf => Storage.too_old now maxAge pf.2 = true) visit)
        as [|pf l] eqn:E; [cbn in Hn; lia|].
      exists pf. apply (list_elem_of_filter (fun pf => Storage.too_old now maxAge pf.2 = true)).
      rewrite E. left. }
    destruct Hex as ([k f] & Hold & Hin). rewrite Hperm in Hin.
    apply elem_of_map_to_list in Hin. cbn [Storage.files]. intros Hsame.
    specialize (Hf k). rewrite (too_old_in_visit _ _ _ _ _ Hperm), Hin in Hf.
    cbn in Hold. rewrite Hold, Hsame, Hin in Hf. done.
  - apply map_eq. intros k. rewrite Hf, (too_old_in_visit _ _ _ _ _ Hperm).
    destruct (Storage.files m !! k) as [f|] eqn:Hk; [|done].
    destruct (Storage.too_old now maxAge f) eqn:Hold; [|done]. exfalso.
    assert (Hin : (k, f) ∈ filter (fun pf => Storage.too_old now maxAge pf.2 = true) visit).
    { apply list_elem_of_filter. split; [done|]. rewrite Hperm.
      by apply elem_of_map_to_list. }
    destruct (filter _ visit); [by apply elem_of_nil in Hin|]. cbn in Hn. lia.
Qed.

Lemma MemoryStorage_Clean_removes_old_witness :
  let cleaned := fst (Storage.MemoryStorage_Clean 150
                        (map_to_list (Storage.files Examples.two_files))
                        Examples.two_files 100) in
  snd (Storage.MemoryStorage_Clean 150 (map_to_list (Storage.files Examples.two_files))
         Examples.two_files 100) = None
  /\ Storage.files cleaned
     = filter (fun kf => Sub 150 (Storage.modTime kf.2) <= 100)
              (Storage.files Examples.two_files)
  /\ (Storage.files cleaned = Storage.files Examples.two_files
      /\ Storage.mem_log cleaned = Storage.mem_log Examples.two_files
      \/ Storage.files cleaned <> Storage.files Examples.two_files
         /\ Storage.mem_log cleaned
            = Storage.mem_log Examples.two_files
              ++ [(LInfo, "Memory profile cleanup completed"%string)]).
Proof.
  apply (MemoryStorage_Clean_removes_old 150 (map_to_list (Storage.files Examples.two_files))
           Examples.two_files 100).
  reflexivity.
Defined.

(** Of the files saved at 0 and at 100, a sweep at 150 for files older
    than 100 removes the first. *)
Example MemoryStorage_Clean_example :
  Storage.files (fst (Storage.MemoryStorage_Clean 150
                        (map_to_list (Storage.files Examples.two_files))
                        Examples.two_files 100))
  = {[ "cpu/new.pprof"%string := {| Storage.data := [x02]; Storage.modTime := 100 |} ]}.
Proof. vm_compute. reflexivity. Qed.

(** ** The two sanitizers *)

Lemma sanitize_rune_idempotent r : sanitize_rune (sanitize_rune r) = sanitize_rune r.
Proof.
  unfold sanitize_rune. destruct (bool_decide (r ∈ forbidden)) eqn:E.
  - by destruct (bool_decide _).
  - by rewrite E.
Qed.

Lemma sanitize_rune_allowed r : sanitize_rune r ∉ forbidden.
Proof.
  unfold sanitize_rune. case_bool_decide as Hr; [|done].
  unfold forbidden. intros Hin.
  repeat (apply elem_of_cons in Hin as [Hin|Hin]; [discriminate|]).
  by apply elem_of_nil in Hin.
Qed.

Lemma forbidden_ascii b : b ∈ forbidden -> 0 <= b < 128.
Proof.
  unfold forbidden. intros Hin.
  repeat (apply elem_of_cons in Hin as [->|Hin]; [lia|]).
  by apply elem_of_nil in Hin.
Qed.

(** The bytes of a character outside ASCII are all outside ASCII. *)
Lemma encode_arith_allowed r :
  valid_rune r -> r ∉ forbidden -> Forall (fun b => b ∉ forbidden) (encode_arith r).
Proof.
  rewrite valid_rune_bounds. intros [Hr Hs] Hn. unfold encode_arith.
  destruct (Z.ltb_spec r 0x80); [by repeat constructor|].
  assert (Hhigh : forall b, 128 <= b -> b ∉ forbidden).
  { intros b Hb Hin. apply forbidden_ascii in Hin. lia. }
  split_cmp; repeat constructor; apply Hhigh; divmod.
Qed.

(** X19.  Whatever the path, valid UTF-8 or not, no byte of the sanitized
    path is one of the nine replaced characters, and sanitizing a second
    time changes nothing. *)
Theorem sanitizePath_safe path :
  Forall (fun b => b ∉ forbidden) (bytes_of_string (sanitizePath path))
  /\ sanitizePath (sanitizePath path) = sanitizePath path.
Proof.
  assert (Hvalid : Forall valid_rune (map sanitize_rune (runes path))).
  { apply Forall_fmap. eapply Forall_impl; [apply runes_valid|].
    intros r Hr. by apply sanitize_rune_valid. }
  split.
  - rewrite sanitizePath_runes_of. unfold string_of_runes.
    rewrite bytes_of_string_of_bytes.
    + apply Forall_concat, Forall_fmap, Forall_fmap.
      eapply Forall_impl; [apply runes_valid|]. intros r Hr. cbn.
      rewrite EncodeRune_arith by (by apply sanitize_rune_valid).
      apply encode_arith_allowed; [by apply sanitize_rune_valid|apply sanitize_rune_allowed].
    + apply Forall_concat, Forall_fmap. eapply Forall_impl; [exact Hvalid|].
      intros r Hr. cbn. rewrite EncodeRune_arith by done. by apply encode_arith_bytes.
  - rewrite (sanitizePath_runes_of (sanitizePath path)), sanitizePath_runes.
    rewrite <- list_fmap_compose, sanitizePath_runes_of. f_equal.
    apply list_fmap_ext. intros _ r _. apply sanitize_rune_idempotent.
Qed.

Lemma ReplaceAll_bytes s c :
  bytes_of_string (Strings.ReplaceAll s c "_")
  = map (Storage.replace_byte c) (bytes_of_string s).
Proof.
  induction s as [|a s IH]; [done|]. cbn [Strings.ReplaceAll bytes_of_string map].
  unfold Storage.replace_byte at 1.
  destruct (Ascii.eqb_spec a c) as [->|Hne].
  - rewrite Z.eqb_refl.
    change ("_" +:+ Strings.ReplaceAll s c "_") with (String "_" (Strings.ReplaceAll s c "_")).
    cbn [bytes_of_string]. by rewrite IH.
  - destruct (Z.eqb_spec (byte_of a) (byte_of c)) as [Heq|_].
    + exfalso. apply Hne. unfold byte_of in Heq. apply N2Z.inj in Heq.
      by rewrite <- (ascii_N_embedding a), <- (ascii_N_embedding c), Heq.
    + change (String a "" +:+ Strings.ReplaceAll s c "_")
        with (String a (Strings.ReplaceAll s c "_")).
      cbn [bytes_of_string]. by rewrite IH.
Qed.

Lemma replace_byte_ne c b : b <> byte_of c -> Storage.replace_byte c b = b.
Proof. intros Hne. unfold Storage.replace_byte. by destruct (Z.eqb_spec b (byte_of c)). Qed.

Lemma storage_sanitizePath_map path :
  bytes_of_string (Storage.sanitizePath path)
  = map (fun b => if bool_decide (b ∈ Storage.replaced) then 95 else b) (bytes_of_string path).
Proof.
  unfold Storage.sanitizePath. rewrite !ReplaceAll_bytes, <- !list_fmap_compose.
  apply list_fmap_ext. intros _ b _. unfold compose.
  case_bool_decide as Hin.
  - unfold Storage.replaced in Hin.
    repeat (apply elem_of_cons in Hin as [->|Hin]; [vm_compute; reflexivity|]).
    by apply elem_of_nil in Hin.
  - unfold Storage.replaced in Hin. repeat (apply not_elem_of_cons in Hin as [? Hin]).
    rewrite (replace_byte_ne "/" b) by (change (byte_of "/") with 47; done).
    rewrite (replace_byte_ne ":" b) by (change (byte_of ":") with 58; done).
    rewrite (replace_byte_ne "*" b) by (change (byte_of "*") with 42; done).
    rewrite (replace_byte_ne "?" b) by (change (byte_of "?") with 63; done).
    rewrite (replace_byte_ne "<" b) by (change (byte_of "<") with 60; done).
    rewrite (replace_byte_ne ">" b) by (change (byte_of ">") with 62; done).
    by rewrite (replace_byte_ne "|" b) by (change (byte_of "|") with 124; done).
Qed.

Lemma sanitizers_agree_bytes l :
  34 ∉ l -> 92 ∉ l ->
  Forall (fun b => (if bool_decide (b ∈ Storage.replaced) then 95 else b) = sanitize_rune b) l.
Proof.
  induction l as [|b l IH]; intros Hq Hb; [constructor|].
  apply not_elem_of_cons in Hq as [Hq1 Hq], Hb as [Hb1 Hb].
  constructor; [|by apply IH]. unfold sanitize_rune.
  destruct (decide (b ∈ Storage.replaced)) as [Hs|Hs];
    destruct (decide (b ∈ forbidden)) as [Hf|Hf];
    rewrite ?(bool_decide_eq_true_2 _ Hs), ?(bool_decide_eq_false_2 _ Hs),
            ?(bool_decide_eq_true_2 _ Hf), ?(bool_decide_eq_false_2 _ Hf); try done.
  - exfalso. apply Hf. unfold Storage.replaced in Hs. unfold forbidden.
    repeat (apply elem_of_cons in Hs as [->|Hs];
            [repeat (first [apply list_elem_of_here|apply list_elem_of_further])|]).
    by apply elem_of_nil in Hs.
  - exfalso. unfold forbidden in Hf. unfold Storage.replaced in Hs.
    repeat (apply elem_of_cons in Hf as [->|Hf];
            [first [done|apply Hs;
                    repeat (first [apply list_elem_of_here|apply list_elem_of_further])]|]).
    by apply elem_of_nil in Hf.
Qed.

(** X20.  The sanitizer of the file backend works on bytes: it replaces
    each slash, colon, star, question mark, less-than, greater-than and
    bar by an underscore and keeps every other byte, those of invalid
    UTF-8 included, so the length stays.  On an ASCII path without double
    quote and backslash it returns what the manager's sanitizer
    returns. *)
Theorem storage_sanitizePath_bytes path :
  bytes_of_string (Storage.sanitizePath path)
  = map (fun b => if bool_decide (b ∈ Storage.replaced) then 95 else b) (bytes_of_string path)
  /\ String.length (Storage.sanitizePath path) = String.length path
  /\ (ascii_only path ->
      34 ∉ bytes_of_string path -> 92 ∉ bytes_of_string path ->
      Storage.sanitizePath path = sanitizePath path).
Proof.
  split; [apply storage_sanitizePath_map|]. split.
  - assert (Hlen : forall s, String.length s = length (bytes_of_string s)).
    { induction s as [|a s IH]; [done|]. cbn. by rewrite IH. }
    by rewrite !Hlen, storage_sanitizePath_map, length_map.
  - intros Hascii Hq Hb. rewrite sanitizePath_ascii by done.
    rewrite <- (string_of_bytes_of_string (Storage.sanitizePath path)).
    rewrite storage_sanitizePath_map. f_equal.
    apply Forall_fmap_ext_1. by apply sanitizers_agree_bytes.
Qed.

(** The two sanitizers on a backslash, and the file backend's on a byte
    that is no UTF-8. *)
Example sanitizers_differ :
  Storage.sanitizePath "/a\b" = "_a\b"%string
  /\ sanitizePath "/a\b" = "_a_b"%string
  /\ Storage.sanitizePath "/a/:id" = sanitizePath "/a/:id"
  /\ bytes_of_string (Storage.sanitizePath (string_of_bytes [0x61; 0xFF])) = [0x61; 0xFF].
Proof. repeat split; vm_compute; reflexivity. Qed.

(** ** The file provider (file.go of package config) and the initial load *)

Lemma filterTasks_valid now profiles :
  Config.validTasks (Config.filterTasks now profiles)
  = map Config.setDefaults (filter (fun t => Before now (ExpiresAt t) = true) profiles).
Proof.
  unfold Config.filterTasks.
  change (map Config.setDefaults (filter (fun t => Before now (ExpiresAt t) = true) profiles))
    with (Config.validTasks {| Config.validTasks := []; Config.expiredCount := 0;
                               Config.warnings := [] |}
          ++ map Config.setDefaults
               (filter (fun t => Before now (ExpiresAt t) = true) profiles)).
  generalize {| Config.validTasks := []; Config.expiredCount := 0; Config.warnings := [] |}.
  induction profiles as [|t profiles IH]; intros acc; cbn [foldl].
  - by rewrite app_nil_r.
  - rewrite IH. destruct (Before now (ExpiresAt t)) eqn:Hb.
    + rewrite filter_cons_True by done. cbn. by rewrite <- app_assoc.
    + rewrite filter_cons_False; [done|]. by rewrite Hb.
Qed.

Lemma setDefaults_fields task :
  Path (Config.setDefaults task) = Path task
  /\ ExpiresAt (Config.setDefaults task) = ExpiresAt task
  /\ Duration (Config.setDefaults task) = (if Duration task =? 0 then 30 else Duration task)
  /\ SampleRate (Config.setDefaults task)
     = (if SampleRate task =? 0 then 1 else SampleRate task)
  /\ ProfileType (Config.setDefaults task)
     = (if bool_decide (ProfileType task = ""%string) then "cpu"%string else ProfileType task)
  /\ Methods (Config.setDefaults task)
     = (if bool_decide (Methods task = []) then ["GET"%string] else Methods task).
Proof.
  destruct task as [p ms e d r ty]. unfold Config.setDefaults. cbn.
  destruct (d =? 0); cbn; destruct (r =? 0); cbn;
    destruct (bool_decide (ty = ""%string)); cbn; destruct ms; cbn; done.
Qed.

Section FileConfigFacts.

Variable hasUnicode : string -> string -> bool.

Variable Unmarshal : list byte -> list ProfilingTask * error.

Lemma FileConfig_GetTasks_valid read now t :
  t ∈ fst (fst (Config.FileConfig_GetTasks Unmarshal read now)) ->
  ExpiresAt t > now /\ Duration t <> 0 /\ SampleRate t <> 0
  /\ ProfileType t <> ""%string /\ Methods t <> [].
Proof.
  destruct read as [|msg|data]; cbn; [by intros ?%elem_of_nil..|].
  destruct (Unmarshal data) as [profiles [err|]]; cbn; [by intros ?%elem_of_nil|].
  rewrite filterTasks_valid. intros Hin.
  apply list_elem_of_fmap in Hin as (t0 & -> & Hin).
  apply list_elem_of_filter in Hin as [Hb _].
  destruct (setDefaults_fields t0) as (_ & -> & -> & -> & -> & ->).
  unfold Before in Hb. apply Z.ltb_lt in Hb.
  repeat split.
  - lia.
  - by destruct (Z.eqb_spec (Duration t0) 0).
  - by destruct (Z.eqb_spec (SampleRate t0) 0).
  - by case_bool_decide.
  - by case_bool_decide.
Qed.

(** X21.  [FileConfig.GetTasks] returns no task and no error when the file
    does not exist, the error and no task when the file cannot be read or
    parsed, and otherwise, in the order of the file, the tasks that expire
    strictly after [now], each with its four defaults filled in (duration
    30, sample rate 1, type [cpu], methods [GET]) and its other fields
    as declared.  So every task it returns is unexpired, has a duration
    and a sample rate other than 0, a type and a method. *)
Theorem FileConfig_GetTasks_result read now :
  let out := fst (Config.FileConfig_GetTasks Unmarshal read now) in
  match read with
  | Config.NotExist => out = ([], None)
  | Config.ReadError msg => out = ([], Some msg)
  | Config.Contents data =>
      match Unmarshal data with
      | (_, Some err) => out = ([], Some err)
      | (profiles, None) =>
          out = (map Config.setDefaults
                   (filter (fun t => Before now (ExpiresAt t) = true) profiles), None)
      end
  end
  /\ (forall task,
        Path (Config.setDefaults task) = Path task
        /\ ExpiresAt (Config.setDefaults task) = ExpiresAt task
        /\ Duration (Config.setDefaults task)
           = (if Duration task =? 0 then 30 else Duration task)
        /\ SampleRate (Config.setDefaults task)
           = (if SampleRate task =? 0 then 1 else SampleRate task)
        /\ ProfileType (Config.setDefaults task)
           = (if bool_decide (ProfileType task = ""%string)
              then "cpu"%string else ProfileType task)
        /\ Methods (Config.setDefaults task)
           = (if bool_decide (Methods task = []) then ["GET"%string] else Methods task))
  /\ forall t, t ∈ fst out ->
       ExpiresAt t > now /\ Duration t <> 0 /\ SampleRate t <> 0
       /\ ProfileType t <> ""%string /\ Methods t <> [].
Proof.
  cbn zeta. split; [|split; [apply setDefaults_fields|intros t; apply FileConfig_GetTasks_valid]].
  destruct read as [|msg|data]; [done..|]. cbn.
  destruct (Unmarshal data) as [profiles [err|]]; [done|].
  cbn. by rewrite filterTasks_valid.
Qed.

(** X22.  After the initial load of a fresh manager from the file
    provider, every task of the table is filed under its own path, expires
    strictly after the instant at which the file was read, has a duration
    and a sample rate other than 0 and a type, and its methods are
    compared with [EqualFold] throughout: the comparison of the bytes with
    [GET], which [ShouldMatchMethod] makes for a task without methods, is
    never reached. *)
Theorem initial_load_installs_valid_tasks {S} opts (st : S) matcher now0 m0
    read now now' path t :
  NewManager opts st matcher now0 = Some m0 ->
  tasks (Config.startConfigSync_load now' m0
           (fst (Config.FileConfig_GetTasks Unmarshal read now))) !! path = Some t ->
  Path t = path
  /\ ExpiresAt t > now /\ Duration t <> 0 /\ SampleRate t <> 0
  /\ ProfileType t <> ""%string
  /\ forall method,
       ShouldMatchMethod hasUnicode t method
       = if contains hasUnicode (Methods t) "*"
         then contains hasUnicode CommonMethods method
         else contains hasUnicode (Methods t) method.
Proof.
  intros Hnew. unfold NewManager in Hnew. destruct (_ <? _); [done|].
  injection Hnew as <-.
  pose proof (FileConfig_GetTasks_valid read now t) as Hvalid.
  destruct (Config.FileConfig_GetTasks Unmarshal read now) as [[L [err|]] log];
    cbn [fst snd Config.startConfigSync_load] in *.
  - cbn. by rewrite lookup_empty.
  - rewrite updateTasks_tasks, buildTaskMap_lookup. intros Hlast.
    apply last_declared_elem in Hlast as [Hin Hpath].
    destruct (Hvalid Hin) as (He & Hd & Hs & Hty & Hm).
    repeat split; try done. intros method.
    destruct (contains hasUnicode (Methods t) "*") eqn:Hstar.
    + by apply ShouldMatchMethod_star.
    + by apply ShouldMatchMethod_listed.
Qed.

End FileConfigFacts.

Lemma initial_load_installs_valid_tasks_witness :
  Path Examples.loaded_task = "/a/:id"%string
  /\ ExpiresAt Examples.loaded_task > 10 /\ Duration Examples.loaded_task <> 0
  /\ SampleRate Examples.loaded_task <> 0
  /\ ProfileType Examples.loaded_task <> ""%string
  /\ forall method,
       ShouldMatchMethod Examples.noUnicode Examples.loaded_task method
       = if contains Examples.noUnicode (Methods Examples.loaded_task) "*"
         then contains Examples.noUnicode CommonMethods method
         else contains Examples.noUnicode (Methods Examples.loaded_task) method.
Proof.
  apply (initial_load_installs_valid_tasks Examples.noUnicode Examples.unmarshal_one
           DefaultOptions Storage.NewMemoryStorage Http.GinPathMatcher_Match 0
           (Examples.fresh DefaultOptions) (Config.Contents []) 10 11 "/a/:id"
           Examples.loaded_task).
  - reflexivity.
  - vm_compute. reflexivity.
Defined.

(** The task declared without methods: as the file provider hands it over
    it matches [get]; as declared it does not.  At the instant of its
    expiry the provider drops a task the manager would still admit. *)
Example FileConfig_example :
  fst (Config.FileConfig_GetTasks Examples.unmarshal_one (Config.Contents []) 10)
  = ([Examples.loaded_task], None)
  /\ ShouldMatchMethod Examples.noUnicode Examples.loaded_task "get" = true
  /\ fst (Config.FileConfig_GetTasks Examples.unmarshal_one (Config.Contents []) 100)
     = ([], None)
  /\ fst (Config.FileConfig_GetTasks Examples.unmarshal_one Config.NotExist 10) = ([], None).
Proof. repeat split; reflexivity. Qed.

(** ** The file backend: a file that exists *)

(** X23.  [FileStorage.Delete] of a name that is a regular file under the
    base directory removes that file and nothing else and returns no
    error; the same call repeated then fails with the error of
    [os.Remove]. *)
Theorem FileStorage_Delete_existing Join f filename content mtime :
  Storage.disk f !! Join (Storage.baseDir f) filename
  = Some (Storage.RegularFile content mtime) ->
  let deleted := fst (Storage.FileStorage_Delete Join f filename) in
  snd (Storage.FileStorage_Delete Join f filename) = None
  /\ Storage.disk deleted = delete (Join (Storage.baseDir f) filename) (Storage.disk f)
  /\ Storage.baseDir deleted = Storage.baseDir f
  /\ snd (Storage.FileStorage_Delete Join deleted filename)
     = Some ("remove " +:+ Join (Storage.baseDir f) filename
             +:+ ": no such file or directory").
Proof.
  intros Hf. cbn zeta.
  assert (Hfirst : Storage.FileStorage_Delete Join f filename
                   = ({| Storage.baseDir := Storage.baseDir f;
                         Storage.disk := delete (Join (Storage.baseDir f) filename)
                                                (Storage.disk f);
                         Storage.file_log :=
                           Storage.file_log f ++ [(LInfo, "Profile deleted"%string)] |},
                      None)).
  { unfold Storage.FileStorage_Delete, Storage.os_Remove. by rewrite Hf. }
  rewrite Hfirst. cbn [fst snd Storage.disk Storage.baseDir]. repeat split.
  unfold Storage.FileStorage_Delete, Storage.os_Remove.
  cbn [Storage.disk Storage.baseDir]. by rewrite lookup_delete_eq.
Qed.

Lemma FileStorage_Delete_existing_witness :
  let deleted := fst (Storage.FileStorage_Delete Examples.join Examples.one_file_disk
                        "cpu/x.pprof") in
  snd (Storage.FileStorage_Delete Examples.join Examples.one_file_disk "cpu/x.pprof") = None
  /\ Storage.disk deleted
     = delete (Examples.join (Storage.baseDir Examples.one_file_disk) "cpu/x.pprof")
              (Storage.disk Examples.one_file_disk)
  /\ Storage.baseDir deleted = Storage.baseDir Examples.one_file_disk
  /\ snd (Storage.FileStorage_Delete Examples.join deleted "cpu/x.pprof")
     = Some ("remove " +:+ Examples.join (Storage.baseDir Examples.one_file_disk) "cpu/x.pprof"
             +:+ ": no such file or directory").
Proof.
  apply (FileStorage_Delete_existing Examples.join Examples.one_file_disk "cpu/x.pprof"
           [x01] 5).
  reflexivity.
Defined.

(** ** A burst of requests, and a request that outlasts its session's timer *)

Section BurstFacts.

Context {S : Type} `{Storage S}.

Variable hasUnicode : string -> string -> bool.

Variable localTime : Time -> Civil.

Implicit Types m : Manager (S := S).

Lemma serve_limiter reqs : forall m,
  let out := serve hasUnicode m reqs in
  limiter (snd out) = (limiter m + fst (fst out))%nat
  /\ options (snd out) = options m
  /\ ((0 < fst (fst out))%nat -> Z.of_nat (limiter (snd out)) <= MaxConcurrent (options m)).
Proof.
  induction reqs as [|r reqs IH]; intros m; cbn zeta.
  - cbn. repeat split; lia.
  - cbn [serve].
    pose proof (ShouldProfile_accounts hasUnicode (req_visit r) (req_now r) m
                  (req_path r) (req_method r)) as [Hacc Hroom].
    destruct (ShouldProfile _ _ _ _ _ _) as [[t b] m1] eqn:Hsp.
    unfold admits in *. cbn [fst snd] in *. injection Hacc as Ho Hl _.
    specialize (IH m1). cbn zeta in IH.
    destruct (serve hasUnicode m1 reqs) as [[a e] m2]. cbn [fst snd] in *.
    destruct IH as (IHl & IHo & IHb). rewrite IHl, IHo, Hl, Ho.
    destruct b; repeat split; try lia.
    + intros _. destruct a as [|a]; [|rewrite Ho in IHb; lia].
      specialize (Hroom eq_refl). lia.
    + intros Ha. rewrite Ho in IHb. specialize (IHb Ha). lia.
Qed.

(** X24.  While no session is stopped, a sequence of calls of
    [ShouldProfile] admits at most as many requests as permits were free at
    its start, whatever the requests and the sampling; each admission
    holds one more permit. *)
Theorem serve_admissions_bounded m reqs :
  Z.of_nat (limiter m) <= MaxConcurrent (options m) ->
  let out := serve hasUnicode m reqs in
  limiter (snd out) = (limiter m + fst (fst out))%nat
  /\ Z.of_nat (fst (fst out)) <= MaxConcurrent (options m) - Z.of_nat (limiter m).
Proof.
  intros Hheld. cbn zeta.
  destruct (serve_limiter reqs m) as (Hl & _ & Hb). cbn zeta in Hl, Hb.
  split; [exact Hl|].
  destruct (fst (fst (serve hasUnicode m reqs))) as [|a] eqn:E; [lia|].
  specialize (Hb ltac:(lia)). lia.
Qed.

Lemma StartProfiling_storage rt now m path task :
  storage (snd (fst (StartProfiling rt now m path task))) = storage m.
Proof.
  unfold StartProfiling. destruct (profilers m !! _) as [p|]; [|done].
  by destruct (Profiler_StartProfiling rt now p task) as [[s [e|]] rt'].
Qed.

(** X25.  A heap or goroutine request that outlasts the timer of its
    session: the handler still reports [Profiling completed successfully],
    while the storage is as it was before the request and the manager has
    only logged the warning of an empty capture. *)
Theorem Middleware_timer_loses_capture m c visit now_admit now_start rt wait clk
    task m1 session m2 rt2 :
  IsEnabled m = true ->
  ShouldProfile hasUnicode visit now_admit m (Http.GetPath c) (Http.GetMethod c)
  = ((task, true), m1) ->
  StartProfiling rt now_start m1 (Http.GetPath c) task = ((Some session, None), m2, rt2) ->
  (forall s, session <> CPUSession s) ->
  timer_armed session = true ->
  exists h m',
    Middleware.Middleware hasUnicode localTime (Some m) c visit now_admit now_start
      rt wait true clk = Some h
    /\ Middleware.h_manager h = Some m'
    /\ storage m' = storage m
    /\ trace m' = trace m2 ++ [Logged LWarn "Empty profiling data"]
    /\ Middleware.Log LInfo "Profiling completed successfully" ∈ Middleware.h_effects h.
Proof.
  intros Hen Hsp Hst Hmode Harmed.
  pose proof (ShouldProfile_setup hasUnicode visit now_admit m
                (Http.GetPath c) (Http.GetMethod c)) as (_ & _ & _ & _ & Hs1).
  pose proof (StartProfiling_storage rt now_start m1 (Http.GetPath c) task) as Hs2.
  rewrite Hsp in Hs1. rewrite Hst in Hs2. cbn [fst snd] in Hs1, Hs2.
  unfold Middleware.Middleware. cbn zeta. rewrite Hen, Hsp. cbn [negb]. rewrite Hst.
  unfold Middleware.before_stop. rewrite Harmed. cbn [andb].
  pose proof (Stop_again_nil rt2 (snd (Stop rt2 session)) session Hmode) as Hnil.
  unfold stop_result, stopped_session in Hnil.
  destruct (Stop rt2 session) as [[r session'] rt3]. cbn [fst snd] in Hnil.
  destruct (Stop rt3 session') as [[r2 session''] rt4] eqn:Hstop2.
  cbn [fst] in Hnil. subst r2.
  rewrite (StopProfiling_no_bytes localTime rt3 clk m2 (Http.GetPath c) (Http.GetMethod c)
             task session' None session'' rt4 Hstop2 eq_refl).
  eexists. eexists. split; [reflexivity|]. split; [reflexivity|]. cbn.
  split; [by rewrite Hs2, Hs1|]. split; [done|].
  apply elem_of_app. right. left.
Qed.

End BurstFacts.

Lemma serve_admissions_bounded_witness :
  let out := serve Examples.noUnicode Examples.single_manager
               [Examples.request Examples.single_manager 10 "/a/7" "GET";
                Examples.request Examples.single_manager 11 "/a/8" "GET"] in
  limiter (snd out) = (limiter Examples.single_manager + fst (fst out))%nat
  /\ Z.of_nat (fst (fst out))
     <= MaxConcurrent (options Examples.single_manager)
        - Z.of_nat (limiter Examples.single_manager).
Proof.
  apply (serve_admissions_bounded Examples.noUnicode Examples.single_manager).
  cbn. lia.
Defined.

Lemma Middleware_timer_loses_capture_witness :
  exists h m',
    Middleware.Middleware Examples.noUnicode Examples.frozen (Some Examples.heap_manager)
      Examples.ctx_a7 (map_to_list (tasks Examples.heap_manager)) 10 11
      Examples.runtime0 Middleware.TimedOut true Examples.clock0 = Some h
    /\ Middleware.h_manager h = Some m'
    /\ storage m' = storage Examples.heap_manager
    /\ trace m' = trace Examples.heap_started ++ [Logged LWarn "Empty profiling data"]
    /\ Middleware.Log LInfo "Profiling completed successfully" ∈ Middleware.h_effects h.
Proof.
  apply (Middleware_timer_loses_capture Examples.noUnicode Examples.frozen
           Examples.heap_manager Examples.ctx_a7 (map_to_list (tasks Examples.heap_manager))
           10 11 Examples.runtime0 Middleware.TimedOut Examples.clock0
           Examples.heap_job Examples.heap_admitted Examples.heap_session
           Examples.heap_started Examples.runtime0).
  - reflexivity.
  - vm_compute. reflexivity.
  - vm_compute. reflexivity.
  - discriminate.
  - reflexivity.
Defined.

(** ** The keys of the request context, and the life of a session *)

(** X26.  What [SetContext] stores under a key, [GetContext] returns for
    that key; a key whose converted name differs is not affected.  Keys
    that are not of type [string] are all converted to the empty name, so
    they share one slot with each other and with the empty string: a value
    stored under one of them is what every other returns. *)
Theorem SetContext_GetContext keys key value :
  Http.GetContext (Http.SetContext keys key value) key = value
  /\ (forall other, Http.keyToString other <> Http.keyToString key ->
        Http.GetContext (Http.SetContext keys key value) other = Http.GetContext keys other)
  /\ (forall other, (forall s, key <> Http.DString s) -> (forall s, other <> Http.DString s) ->
        Http.GetContext (Http.SetContext keys key value) other = value)
  /\ ((forall s, key <> Http.DString s) ->
        Http.GetContext (Http.SetContext keys key value) (Http.DString "") = value).
Proof.
  unfold Http.GetContext, Http.SetContext. repeat split.
  - by rewrite lookup_insert_eq.
  - intros other Hne. by rewrite lookup_insert_ne.
  - intros other Hk Ho.
    assert (Hsame : Http.keyToString other = Http.keyToString key).
    { destruct key as [|s|n], other as [|s'|n']; try done;
        by first [destruct (Hk s)|destruct (Ho s')]. }
    by rewrite Hsame, lookup_insert_eq.
  - intros Hk. assert (Hsame : Http.keyToString key = ""%string).
    { destruct key as [|s|n]; try done. by destruct (Hk s). }
    cbn [Http.keyToString]. by rewrite Hsame, lookup_insert_eq.
Qed.

(** X27.  A session a profiler has started is running and reports the
    instant of its start and its task; after [Stop], whatever [Stop]
    returned, it is no longer running, and it stays so and keeps its start
    instant through every later [Stop]. *)
Theorem session_lifecycle rt now p task s rt' :
  Profiler_StartProfiling rt now p task = ((Some s, None), rt') ->
  IsRunning s = true /\ GetStartTime s = now /\ session_task s = task
  /\ forall rt1 rt2,
       IsRunning (stopped_session rt1 s) = false
       /\ GetStartTime (stopped_session rt1 s) = now
       /\ IsRunning (stopped_session rt2 (stopped_session rt1 s)) = false
       /\ GetStartTime (stopped_session rt2 (stopped_session rt1 s)) = now.
Proof.
  destruct p; cbn [Profiler_StartProfiling].
  - unfold NewCPUProfileSession. destruct (cpuProfiling rt); [done|].
    cbn. intros [= <- <-]. by repeat split.
  - cbn. intros [= <- <-]. repeat split; try done.
    all: unfold stopped_session; cbn; by destruct (snd (heapProfile rt1)).
  - cbn. intros [= <- <-]. repeat split; try done.
    all: unfold stopped_session; cbn;
      destruct (goroutineProfile rt1) as [[written [e|]]|]; done.
Qed.

Lemma session_lifecycle_witness :
  IsRunning Examples.heap_session = true /\ GetStartTime Examples.heap_session = 11
  /\ session_task Examples.heap_session = Examples.heap_job
  /\ forall rt1 rt2,
       IsRunning (stopped_session rt1 Examples.heap_session) = false
       /\ GetStartTime (stopped_session rt1 Examples.heap_session) = 11
       /\ IsRunning (stopped_session rt2 (stopped_session rt1 Examples.heap_session)) = false
       /\ GetStartTime (stopped_session rt2 (stopped_session rt1 Examples.heap_session)) = 11.
Proof.
  apply (session_lifecycle Examples.runtime0 11 HeapProfiler Examples.heap_job
           Examples.heap_session Examples.runtime0).
  reflexivity.
Defined.
